(** * Agent chat gateway: the tool-calling loop and its HTTP handlers

    A shallow embedding of the JavaScript sources
      - tool-executor  (getAvailableTools, executeTool, processToolCalls,
                        chatWithTools),
      - github-client / linear-client (executeFunction and the tool tables),
      - ollama-client  (chat, chatStream, waitForOllama),
      - db             (conversations, messages and the agent memory),
      - the two server variants (loadAgents, initAgentMemory,
        POST /api/agents/:id/chat, POST /api/agents/:id/chat/stream and
        the two routes /api/agents/:id/memory).

    JavaScript values are embedded as follows.  Strings are Rocq strings:
    the bytes of the UTF-8 encoding of the text, so that a character of
    ASCII text is one byte and lengths count bytes.  JSON data is [JValue];
    [undefined] is [None] of an option type.  An [await]ed call that may
    reject is a value of [Outcome].  Arrays that are mutated in place and
    may be aliased live in a heap ([gmap loc (list Message)]).  The outside
    world (the model runtime, the two REST/GraphQL services, [JSON.parse]
    and [JSON.stringify]) is a set of section variables.

    The tool-executor is embedded twice.  [ToolExecutor] works on the
    records the API of the model runtime prescribes ([ChatData], [Message],
    [ToolCall]); the handlers call it.  [Untyped] works on the JSON value
    that was received, of whatever shape, where reading a property of
    [undefined] throws.  They agree on data of the prescribed shape
    ([ShapeProps.chatWithTools_of_data]). *)

From Stdlib Require Import ZArith QArith Qminmax Lqa String Ascii.
From stdpp Require Import gmap strings list pretty sorting.

Local Open Scope string_scope.
#[local] Set Warnings "-register-all".

(** ** JavaScript values *)

Module JS.

Inductive JValue : Type :=
| JNull
| JBool (b : bool)
| JNum (q : Q)
| JStr (s : string)
| JArr (items : list JValue)
| JObj (fields : list (string * JValue)).

(** A possibly-[undefined] value. *)
Abbreviation JSValue := (option JValue).

(** Result of awaiting a promise: fulfilled with a value, or rejected
    (equivalently: a synchronous [throw]) with an error of type [E]. *)
Inductive Outcome (E A : Type) : Type :=
| Returned (a : A)
| Threw (e : E).
Arguments Returned {E A} a.
Arguments Threw {E A} e.

(** ToBoolean. *)
Definition truthy (v : JValue) : bool :=
  match v with
  | JNull => false
  | JBool b => b
  | JNum q => negb (Qeq_bool q 0)
  | JStr s => negb (String.eqb s "")
  | JArr _ | JObj _ => true
  end.

Definition truthy_opt (v : JSValue) : bool :=
  match v with
  | None => false
  | Some v => truthy v
  end.

(** [typeof v === 'string'] *)
Definition is_string (v : JSValue) : bool :=
  match v with
  | Some (JStr _) => true
  | _ => false
  end.

(** [a || b] on possibly-undefined values. *)
Definition or_else (a b : JSValue) : JSValue :=
  if truthy_opt a then a else b.

(** [a ?? b] *)
Definition nullish (a : JSValue) (b : JValue) : JValue :=
  match a with
  | None | Some JNull => b
  | Some v => v
  end.

(** Truthiness of a string. *)
Definition nonempty (s : string) : bool := negb (String.eqb s "").

(** [s || d] for a possibly-undefined string. *)
Definition str_or (s : option string) (d : string) : string :=
  match s with
  | Some (String c r) => String c r
  | _ => d
  end.

(** Property lookup [o.k] on an object's field list (first binding). *)
Fixpoint get_field (k : string) (fields : list (string * JValue)) : JSValue :=
  match fields with
  | [] => None
  | (k', v) :: rest => if String.eqb k k' then Some v else get_field k rest
  end.

(** The string with the given bytes. *)
Definition bytes (codes : list nat) : string :=
  foldr (fun n s => String (ascii_of_nat n) s) EmptyString codes.

(** The characters [String.prototype.trim] removes, WhiteSpace and
    LineTerminator of ECMAScript, each as its UTF-8 encoding: TAB, LF, VT,
    FF, CR, SPACE, U+00A0, U+1680, U+2000 to U+200A, U+2028, U+2029,
    U+202F, U+205F, U+3000 and U+FEFF. *)
Definition white_space : list string :=
  bytes <$> [ [9]; [10]; [11]; [12]; [13]; [32];
              [194; 160];
              [225; 154; 128];
              [226; 128; 128]; [226; 128; 129]; [226; 128; 130]; [226; 128; 131];
              [226; 128; 132]; [226; 128; 133]; [226; 128; 134]; [226; 128; 135];
              [226; 128; 136]; [226; 128; 137]; [226; 128; 138];
              [226; 128; 168]; [226; 128; 169]; [226; 128; 175];
              [226; 129; 159];
              [227; 128; 128];
              [239; 187; 191] ].

Definition is_white_space (w : string) : bool := existsb (String.eqb w) white_space.

(** Drops leading white space, one character (of one, two or three bytes)
    at a time. *)
Fixpoint trim_start (s : string) : string :=
  match s with
  | EmptyString => EmptyString
  | String a r1 =>
      if is_white_space (String a EmptyString) then trim_start r1
      else
        match r1 with
        | EmptyString => s
        | String b r2 =>
            if is_white_space (String a (String b EmptyString)) then trim_start r2
            else
              match r2 with
              | EmptyString => s
              | String c r3 =>
                  if is_white_space (String a (String b (String c EmptyString)))
                  then trim_start r3
                  else s
              end
        end
  end.

(** Drops trailing white space: the string is cut where only white space
    follows. *)
Fixpoint trim_end (s : string) : string :=
  match trim_start s with
  | EmptyString => EmptyString
  | _ =>
      match s with
      | String a r => String a (trim_end r)
      | EmptyString => EmptyString
      end
  end.

(** [s.trim()] *)
Definition trim (s : string) : string := trim_end (trim_start s).

(** [s.startsWith(p)] *)
Definition startsWith (s p : string) : bool := String.prefix p s.

(** [s.substring(0, n)] *)
Definition substring0 (n : nat) (s : string) : string := String.substring 0 n s.

(** [s.includes(sub)] *)
Fixpoint includes (s sub : string) : bool :=
  String.prefix sub s ||
  match s with
  | String _ r => includes r sub
  | EmptyString => false
  end.

(** Message of V8's TypeError for reading property [p] of [null] or
    [undefined]. *)
Definition cannot_read (what p : string) : string :=
  "Cannot read properties of " +:+ what +:+ " (reading '" +:+ p +:+ "')".

(** [args.p]: reading a property of [null] throws, an object yields the
    field or [undefined], and the remaining JSON values have none of the
    properties the executors read. *)
Definition read_prop (args : JValue) (p : string) : Outcome string JSValue :=
  match args with
  | JNull => Threw (cannot_read "null" p)
  | JObj fields => Returned (get_field p fields)
  | _ => Returned None
  end.

(** Evaluates [args.p1, args.p2, ...] left to right. *)
Fixpoint read_props (args : JValue) (ps : list string) : Outcome string (list JSValue) :=
  match ps with
  | [] => Returned []
  | p :: rest =>
      match read_prop args p with
      | Threw m => Threw m
      | Returned v =>
          match read_props args rest with
          | Threw m => Threw m
          | Returned vs => Returned (v :: vs)
          end
      end
  end.

(** The two JSON built-ins.  [JSON.parse] fails ([None]) on text that is
    not JSON; [JSON.stringify] of a JSON value is a string. *)
Class JSON := {
  JSON_parse : string -> option JValue;
  JSON_stringify : JValue -> string
}.

(** Table lookup by name (first binding), as a [switch] or an object
    literal indexed by a string. *)
Fixpoint assoc {A} (k : string) (table : list (string * A)) : option A :=
  match table with
  | [] => None
  | (k', a) :: rest => if String.eqb k k' then Some a else assoc k rest
  end.

End JS.
Export JS.

(** ** The external services

    The try body of an API wrapper ([github_list_repos], ...,
    [linear_list_states]) performs one network exchange and shapes the
    response; it either completes with the wrapper's success value or raises
    (network failure, non-2xx status, GraphQL error, unexpected response
    shape) with a message.  Both are given by the environment, as a function
    of the wrapper's name, its positional parameters and the credential. *)

Class Services := {
  github_try : string -> list JSValue -> string -> Outcome string JValue;
  linear_try : string -> list JSValue -> string -> Outcome string JSValue
}.

(** ** github-client *)

Module Github.
Section Github.
Context `{Services}.

(** Names of the entries of [tools], in order. *)
Definition tools : list string :=
  [ "github_list_repos"; "github_search_repos"; "github_get_file";
    "github_list_files"; "github_search_code"; "github_list_issues";
    "github_create_issue"; "github_list_pulls"; "github_get_repo";
    "github_list_branches"; "github_create_or_update_file" ].

(** The [case] labels of [executeFunction] with the properties of [args]
    each one passes on, in order. *)
Definition cases : list (string * list string) :=
  [ ("github_list_repos", []);
    ("github_search_repos", ["query"]);
    ("github_get_file", ["repo"; "path"; "ref"]);
    ("github_list_files", ["repo"; "path"; "ref"]);
    ("github_search_code", ["query"; "repo"]);
    ("github_list_issues", ["repo"; "state"]);
    ("github_create_issue", ["repo"; "title"; "body"; "labels"]);
    ("github_list_pulls", ["repo"; "state"]);
    ("github_get_repo", ["repo"]);
    ("github_list_branches", ["repo"]);
    ("github_create_or_update_file",
       ["repo"; "path"; "content"; "message"; "sha"; "branch"]) ].

(** Every wrapper has the shape
    [try { ... return value } catch (error) { return { error: message } }]. *)
Definition wrapper (name : string) (params : list JSValue) (token : string) : JValue :=
  match github_try name params token with
  | Returned value => value
  | Threw message => JObj [("error", JStr message)]
  end.

Definition executeFunction (name : string) (args : JValue) (token : string) : JValue :=
  match assoc name cases with
  | Some props =>
      match read_props args props with
      | Returned params => wrapper name params token
      | Threw message => JObj [("error", JStr message)]
      end
  | None => JObj [("error", JStr ("Unknown function: " +:+ name))]
  end.

End Github.
End Github.

(** ** linear-client *)

Module Linear.
Section Linear.
Context `{Services}.

Definition tools : list string :=
  [ "linear_list_teams"; "linear_list_projects"; "linear_list_issues";
    "linear_search_issues"; "linear_create_issue"; "linear_update_issue";
    "linear_list_states" ].

(** The keys of [functionMap] with the properties of [args] each closure
    reads when it is called.  (The properties [functionMap] inherits from
    [Object.prototype] are not listed: none of them starts with
    [linear_], the only names [executeTool] routes here.) *)
Definition functionMap : list (string * list string) :=
  [ ("linear_list_teams", []);
    ("linear_list_projects", ["teamId"]);
    ("linear_list_issues", ["teamId"; "state"; "limit"]);
    ("linear_search_issues", ["query"]);
    ("linear_create_issue", ["teamId"; "title"; "description"; "priority"; "projectId"]);
    ("linear_update_issue", ["issueId"; "title"; "description"; "priority"; "stateId"]);
    ("linear_list_states", ["teamId"]) ].

(** The text each wrapper's [catch] puts before the error message. *)
Definition failure_prefix : list (string * string) :=
  [ ("linear_list_teams", "Failed to list teams: ");
    ("linear_list_projects", "Failed to list projects: ");
    ("linear_list_issues", "Failed to list issues: ");
    ("linear_search_issues", "Failed to search issues: ");
    ("linear_create_issue", "Failed to create issue: ");
    ("linear_update_issue", "Failed to update issue: ");
    ("linear_list_states", "Failed to list workflow states: ") ].

Definition wrapper (name : string) (params : list JSValue) (apiKey : string) : JSValue :=
  match linear_try name params apiKey with
  | Returned value => value
  | Threw message =>
      Some (JObj [("error", JStr (default "" (assoc name failure_prefix) +:+ message))])
  end.

Definition executeFunction (name : string) (args : JValue) (apiKey : string) : JSValue :=
  match assoc name functionMap with
  | None => Some (JObj [("error", JStr ("Unknown function: " +:+ name))])
  | Some props =>
      match read_props args props with
      | Returned params => wrapper name params apiKey
      | Threw message =>
          Some (JObj [("error", JStr ("Function execution failed: " +:+ message))])
      end
  end.

End Linear.
End Linear.

(** ** Data exchanged with the model runtime *)

(** A tool call issued by the model: [{ id, function: { name, arguments } }].
    The argument payload is structured data or a string holding JSON. *)
Record ToolCall := {
  tc_id : option string;
  tc_name : string;
  tc_arguments : JValue
}.

(** A chat message.  Absent properties are [None]. *)
Record Message := {
  role : string;
  content : option string;
  tool_calls : option (list ToolCall);
  tool_call_id : option string
}.

(** What [processToolCalls] produces per call:
    [{ tool_call_id, role: 'tool', content }]. *)
Record ToolResult := {
  tr_tool_call_id : option string;
  tr_role : string;
  tr_content : string
}.

(** ** Errors, the model runtime and the world *)

(** What a rejected axios request carries: a response with a non-2xx
    status, or no response at all (refused connection, timeout). *)
Inductive AxiosError :=
| ResponseError (status : Z) (statusText : string) (data_error : option string)
                (message : string)
| RequestError (message : string).

Inductive JSError :=
| Axios (e : AxiosError)
| Error (message : string)
| TypeError (message : string).

Definition error_message (err : JSError) : string :=
  match err with
  | Axios (ResponseError _ _ _ message) => message
  | Axios (RequestError message) => message
  | Error message => message
  | TypeError message => message
  end.

(** The value of a call expression [f(...)] for an [async function f]: a
    promise, which later settles. *)
Inductive Promise (A : Type) := promise (settles : Outcome JSError A).
Arguments promise {A} settles.

(** Body of a request to [/api/chat]. *)
Record Payload := {
  p_model : string;
  p_messages : list Message;
  p_stream : bool;
  p_tools : option (list string);
  p_options : list (string * JValue)
}.

(** [response.data] of a non-streaming chat completion. *)
Record ChatData := {
  d_message : Message;
  d_model : option string;
  d_total_duration : JSValue;
  d_eval_count : JSValue
}.

(** Response of [fetch] to a streaming request: the [ok] flag with the
    status and text, and the chunks of the body as the reader delivers
    them. *)
Record FetchResponse := {
  f_ok : bool;
  f_status : Z;
  f_text : string;
  f_body : list string
}.

(** The model runtime answers the [n]-th request of a handler run. *)
Class ModelRuntime := {
  axios_post : nat -> Payload -> Outcome AxiosError ChatData;
  fetch_post : nat -> Payload -> Outcome string FetchResponse
}.

(** Process environment read by the modules. *)
Record ProcessEnv := {
  GITHUB_TOKEN : option string;
  LINEAR_API_KEY : option string;
  OLLAMA_MODEL : option string
}.

Module Db.

Record ConversationRow := {
  c_id : string;
  c_agent_id : string;
  c_title : option string;
  c_created_at : nat;
  c_updated_at : nat
}.

Record MessageRow := {
  m_id : string;
  m_conversation_id : string;
  m_role : string;
  m_content : string;
  m_created_at : nat
}.

(** The two tables, the value of [NOW()] and the number of primary keys
    generated so far.  [messages] is kept in insertion order, which is the
    order of [created_at]. *)
Record Store := {
  conversations : gmap string ConversationRow;
  messages : list MessageRow;
  now : nat;
  issued : nat
}.

Section Queries.
(** [uuid_generate_v4()] for the [n]-th generated key. *)
Variable uuid_generate_v4 : nat -> string.

(** [INSERT INTO conversations ... RETURNING *]; a key that is taken
    violates the primary key. *)
Definition createConversation (agentId : string) (title : string) (st : Store)
  : Outcome JSError ConversationRow * Store :=
  let key := uuid_generate_v4 (issued st) in
  let row := {| c_id := key; c_agent_id := agentId;
                c_title := match title with EmptyString => None | _ => Some title end;
                c_created_at := now st; c_updated_at := now st |} in
  match conversations st !! key with
  | Some _ => (Threw (Error "duplicate key value violates unique constraint"), st)
  | None =>
      (Returned row,
       {| conversations := <[key := row]> (conversations st);
          messages := messages st;
          now := S (now st);
          issued := S (issued st) |})
  end.

(** [SELECT * FROM messages WHERE conversation_id = $1 ORDER BY created_at
    ASC LIMIT $2] *)
Definition getMessages (conversationId : string) (limit : nat) (st : Store)
  : list MessageRow :=
  take limit (filter (fun m => m_conversation_id m = conversationId) (messages st)).

(** Returns the row with its messages, or [null]. *)
Definition getConversation (conversationId : string) (st : Store)
  : option (ConversationRow * list MessageRow) :=
  match conversations st !! conversationId with
  | None => None
  | Some row =>
      Some (row, filter (fun m => m_conversation_id m = conversationId) (messages st))
  end.

Definition role_allowed (r : string) : bool :=
  String.eqb r "system" || String.eqb r "user" || String.eqb r "assistant".

(** [INSERT INTO messages ...] followed by [updateConversationTimestamp].
    The foreign key and the [CHECK] on [role] reject the insertion. *)
Definition addMessage (conversationId role content : string) (st : Store)
  : Outcome JSError MessageRow * Store :=
  match conversations st !! conversationId with
  | None => (Threw (Error "insert or update on table violates foreign key constraint"), st)
  | Some conv =>
      if negb (role_allowed role)
      then (Threw (Error "new row violates check constraint"), st)
      else
        let row := {| m_id := uuid_generate_v4 (issued st);
                      m_conversation_id := conversationId; m_role := role;
                      m_content := content; m_created_at := now st |} in
        let conv' := {| c_id := c_id conv; c_agent_id := c_agent_id conv;
                        c_title := c_title conv; c_created_at := c_created_at conv;
                        c_updated_at := S (now st) |} in
        (Returned row,
         {| conversations := <[conversationId := conv']> (conversations st);
            messages := (messages st ++ [row])%list;
            now := S (S (now st));
            issued := S (issued st) |})
  end.

End Queries.
End Db.

(** ** The world a request handler runs in *)

Definition loc := positive.

(** Calls observed during a run, oldest first. *)
Inductive Event :=
| Posted (payload : Payload)            (* a request reached the model runtime *)
| Entered (function : string).          (* a function of the repository was called *)

Record World := {
  heap : gmap loc (list Message);       (* arrays of messages, by reference *)
  trace : list Event;
  db : Db.Store
}.

Definition set_heap (h : gmap loc (list Message)) (w : World) : World :=
  {| heap := h; trace := trace w; db := db w |}.

Definition emit (e : Event) (w : World) : World :=
  {| heap := heap w; trace := (trace w ++ [e])%list; db := db w |}.

Definition set_db (st : Db.Store) (w : World) : World :=
  {| heap := heap w; trace := trace w; db := st |}.

Definition is_post (e : Event) : bool :=
  match e with Posted _ => true | Entered _ => false end.

Definition is_entry (f : string) (e : Event) : bool :=
  match e with Posted _ => false | Entered g => String.eqb f g end.

(** Number of requests that reached the model runtime. *)
Definition model_calls (w : World) : nat := length (filter is_post (trace w)).

(** Number of calls of the function named [f]. *)
Definition entries (f : string) (w : World) : nat :=
  length (filter (is_entry f) (trace w)).

(** A new array holding [items]. *)
Definition alloc (items : list Message) (w : World) : loc * World :=
  let r := fresh (dom (heap w)) in
  (r, set_heap (<[r := items]> (heap w)) w).

(** The elements of the array at [r]. *)
Definition elements_of (r : loc) (w : World) : list Message := heap w !!! r.

(** [r.push(m)] *)
Definition push (r : loc) (m : Message) (w : World) : World :=
  set_heap (alter (fun items => items ++ [m])%list r (heap w)) w.

(** [{ ...v }]: the own enumerable properties of [v]. *)
Definition spread (v : JSValue) : list (string * JValue) :=
  match v with
  | Some (JObj fields) => fields
  | Some (JArr items) => imap (fun i x => (pretty i, x)) items
  | Some (JStr s) =>
      imap (fun i c => (pretty i, JStr (String c EmptyString))) (list_ascii_of_string s)
  | _ => []
  end.

(** ** ollama-client *)

Module Ollama.
Section Ollama.
Context `{JSON} `{ModelRuntime}.
Variable env : ProcessEnv.

Definition DEFAULT_MODEL : string := str_or (OLLAMA_MODEL env) "glm4".

(** The [options] object of the payload.  Later properties of an object
    literal win, so the spread comes first in the field list. *)
Definition payload_options (options : list (string * JValue)) : list (string * JValue) :=
  (spread (or_else (get_field "ollamaOptions" options) (Some (JObj [])))
   ++ [ ("temperature", nullish (get_field "temperature" options) (JNum (7 # 10)));
        ("num_predict", nullish (get_field "maxTokens" options) (JNum 4096));
        ("top_p", nullish (get_field "topP" options) (JNum (9 # 10))) ])%list.

(** [client.post('/api/chat', payload)] *)
Definition post (payload : Payload) (w : World) : Outcome AxiosError ChatData * World :=
  (axios_post (model_calls w) payload, emit (Posted payload) w).

Definition chat (model : string) (messages : loc) (options : list (string * JValue))
                (w : World) : Outcome JSError ChatData * World :=
  let w := emit (Entered "chat") w in
  let payload := {| p_model := str_or (Some model) DEFAULT_MODEL;
                    p_messages := elements_of messages w;
                    p_stream := false;
                    p_tools := None;
                    p_options := payload_options options |} in
  match post payload w with
  | (Returned data, w) => (Returned data, w)
  | (Threw (ResponseError status statusText data_error _), w) =>
      let msg := str_or data_error statusText in
      (Threw (Error ("Ollama chat error (" +:+ pretty status +:+ "): " +:+ msg)), w)
  | (Threw (RequestError message), w) =>
      (Threw (Error ("Ollama connection error: " +:+ message)), w)
  end.

(** [chunk.split('\n')] *)
Fixpoint split_lines (s : string) : list string :=
  match s with
  | EmptyString => [EmptyString]
  | String c r =>
      if Ascii.eqb c "010"%char then EmptyString :: split_lines r
      else match split_lines r with
           | line :: lines => String c line :: lines
           | [] => [String c EmptyString]
           end
  end.

(** [json.message?.content] when it is truthy, for a line that parses. *)
Definition fragment_of_line (line : string) : option string :=
  match JSON_parse line with
  | Some (JObj fields) =>
      match get_field "message" fields with
      | Some (JObj message) =>
          match get_field "content" message with
          | Some (JStr (String c r)) => Some (String c r)
          | _ => None
          end
      | _ => None
      end
  | _ => None
  end.

(** What the [ReadableStream] built by [chatStream] enqueues for one chunk
    of the response body. *)
Definition fragments_of_chunk (chunk : string) : list string :=
  omap fragment_of_line
       (filter (fun line => trim line <> EmptyString) (split_lines chunk)).

(** The object a call of [chatStream] resolves to.  [abort] is not
    modelled. *)
Record StreamHandle := { stream : list string }.

Definition chatStream (model : string) (messages : loc) (options : list (string * JValue))
                      (w : World) : Promise StreamHandle * World :=
  let w := emit (Entered "chatStream") w in
  let payload := {| p_model := str_or (Some model) DEFAULT_MODEL;
                    p_messages := elements_of messages w;
                    p_stream := true;
                    p_tools := None;
                    p_options := payload_options options |} in
  let n := model_calls w in
  let w := emit (Posted payload) w in
  match fetch_post n payload with
  | Threw message =>
      (promise (Threw (Error ("Ollama stream connection error: " +:+ message))), w)
  | Returned response =>
      if negb (f_ok response) then
        (promise (Threw (Error ("Ollama stream connection error: " +:+
                                "Ollama stream error (" +:+ pretty (f_status response)
                                +:+ "): " +:+ f_text response))), w)
      else
        (promise (Returned {| stream := concat (map fragments_of_chunk (f_body response)) |}), w)
  end.

End Ollama.
End Ollama.

(** ** tool-executor *)

Module ToolExecutor.
Section ToolExecutor.
Context `{JSON} `{Services} `{ModelRuntime}.

Definition getAvailableTools (githubToken linearApiKey : string) : list string :=
  let tools := [] in
  let tools := if nonempty githubToken then (tools ++ Github.tools)%list else tools in
  let tools := if nonempty linearApiKey then (tools ++ Linear.tools)%list else tools in
  tools.

(** The body of the second [try] of [executeTool]: routing by prefix and
    conversion of the result to a string. *)
Definition route (functionName : string) (args : JValue) (githubToken linearApiKey : string)
  : Outcome string string :=
  let result : Outcome string JSValue :=
    if startsWith functionName "github_" then
      if negb (nonempty githubToken) then Threw "GitHub token not configured"
      else Returned (Some (Github.executeFunction functionName args githubToken))
    else if startsWith functionName "linear_" then
      if negb (nonempty linearApiKey) then Threw "Linear API key not configured"
      else Returned (Linear.executeFunction functionName args linearApiKey)
    else Threw ("Unknown tool: " +:+ functionName) in
  match result with
  | Threw message => Threw message
  | Returned (Some (JStr s)) => Returned s
  | Returned (Some v) => Returned (JSON_stringify v)
  | Returned None =>
      (* JSON.stringify(undefined) is undefined; [.substring] on it throws *)
      Threw (cannot_read "undefined" "substring")
  end.

(** The first [try] of [executeTool]: a string payload is parsed, anything
    else is taken as it is.  [None] when [JSON.parse] throws. *)
Definition parsed_arguments (toolCall : ToolCall) : option JValue :=
  match tc_arguments toolCall with
  | JStr text => JSON_parse text
  | args => Some args
  end.

Definition executeTool (toolCall : ToolCall) (githubToken linearApiKey : string) : string :=
  let functionName := tc_name toolCall in
  match parsed_arguments toolCall with
  | None => JSON_stringify (JObj [("error", JStr "Invalid JSON arguments")])
  | Some args =>
      match route functionName args githubToken linearApiKey with
      | Returned resultString => resultString
      | Threw message =>
          JSON_stringify (JObj [("error", JStr message); ("tool", JStr functionName)])
      end
  end.

(** [Promise.all(toolCalls.map(async ...))]: the array of results is
    indexed like [toolCalls]. *)
Definition processToolCalls (toolCalls : list ToolCall) (githubToken linearApiKey : string)
  : list ToolResult :=
  map (fun toolCall =>
         let content := executeTool toolCall githubToken linearApiKey in
         {| tr_tool_call_id := tc_id toolCall; tr_role := "tool"; tr_content := content |})
      toolCalls.


(** The value [chatWithTools] resolves to.  [maxIterationsReached] is
    present only on the fallback. *)
Record LoopResult := {
  r_message : string;
  r_toolResults : list ToolResult;
  r_iterations : nat;
  r_totalDuration : JSValue;
  r_evalCount : JSValue;
  r_maxIterationsReached : option bool
}.

(** The synthetic message pushed for one tool result. *)
Definition tool_message (result : ToolResult) : Message :=
  {| role := "tool"; content := Some (tr_content result);
     tool_calls := None; tool_call_id := None |}.

(** [for (const result of results) currentMessages.push({ role: 'tool',
    content: result.content })] *)
Definition push_results (currentMessages : loc) (results : list ToolResult) (w : World)
  : World :=
  foldl (fun w result => push currentMessages (tool_message result) w) w results.

(** The [payload] object built at the top of each iteration. *)
Definition loop_payload (model : string) (tools : list string)
                        (options : list (string * JValue)) (messages : list Message)
  : Payload :=
  {| p_model := model;
     p_messages := messages;
     p_stream := false;
     p_tools := match tools with [] => None | _ => Some tools end;
     p_options :=
       [ ("temperature", nullish (get_field "temperature" options) (JNum (7 # 10)));
         ("num_predict", nullish (get_field "maxTokens" options) (JNum 4096)) ] |}.

(** The [while (iterations < maxIterations)] loop and the code after it.
    [remaining] is the loop's variant [maxIterations - iterations]; the
    condition holds exactly when it is not zero. *)
Fixpoint iterate (model : string) (tools : list string) (options : list (string * JValue))
                 (githubToken linearApiKey : string)
                 (remaining iterations : nat) (currentMessages : loc)
                 (allToolResults : list ToolResult) (w : World)
  : Outcome JSError LoopResult * World :=
  match remaining with
  | S remaining =>
      let iterations := S iterations in
      let payload := loop_payload model tools options (elements_of currentMessages w) in
      match axios_post (model_calls w) payload, emit (Posted payload) w with
      | Threw error, w => (Threw (Axios error), w)
      | Returned data, w =>
          let assistantMsg := d_message data in
          match tool_calls assistantMsg with
          | Some (toolCall :: others) =>
              let w := push currentMessages assistantMsg w in
              let results :=
                processToolCalls (toolCall :: others) githubToken linearApiKey in
              let allToolResults := (allToolResults ++ results)%list in
              let w := push_results currentMessages results w in
              iterate model tools options githubToken linearApiKey
                      remaining iterations currentMessages allToolResults w
          | _ =>
              (Returned {| r_message := str_or (content assistantMsg) "";
                           r_toolResults := allToolResults;
                           r_iterations := iterations;
                           r_totalDuration := d_total_duration data;
                           r_evalCount := d_eval_count data;
                           r_maxIterationsReached := None |}, w)
          end
      end
  | O =>
      let lastMessage := last (elements_of currentMessages w) in
      (Returned {| r_message := str_or (lastMessage ≫= content) "Max tool iterations reached";
                   r_toolResults := allToolResults;
                   r_iterations := iterations;
                   r_totalDuration := None;
                   r_evalCount := None;
                   r_maxIterationsReached := Some true |}, w)
  end.

(** [messages] is the caller's array; [currentMessages = [...messages]] is
    a new array with the same elements.  The [ollamaClient] argument is the
    model runtime of the context; [maxIterations] is 10 when the caller
    leaves it out. *)
Definition chatWithTools (model : string) (messages : loc) (tools : list string)
                         (options : list (string * JValue))
                         (githubToken linearApiKey : string) (maxIterations : nat)
                         (w : World) : Outcome JSError LoopResult * World :=
  let w := emit (Entered "chatWithTools") w in
  let (currentMessages, w) := alloc (elements_of messages w) w in
  iterate model tools options githubToken linearApiKey
          maxIterations 0 currentMessages [] w.

End ToolExecutor.
End ToolExecutor.

(** ** tool-executor on the data as it arrives

    In [ToolExecutor] a response of the model runtime is a [ChatData] and a
    tool call a [ToolCall]: the shapes the API of the runtime prescribes.
    Here [response.data] is the JSON value that was received, whatever its
    shape, and a property is read as JavaScript reads it: [undefined] and
    [null] have no properties, and reading one of theirs throws a
    [TypeError].  The array [currentMessages] is local to a run; it is
    passed on as a list. *)

Module Untyped.

(** Body of a request to [/api/chat]; the messages are the elements of
    [currentMessages]. *)
Record Request := {
  q_model : string;
  q_messages : list JValue;
  q_stream : bool;
  q_tools : option (list string);
  q_options : list (string * JValue)
}.

(** The model runtime answers the [n]-th request of a run with a failure
    or with a response, whose [data] is a JSON value. *)
Class Runtime := {
  post : nat -> Request -> Outcome AxiosError JValue
}.

(** [Number(v) > 0] for a string or an array [v]: the conversion of text
    to a number is the environment's. *)
Class Numbers := {
  positive_number : JValue -> bool
}.

(** What [processToolCalls] produces per call. *)
Record ToolResult := {
  t_tool_call_id : JSValue;
  t_role : string;
  t_content : string
}.

(** The value [chatWithTools] resolves to. *)
Record LoopResult := {
  l_message : JValue;
  l_toolResults : list ToolResult;
  l_iterations : nat;
  l_totalDuration : JSValue;
  l_evalCount : JSValue;
  l_maxIterationsReached : option bool
}.

(** A run of [chatWithTools]: how it settled, the elements of
    [currentMessages] when it did, and the requests that reached the model
    runtime, oldest first. *)
Record Run := {
  outcome : Outcome JSError LoopResult;
  working : list JValue;
  sent : list Request
}.

(** How the [try] block of an iteration ends when it does not throw: it
    returns the final result, or the loop goes on with the results of the
    tool calls. *)
Inductive Step :=
| Final (result : LoopResult)
| Again (results : list ToolResult).

#[export] Instance outcome_bind {E} : MBind (Outcome E) :=
  fun A B f m =>
    match m with
    | Returned a => f a
    | Threw e => Threw e
    end.

(** [v.p] where [v] has properties: the data properties the loop reads
    are own properties of an object and [undefined] on every other JSON
    value. *)
Definition property (v : JValue) (p : string) : JSValue :=
  match v with
  | JObj fields => get_field p fields
  | _ => None
  end.

(** The value [v] of an access [v.p]. *)
Definition deref (v : JSValue) (p : string) : Outcome JSError JValue :=
  match v with
  | None => Threw (TypeError (cannot_read "undefined" p))
  | Some JNull => Threw (TypeError (cannot_read "null" p))
  | Some v => Returned v
  end.

(** [v?.p] *)
Definition optional (v : JSValue) (p : string) : JSValue :=
  match v with
  | None | Some JNull => None
  | Some v => property v p
  end.

(** [v || text] *)
Definition or_text (v : JSValue) (text : string) : JValue :=
  match v with
  | Some v => if truthy v then v else JStr text
  | None => JStr text
  end.

(** [Promise.all]: the results in the order of the promises, or the first
    rejection. *)
Fixpoint all {A} (promises : list (Outcome JSError A)) : Outcome JSError (list A) :=
  match promises with
  | [] => Returned []
  | Threw e :: _ => Threw e
  | Returned a :: rest =>
      match all rest with
      | Threw e => Threw e
      | Returned results => Returned (a :: results)
      end
  end.

Section Untyped.
Context `{JSON} `{Services} `{Runtime} `{Numbers}.

(** [x > 0] *)
Definition greater_than_zero (x : JSValue) : bool :=
  match x with
  | None | Some JNull | Some (JObj _) => false
  | Some (JBool b) => b
  | Some (JNum q) => negb (Qle_bool q 0)
  | Some (JStr s) => positive_number (JStr s)
  | Some (JArr items) => positive_number (JArr items)
  end.

(** [v.length > 0] *)
Definition length_positive (v : JSValue) : bool :=
  match v with
  | Some (JArr items) => negb (Nat.eqb (length items) 0)
  | Some (JStr s) => nonempty s
  | Some (JObj fields) => greater_than_zero (get_field "length" fields)
  | _ => false
  end.

(** The first [try] of [executeTool]: a string is parsed, anything else
    (also [undefined]) is taken as it is.  [None] when [JSON.parse]
    throws. *)
Definition parsed_arguments (args : JSValue) : option JSValue :=
  match args with
  | Some (JStr text) => Some <$> JSON_parse text
  | args => Some args
  end.

(** The second [try] of [executeTool].  [functionName.startsWith] exists
    on a string only. *)
Definition dispatch (functionName : JSValue) (args : JValue)
                    (githubToken linearApiKey : string) : Outcome string string :=
  match functionName with
  | Some (JStr name) => ToolExecutor.route name args githubToken linearApiKey
  | None => Threw (cannot_read "undefined" "startsWith")
  | Some JNull => Threw (cannot_read "null" "startsWith")
  | Some _ => Threw "functionName.startsWith is not a function"
  end.

(** The property [tool] of the error object: [JSON.stringify] leaves out
    a property that is [undefined]. *)
Definition tool_property (functionName : JSValue) : list (string * JValue) :=
  match functionName with
  | Some name => [("tool", name)]
  | None => []
  end.

(** [executeTool].  The preview of the arguments is computed between the
    two [try] blocks: [JSON.stringify(undefined)] is [undefined], and
    [.substring] on it throws. *)
Definition executeTool (toolCall : JValue) (githubToken linearApiKey : string)
  : Outcome JSError string :=
  call ← deref (Some toolCall) "function";
  function ← deref (property call "function") "name";
  let functionName := property function "name" in
  let args := property function "arguments" in
  match parsed_arguments args with
  | None => Returned (JSON_stringify (JObj [("error", JStr "Invalid JSON arguments")]))
  | Some None => Threw (TypeError (cannot_read "undefined" "substring"))
  | Some (Some args) =>
      match dispatch functionName args githubToken linearApiKey with
      | Returned resultString => Returned resultString
      | Threw message =>
          Returned (JSON_stringify
                      (JObj (("error", JStr message) :: tool_property functionName)))
      end
  end.

(** [processToolCalls]: [toolCalls.map] exists on an array only.  A call
    rejects before its first [await], so the first rejection is the one of
    the first call that rejects. *)
Definition processToolCalls (toolCalls : JSValue) (githubToken linearApiKey : string)
  : Outcome JSError (list ToolResult) :=
  toolCalls ← deref toolCalls "length";
  match toolCalls with
  | JArr items =>
      all ((fun toolCall =>
              content ← executeTool toolCall githubToken linearApiKey;
              Returned {| t_tool_call_id := property toolCall "id";
                          t_role := "tool";
                          t_content := content |}) <$> items)
  | _ => Threw (TypeError "toolCalls.map is not a function")
  end.

(** The synthetic message pushed for one tool result. *)
Definition tool_message (result : ToolResult) : JValue :=
  JObj [("role", JStr "tool"); ("content", JStr (t_content result))].

(** The [payload] object built at the top of each iteration. *)
Definition loop_payload (model : string) (tools : list string)
                        (options : list (string * JValue)) (messages : list JValue)
  : Request :=
  {| q_model := model;
     q_messages := messages;
     q_stream := false;
     q_tools := match tools with [] => None | _ => Some tools end;
     q_options :=
       [ ("temperature", nullish (get_field "temperature" options) (JNum (7 # 10)));
         ("num_predict", nullish (get_field "maxTokens" options) (JNum 4096)) ] |}.

(** [response.data.message], of which [tool_calls] is read next. *)
Definition assistant_message (data : JValue) : Outcome JSError JValue :=
  data ← deref (Some data) "message";
  deref (property data "message") "tool_calls".

(** The [try] block of an iteration from [response.data.message] on, with
    the elements of [currentMessages] when it is left. *)
Definition received (data : JValue) (githubToken linearApiKey : string)
                    (iterations : nat) (allToolResults : list ToolResult)
                    (currentMessages : list JValue)
  : Outcome JSError Step * list JValue :=
  match assistant_message data with
  | Threw error => (Threw error, currentMessages)
  | Returned assistantMsg =>
      let tool_calls := property assistantMsg "tool_calls" in
      if truthy_opt tool_calls && length_positive tool_calls then
        let currentMessages := (currentMessages ++ [assistantMsg])%list in
        match processToolCalls tool_calls githubToken linearApiKey with
        | Threw error => (Threw error, currentMessages)
        | Returned results =>
            (Returned (Again results),
             (currentMessages ++ (tool_message <$> results))%list)
        end
      else
        (Returned (Final {| l_message := or_text (property assistantMsg "content") "";
                            l_toolResults := allToolResults;
                            l_iterations := iterations;
                            l_totalDuration := property data "total_duration";
                            l_evalCount := property data "eval_count";
                            l_maxIterationsReached := None |}),
         currentMessages)
  end.

(** The [while (iterations < maxIterations)] loop and the code after it.
    [remaining] is the loop's variant [maxIterations - iterations].  The
    [catch] rethrows whatever the [try] block threw. *)
Fixpoint iterate (model : string) (tools : list string) (options : list (string * JValue))
                 (githubToken linearApiKey : string)
                 (remaining iterations : nat) (currentMessages : list JValue)
                 (allToolResults : list ToolResult) (requests : list Request) : Run :=
  match remaining with
  | S remaining =>
      let iterations := S iterations in
      let payload := loop_payload model tools options currentMessages in
      let response := post (length requests) payload in
      let requests := (requests ++ [payload])%list in
      match response with
      | Threw error =>
          {| outcome := Threw (Axios error); working := currentMessages; sent := requests |}
      | Returned data =>
          match received data githubToken linearApiKey iterations allToolResults
                         currentMessages with
          | (Threw error, currentMessages) =>
              {| outcome := Threw error; working := currentMessages; sent := requests |}
          | (Returned (Final result), currentMessages) =>
              {| outcome := Returned result; working := currentMessages; sent := requests |}
          | (Returned (Again results), currentMessages) =>
              iterate model tools options githubToken linearApiKey remaining iterations
                      currentMessages (allToolResults ++ results)%list requests
          end
      end
  | O =>
      let lastMessage := last currentMessages in
      {| outcome :=
           Returned {| l_message :=
                         or_text (optional lastMessage "content") "Max tool iterations reached";
                       l_toolResults := allToolResults;
                       l_iterations := iterations;
                       l_totalDuration := None;
                       l_evalCount := None;
                       l_maxIterationsReached := Some true |};
         working := currentMessages;
         sent := requests |}
  end.

(** [chatWithTools]: [currentMessages = [...messages]]. *)
Definition chatWithTools (model : string) (messages : list JValue) (tools : list string)
                         (options : list (string * JValue))
                         (githubToken linearApiKey : string) (maxIterations : nat) : Run :=
  iterate model tools options githubToken linearApiKey maxIterations 0 messages [] [].

End Untyped.
End Untyped.

(** ** The shapes of the API as JSON

    A [ToolCall], a [Message] or a [ChatData] is the JSON object that has
    the properties which are present.  On such data the loop of
    [ToolExecutor] and the loop of [Untyped] are the same. *)

Module Shaped.

(** A property that may be absent. *)
Definition field {A} (k : string) (f : A -> JValue) (v : option A)
  : list (string * JValue) :=
  match v with
  | Some a => [(k, f a)]
  | None => []
  end.

Definition of_call (toolCall : ToolCall) : JValue :=
  JObj (field "id" JStr (tc_id toolCall)
        ++ [("function", JObj [("name", JStr (tc_name toolCall));
                               ("arguments", tc_arguments toolCall)])]).

Definition of_message (m : Message) : JValue :=
  JObj (("role", JStr (role m))
        :: field "content" JStr (content m)
        ++ field "tool_calls" (fun toolCalls => JArr (of_call <$> toolCalls)) (tool_calls m)
        ++ field "tool_call_id" JStr (tool_call_id m)).

Definition of_data (data : ChatData) : JValue :=
  JObj (("message", of_message (d_message data))
        :: field "model" JStr (d_model data)
        ++ field "total_duration" id (d_total_duration data)
        ++ field "eval_count" id (d_eval_count data)).

Definition of_payload (payload : Payload) : Untyped.Request :=
  {| Untyped.q_model := p_model payload;
     Untyped.q_messages := of_message <$> p_messages payload;
     Untyped.q_stream := p_stream payload;
     Untyped.q_tools := p_tools payload;
     Untyped.q_options := p_options payload |}.

Definition of_tool_result (result : ToolResult) : Untyped.ToolResult :=
  {| Untyped.t_tool_call_id := JStr <$> tr_tool_call_id result;
     Untyped.t_role := tr_role result;
     Untyped.t_content := tr_content result |}.

Definition of_result (result : ToolExecutor.LoopResult) : Untyped.LoopResult :=
  {| Untyped.l_message := JStr (ToolExecutor.r_message result);
     Untyped.l_toolResults := of_tool_result <$> ToolExecutor.r_toolResults result;
     Untyped.l_iterations := ToolExecutor.r_iterations result;
     Untyped.l_totalDuration := ToolExecutor.r_totalDuration result;
     Untyped.l_evalCount := ToolExecutor.r_evalCount result;
     Untyped.l_maxIterationsReached := ToolExecutor.r_maxIterationsReached result |}.

(** The outcome of a request, or of a run, with its value as JSON. *)
Definition of_outcome {E A B} (f : A -> B) (o : Outcome E A) : Outcome E B :=
  match o with
  | Returned a => Returned (f a)
  | Threw e => Threw e
  end.

End Shaped.


(** ** The HTTP layer *)

(** An entry of the agent registry (the properties the handlers read). *)
Record Agent := {
  a_id : string;
  a_systemInstructions : string;
  a_temperature : JSValue;              (* modelPreferences?.temperature *)
  a_allowedTools : list string          (* lettaConfig?.allowedTools || [] *)
}.

(** [req.params.id] and the properties of [req.body] the chat handlers
    destructure. *)
Record ChatRequest := {
  params_id : string;
  message : JSValue;
  conversationId : option string;
  options : JSValue;
  githubToken : option string;
  linearApiKey : option string
}.

Inductive Body :=
| ErrorBody (error : string) (details : option string)
| ChatBody (response conversationId agent model : string)
           (toolsUsed : option (list (string * string)))
           (totalDuration evalCount : JSValue).

(** One [data: ...] record written to an event stream. *)
Inductive SseEvent :=
| SseError (error : string) (details : option string)
| SseChunk (chunk : string) (done : bool) (conversationId model : option string).

Inductive Response :=
| Json (status : Z) (body : Body)
| EventStream (events : list SseEvent).

Definition quote : string := String (ascii_of_nat 34) EmptyString.

Definition agent_not_found (id : string) : Response :=
  Json 404 (ErrorBody ("Agent '" +:+ id +:+ "' nicht gefunden") None).

Definition message_required : string :=
  "Feld " +:+ quote +:+ "message" +:+ quote +:+ " ist erforderlich (nicht-leerer String)".

Definition conversation_not_found (convId : string) : string :=
  "Conversation '" +:+ convId +:+ "' nicht gefunden".

Definition wrong_agent (convId owner agent : string) : string :=
  "Conversation '" +:+ convId +:+ "' gehoert zu Agent '" +:+ owner
  +:+ "', nicht zu '" +:+ agent +:+ "'".

(** The guard
    [!message || typeof message !== 'string' || message.trim().length === 0];
    [Some s] when the request passes it with the string [s]. *)
Definition accepted_message (message : JSValue) : option string :=
  if negb (truthy_opt message) || negb (is_string message) then None
  else match message with
       | Some (JStr s) => if (String.length (trim s) =? 0)%nat then None else Some s
       | _ => None
       end.

Definition to_message (m : Db.MessageRow) : Message :=
  {| role := Db.m_role m; content := Some (Db.m_content m);
     tool_calls := None; tool_call_id := None |}.

Definition system_message (agent : Agent) : Message :=
  {| role := "system"; content := Some (a_systemInstructions agent);
     tool_calls := None; tool_call_id := None |}.

(** [a || d] with a defined default. *)
Definition or_default (a : JSValue) (d : JValue) : JValue :=
  match a with
  | Some v => if truthy v then v else d
  | None => d
  end.

(** The [catch] of the chat handlers. *)
Definition chat_failed (err : JSError) : Response :=
  if includes (error_message err) "connection" then
    Json 503 (ErrorBody "Ollama ist nicht erreichbar. Bitte spaeter erneut versuchen."
                        (Some (error_message err)))
  else
    Json 500 (ErrorBody "Chat-Anfrage fehlgeschlagen" (Some (error_message err))).

Section Helpers.
Variable uuid_generate_v4 : nat -> string.

(** Runs a statement of the [db] module. *)
Definition query {A} (q : Db.Store -> Outcome JSError A * Db.Store) (w : World)
  : Outcome JSError A * World :=
  let (r, st) := q (db w) in (r, set_db st w).

Definition addMessage (conversationId role content : string) :=
  query (Db.addMessage uuid_generate_v4 conversationId role content).

Definition createConversation (agentId title : string) :=
  query (Db.createConversation uuid_generate_v4 agentId title).

(** [[{ role: 'system', ... }, ...history.map(...)]] as a new array. *)
Definition build_messages (agent : Agent) (convId : string) (w : World) : loc * World :=
  let history := Db.getMessages convId 50 (db w) in
  alloc (system_message agent :: map to_message history) w.

(** [{ temperature, ...(options || {}) }]; the spread properties win. *)
Definition chat_options (agent : Agent) (options : JSValue) : list (string * JValue) :=
  (spread (or_else options (Some (JObj [])))
   ++ [("temperature", nullish (a_temperature agent) (JNum (7 # 10)))])%list.

End Helpers.

(** ** Server with tool calling and streaming *)

Module Server.
Section Server.
Context `{JSON} `{Services} `{ModelRuntime}.
Variable uuid_generate_v4 : nat -> string.
Variable env : ProcessEnv.
Variable agents : gmap string Agent.

(** *** POST /api/agents/:id/chat *)

(** The [try] block from "User-Nachricht speichern" on, with [convId]
    settled. *)
Definition chat_turn (agent : Agent) (req : ChatRequest) (message convId : string)
                     (w : World) : Outcome JSError Response * World :=
  let ghToken := str_or (githubToken req) (str_or (GITHUB_TOKEN env) "") in
  let lnKey := str_or (linearApiKey req) (str_or (LINEAR_API_KEY env) "") in
  match addMessage uuid_generate_v4 convId "user" (trim message) w with
  | (Threw err, w) => (Threw err, w)
  | (Returned _, w) =>
      let (ollamaMessages, w) := build_messages agent convId w in
      let model := Ollama.DEFAULT_MODEL env in
      let availableTools := ToolExecutor.getAvailableTools ghToken lnKey in
      let generated : Outcome JSError (string * list ToolResult * JSValue * JSValue) * World :=
        match availableTools with
        | _ :: _ =>
            match ToolExecutor.chatWithTools model ollamaMessages availableTools
                    (chat_options agent (options req)) ghToken lnKey 10 w with
            | (Threw err, w) => (Threw err, w)
            | (Returned result, w) =>
                (Returned (ToolExecutor.r_message result,
                           ToolExecutor.r_toolResults result,
                           Some (or_default (ToolExecutor.r_totalDuration result) (JNum 0)),
                           Some (or_default (ToolExecutor.r_evalCount result) (JNum 0))), w)
            end
        | [] =>
            match Ollama.chat env model ollamaMessages (chat_options agent (options req)) w with
            | (Threw err, w) => (Threw err, w)
            | (Returned ollamaResponse, w) =>
                (Returned (str_or (content (d_message ollamaResponse)) "",
                           [],
                           d_total_duration ollamaResponse,
                           d_eval_count ollamaResponse), w)
            end
        end in
      match generated with
      | (Threw err, w) => (Threw err, w)
      | (Returned (assistantMessage, toolsUsed, totalDuration, evalCount), w) =>
          match addMessage uuid_generate_v4 convId "assistant" assistantMessage w with
          | (Threw err, w) => (Threw err, w)
          | (Returned _, w) =>
              (Returned
                 (Json 200
                    (ChatBody assistantMessage convId (a_id agent) model
                       (Some (map (fun t => (str_or (tr_tool_call_id t) "tool",
                                             substring0 500 (tr_content t)))
                                  toolsUsed))
                       totalDuration evalCount)), w)
          end
      end
  end.

(** The [try] block: load the conversation or create one. *)
Definition chat_try (agent : Agent) (req : ChatRequest) (message : string) (w : World)
  : Outcome JSError Response * World :=
  match conversationId req with
  | Some (String c r as convId) =>
      match Db.getConversation convId (db w) with
      | None =>
          (Returned (Json 404 (ErrorBody (conversation_not_found convId) None)), w)
      | Some (conversation, _) =>
          if negb (String.eqb (Db.c_agent_id conversation) (a_id agent)) then
            (Returned (Json 400 (ErrorBody
               (wrong_agent convId (Db.c_agent_id conversation) (a_id agent)) None)), w)
          else chat_turn agent req message convId w
      end
  | _ =>
      let title := substring0 100 message in
      match createConversation uuid_generate_v4 (a_id agent) title w with
      | (Threw err, w) => (Threw err, w)
      | (Returned conversation, w) =>
          chat_turn agent req message (Db.c_id conversation) w
      end
  end.

Definition chat (req : ChatRequest) (w : World) : Response * World :=
  match agents !! params_id req with
  | None => (agent_not_found (params_id req), w)
  | Some agent =>
      match accepted_message (message req) with
      | None => (Json 400 (ErrorBody message_required None), w)
      | Some message =>
          match chat_try agent req message w with
          | (Returned response, w) => (response, w)
          | (Threw err, w) => (chat_failed err, w)
          end
      end
  end.


(** *** POST /api/agents/:id/chat/stream *)

(** What a [for await (... of v)] loop can be given here: an object with
    [Symbol.asyncIterator] that yields [items], or a promise.  A promise
    has neither [Symbol.asyncIterator] nor [Symbol.iterator], so
    GetIterator throws a TypeError before the first iteration. *)
Inductive Iterand :=
| AsyncIterable (items : list JValue)
| APromise (p : Promise Ollama.StreamHandle).

Definition GetIterator (callee : string) (v : Iterand) : Outcome JSError (list JValue) :=
  match v with
  | AsyncIterable items => Returned items
  | APromise _ =>
      Threw (TypeError (callee +:+ " is not a function or its return value is not async iterable"))
  end.

(** [chunk.message?.content || ''] *)
Definition textChunk_of (chunk : JValue) : string :=
  match chunk with
  | JObj fields =>
      match get_field "message" fields with
      | Some (JObj message) =>
          match get_field "content" message with
          | Some (JStr s) => s
          | _ => ""
          end
      | _ => ""
      end
  | _ => ""
  end.

(** The body of the [for await] loop over the chunks: [fullMessage] grows
    and one event is written per chunk. *)
Definition consume (chunks : list JValue) : string * list SseEvent :=
  foldl (fun '(fullMessage, written) chunk =>
           let textChunk := textChunk_of chunk in
           (fullMessage +:+ textChunk,
            (written ++ [SseChunk textChunk false None None])%list))
        ("", []) chunks.

(** The [try] block from "User-Nachricht speichern" on.  [has_chatStream]
    is [typeof ollama.chatStream === 'function']: it holds for the cloud
    client and fails for the local client, which exports no [chatStream].
    The result is the list of events written, or the error thrown together
    with the events written before it. *)
Definition stream_turn (has_chatStream : bool) (agent : Agent) (req : ChatRequest)
                       (message convId : string) (w : World)
  : Outcome (JSError * list SseEvent) (list SseEvent) * World :=
  match addMessage uuid_generate_v4 convId "user" (trim message) w with
  | (Threw err, w) => (Threw (err, []), w)
  | (Returned _, w) =>
      let (ollamaMessages, w) := build_messages agent convId w in
      let model := Ollama.DEFAULT_MODEL env in
      if has_chatStream then
        let (p, w) := Ollama.chatStream env model ollamaMessages
                        (chat_options agent (options req)) w in
        match GetIterator "ollama.chatStream(...)" (APromise p) with
        | Threw err => (Threw (err, []), w)
        | Returned chunks =>
            let (fullMessage, written) := consume chunks in
            match addMessage uuid_generate_v4 convId "assistant" fullMessage w with
            | (Threw err, w) => (Threw (err, written), w)
            | (Returned _, w) =>
                (Returned (written ++ [SseChunk "" true (Some convId) (Some model)])%list, w)
            end
        end
      else
        match Ollama.chat env model ollamaMessages (chat_options agent (options req)) w with
        | (Threw err, w) => (Threw (err, []), w)
        | (Returned ollamaResponse, w) =>
            let assistantMessage := str_or (content (d_message ollamaResponse)) "" in
            match addMessage uuid_generate_v4 convId "assistant" assistantMessage w with
            | (Threw err, w) => (Threw (err, []), w)
            | (Returned _, w) =>
                (Returned [SseChunk assistantMessage true (Some convId)
                             (Some (str_or (d_model ollamaResponse) model))], w)
            end
        end
  end.

Definition stream_try (has_chatStream : bool) (agent : Agent) (req : ChatRequest)
                      (message : string) (w : World)
  : Outcome (JSError * list SseEvent) (list SseEvent) * World :=
  match conversationId req with
  | Some (String c r as convId) =>
      match Db.getConversation convId (db w) with
      | None => (Returned [SseError (conversation_not_found convId) None], w)
      | Some (conversation, _) =>
          if negb (String.eqb (Db.c_agent_id conversation) (a_id agent)) then
            (Returned [SseError
               (wrong_agent convId (Db.c_agent_id conversation) (a_id agent)) None], w)
          else stream_turn has_chatStream agent req message convId w
      end
  | _ =>
      let title := substring0 100 message in
      match createConversation uuid_generate_v4 (a_id agent) title w with
      | (Threw err, w) => (Threw (err, []), w)
      | (Returned conversation, w) =>
          stream_turn has_chatStream agent req message (Db.c_id conversation) w
      end
  end.

Definition chat_stream (has_chatStream : bool) (req : ChatRequest) (w : World)
  : Response * World :=
  match agents !! params_id req with
  | None => (agent_not_found (params_id req), w)
  | Some agent =>
      match accepted_message (message req) with
      | None => (Json 400 (ErrorBody message_required None), w)
      | Some message =>
          match stream_try has_chatStream agent req message w with
          | (Returned written, w) => (EventStream written, w)
          | (Threw (err, written), w) =>
              (EventStream
                 (written ++ [SseError "Streaming-Anfrage fehlgeschlagen"
                                       (Some (error_message err))])%list, w)
          end
      end
  end.

End Server.
End Server.

(** ** Server without tools *)

Module ServerBasic.
Section ServerBasic.
Context `{ModelRuntime}.
Variable uuid_generate_v4 : nat -> string.
Variable env : ProcessEnv.
Variable agents : gmap string Agent.

Definition chat_turn (agent : Agent) (req : ChatRequest) (message convId : string)
                     (w : World) : Outcome JSError Response * World :=
  match addMessage uuid_generate_v4 convId "user" (trim message) w with
  | (Threw err, w) => (Threw err, w)
  | (Returned _, w) =>
      let (ollamaMessages, w) := build_messages agent convId w in
      let model := Ollama.DEFAULT_MODEL env in
      match Ollama.chat env model ollamaMessages (chat_options agent (options req)) w with
      | (Threw err, w) => (Threw err, w)
      | (Returned ollamaResponse, w) =>
          let assistantMessage := str_or (content (d_message ollamaResponse)) "" in
          match addMessage uuid_generate_v4 convId "assistant" assistantMessage w with
          | (Threw err, w) => (Threw err, w)
          | (Returned _, w) =>
              (Returned
                 (Json 200
                    (ChatBody assistantMessage convId (a_id agent)
                       (str_or (d_model ollamaResponse) model) None
                       (d_total_duration ollamaResponse)
                       (d_eval_count ollamaResponse))), w)
          end
      end
  end.

Definition chat_try (agent : Agent) (req : ChatRequest) (message : string) (w : World)
  : Outcome JSError Response * World :=
  match conversationId req with
  | Some (String c r as convId) =>
      match Db.getConversation convId (db w) with
      | None =>
          (Returned (Json 404 (ErrorBody (conversation_not_found convId) None)), w)
      | Some (conversation, _) =>
          if negb (String.eqb (Db.c_agent_id conversation) (a_id agent)) then
            (Returned (Json 400 (ErrorBody
               (wrong_agent convId (Db.c_agent_id conversation) (a_id agent)) None)), w)
          else chat_turn agent req message convId w
      end
  | _ =>
      let title := substring0 100 message in
      match createConversation uuid_generate_v4 (a_id agent) title w with
      | (Threw err, w) => (Threw err, w)
      | (Returned conversation, w) =>
          chat_turn agent req message (Db.c_id conversation) w
      end
  end.

Definition chat (req : ChatRequest) (w : World) : Response * World :=
  match agents !! params_id req with
  | None => (agent_not_found (params_id req), w)
  | Some agent =>
      match accepted_message (message req) with
      | None => (Json 400 (ErrorBody message_required None), w)
      | Some message =>
          match chat_try agent req message w with
          | (Returned response, w) => (response, w)
          | (Threw err, w) => (chat_failed err, w)
          end
      end
  end.

End ServerBasic.
End ServerBasic.

(** * Further code of the repository *)

(** ** db: the remaining queries

    As in [Db], an identifier of a conversation is a value of the column
    type [UUID], and the strings passed to a statement are text the
    database stores as given, up to the length of the column. *)

Module DbMore.
Import Db.

(** [DELETE FROM conversations WHERE id = $1 RETURNING id]; the messages of
    the conversation are deleted with it ([ON DELETE CASCADE]).  The result
    is [rows.length > 0]. *)
Definition deleteConversation (conversationId : string) (st : Store) : bool * Store :=
  match conversations st !! conversationId with
  | None => (false, st)
  | Some _ =>
      (true,
       {| conversations := delete conversationId (conversations st);
          messages := filter (fun m => m_conversation_id m <> conversationId) (messages st);
          now := S (now st);
          issued := issued st |})
  end.

(** A row of [listConversations]: the conversation with the two
    sub-selects [message_count] and [last_message]. *)
Record ConversationSummary := {
  s_conversation : ConversationRow;
  s_message_count : nat;
  s_last_message : option string
}.

Definition summary (st : Store) (c : ConversationRow) : ConversationSummary :=
  let log := filter (fun m => m_conversation_id m = c_id c) (messages st) in
  {| s_conversation := c;
     s_message_count := length log;
     s_last_message := m_content <$> last log |}.

(** [ORDER BY c.updated_at DESC] *)
Definition newer_first (a b : ConversationSummary) : Prop :=
  c_updated_at (s_conversation b) <= c_updated_at (s_conversation a).

#[global] Instance newer_first_dec a b : Decision (newer_first a b).
Proof. unfold newer_first. apply _. Defined.

(** The conversations of an agent, most recently updated first.  (The
    order among rows with the same [updated_at] is the one the sort gives
    them; SQL leaves it open.) *)
Definition listConversations (agentId : string) (st : Store) : list ConversationSummary :=
  merge_sort newer_first
    (summary st <$> filter (fun c => c_agent_id c = agentId)
                           (snd <$> map_to_list (conversations st))).

(** *** The table [agent_memory] *)

Record MemoryRow := {
  mem_id : string;
  mem_agent_id : string;
  mem_label : string;
  mem_value : string;
  mem_updated_at : nat
}.

(** The rows by their unique key [(agent_id, label)], the value of [NOW()]
    and the number of primary keys generated.  A generated key is taken to
    be new, so the primary key [id] of this table is never violated. *)
Record MemoryStore := {
  blocks : gmap (string * string) MemoryRow;
  mem_now : nat;
  mem_issued : nat
}.

(** Whether a string consists of spaces only. *)
Fixpoint spaces_only (s : string) : bool :=
  match s with
  | EmptyString => true
  | String c rest => Ascii.eqb c " " && spaces_only rest
  end.

(** Storing [s] in a column of type [VARCHAR(n)]: a longer string is an
    error, unless the characters beyond the [n]-th are all spaces, in which
    case the first [n] characters are stored. *)
Definition varchar (n : nat) (s : string) : option string :=
  if (String.length s <=? n)%nat then Some s
  else if spaces_only (String.substring n (String.length s - n) s)
       then Some (String.substring 0 n s)
       else None.

Section Memory.
Variable uuid_generate_v4 : nat -> string.
(** The collation of the database, which orders the labels. *)
Context (label_le : relation string) `{forall a b, Decision (label_le a b)}.

(** [INSERT ... ON CONFLICT (agent_id, label) DO UPDATE SET value = $3,
    updated_at = NOW() RETURNING *] *)
Definition upsertAgentMemory (agentId label value : string) (ms : MemoryStore)
  : Outcome JSError MemoryRow * MemoryStore :=
  match varchar 128 agentId, varchar 128 label with
  | Some agent, Some label =>
      let row :=
        match blocks ms !! (agent, label) with
        | Some old =>
            {| mem_id := mem_id old; mem_agent_id := agent; mem_label := label;
               mem_value := value; mem_updated_at := mem_now ms |}
        | None =>
            {| mem_id := uuid_generate_v4 (mem_issued ms); mem_agent_id := agent;
               mem_label := label; mem_value := value; mem_updated_at := mem_now ms |}
        end in
      (Returned row,
       {| blocks := <[(agent, label) := row]> (blocks ms);
          mem_now := S (mem_now ms);
          mem_issued := S (mem_issued ms) |})
  | _, _ => (Threw (Error "value too long for type character varying(128)"), ms)
  end.

(** [DELETE FROM agent_memory WHERE agent_id = $1 AND label = $2 RETURNING
    id]; the result is [rows.length > 0]. *)
Definition deleteAgentMemory (agentId label : string) (ms : MemoryStore)
  : bool * MemoryStore :=
  match blocks ms !! (agentId, label) with
  | None => (false, ms)
  | Some _ =>
      (true,
       {| blocks := delete (agentId, label) (blocks ms);
          mem_now := S (mem_now ms);
          mem_issued := mem_issued ms |})
  end.

(** [SELECT * FROM agent_memory WHERE agent_id = $1 ORDER BY label ASC] *)
Definition getAgentMemory (agentId : string) (ms : MemoryStore) : list MemoryRow :=
  merge_sort (fun a b => label_le (mem_label a) (mem_label b))
    (filter (fun r => mem_agent_id r = agentId) (snd <$> map_to_list (blocks ms))).

End Memory.
End DbMore.

(** ** ollama-client: the start-up wait *)

Module OllamaMore.

(** An entry of [response.data.models]. *)
Record ModelInfo := { model_name : string }.

(** [client.get('/api/tags')] for the [n]-th request: the [models] property
    of the response data (possibly absent), or the message of the error. *)
Class TagsEndpoint := {
  get_tags : nat -> Outcome string (option (list ModelInfo))
}.

Section OllamaMore.
Context `{TagsEndpoint}.

(** [delay = Math.min(delay * 1.5, 15000)], in exact arithmetic. *)
Definition next_delay (delay : Q) : Q := Qmin (delay * (3 # 2)) 15000.

(** The loop [for (attempt = 1; attempt <= maxRetries; attempt++)] of
    [waitForOllama]; [remaining] is [maxRetries - attempt + 1].  The result
    is the value returned, the delays slept (oldest first) and the number of
    requests made. *)
Fixpoint wait_loop (remaining : nat) (delay : Q) (slept : list Q) (n : nat)
  : bool * list Q * nat :=
  match remaining with
  | O => (false, slept, n)
  | S remaining =>
      match get_tags n with
      | Returned _ => (true, slept, S n)
      | Threw _ => wait_loop remaining (next_delay delay) (slept ++ [delay])%list (S n)
      end
  end.

Definition waitForOllama (maxRetries : nat) (initialDelay : Q) (n : nat)
  : bool * list Q * nat :=
  wait_loop maxRetries initialDelay [] n.

End OllamaMore.
End OllamaMore.

(** ** server: the agent registry, the initial memory and further routes *)

Module ServerMore.
Import DbMore.

(** A parsed agent file: the properties [loadAgents] reads, with [id],
    [name], [description], [systemInstructions] and [version] strings when
    present; the nested objects are kept as JSON. *)
Record AgentConfig := {
  cfg_id : option string;
  cfg_name : option string;
  cfg_description : option string;
  cfg_systemInstructions : option string;
  cfg_modelPreferences : JSValue;
  cfg_lettaConfig : JSValue;
  cfg_frameworks : JSValue;
  cfg_knowledge : JSValue;
  cfg_version : option string;
  cfg_createdAt : JSValue
}.

(** The value stored in the registry for a file. *)
Record AgentEntry := {
  e_id : string;
  e_name : string;
  e_description : string;
  e_systemInstructions : string;
  e_modelPreferences : JValue;
  e_lettaConfig : JValue;
  e_frameworks : JValue;
  e_knowledge : JValue;
  e_version : string;
  e_createdAt : JSValue;
  e_sourceFile : string
}.

(** [s.endsWith(suffix)] *)
Definition endsWith (s suffix : string) : bool :=
  String.prefix (String.rev suffix) (String.rev s).

(** The state of the loop over the files: the registry and the two
    counters. *)
Record Loaded := {
  registry : gmap string AgentEntry;
  loaded : nat;
  skipped : nat
}.

(** One iteration of the loop of [loadAgents] for a file whose content
    was read and parsed ([Some]) or could not be ([None], the [catch]). *)
Definition load_file (acc : Loaded) (file : string * option AgentConfig) : Loaded :=
  match file.2 with
  | None => {| registry := registry acc; loaded := loaded acc; skipped := S (skipped acc) |}
  | Some config =>
      match cfg_id config, cfg_systemInstructions config with
      | Some (String c r as id), Some (String c' r' as instructions) =>
          {| registry :=
               <[id := {| e_id := id;
                          e_name := str_or (cfg_name config) id;
                          e_description := str_or (cfg_description config) "";
                          e_systemInstructions := instructions;
                          e_modelPreferences :=
                            or_default (cfg_modelPreferences config) (JObj []);
                          e_lettaConfig := or_default (cfg_lettaConfig config) (JObj []);
                          e_frameworks := or_default (cfg_frameworks config) (JArr []);
                          e_knowledge := or_default (cfg_knowledge config) (JObj []);
                          e_version := str_or (cfg_version config) "1.0.0";
                          e_createdAt := cfg_createdAt config;
                          e_sourceFile := file.1 |}]> (registry acc);
             loaded := S (loaded acc);
             skipped := skipped acc |}
      | _, _ =>
          {| registry := registry acc; loaded := loaded acc; skipped := S (skipped acc) |}
      end
  end.

(** [loadAgents] on the listing of [/agents] ([None] when the directory
    does not exist), starting from the registry [agents]. *)
Definition loadAgents (dir : option (list (string * option AgentConfig)))
                      (agents : gmap string AgentEntry) : Loaded :=
  match dir with
  | None => {| registry := agents; loaded := 0; skipped := 0 |}
  | Some listing =>
      let files := filter (fun f => endsWith f.1 ".json" = true) listing in
      foldl load_file {| registry := agents; loaded := 0; skipped := 0 |} files
  end.

(** An element of [lettaConfig.memoryBlocks], with the [label] and the
    [value] it has (strings, when present). *)
Record MemoryBlock := { b_label : option string; b_value : option string }.

Section Routes.
Variable uuid_generate_v4 : nat -> string.
Context (label_le : relation string) `{forall a b, Decision (label_le a b)}.

(** The body of the inner loop of [initAgentMemory] for one block: the
    store and the counter [initialized]. *)
Definition init_block (agentId : string) (acc : nat * MemoryStore) (block : MemoryBlock)
  : nat * MemoryStore :=
  let (initialized, ms) := acc in
  match b_label block, b_value block with
  | Some (String c r as label), Some (String c' r' as value) =>
      let existing := getAgentMemory label_le agentId ms in
      let exists_ := existsb (fun m => String.eqb (mem_label m) label) existing in
      if negb exists_ then
        match upsertAgentMemory uuid_generate_v4 agentId label value ms with
        | (Returned _, ms) => (S initialized, ms)
        | (Threw _, ms) => (initialized, ms)
        end
      else (initialized, ms)
  | _, _ => (initialized, ms)
  end.

(** [initAgentMemory] over the entries of the registry in iteration order,
    each with its [lettaConfig?.memoryBlocks || []]. *)
Definition initAgentMemory (entries : list (string * list MemoryBlock)) (ms : MemoryStore)
  : nat * MemoryStore :=
  foldl (fun acc entry => foldl (init_block entry.1) acc entry.2) (0, ms) entries.

(** What a route answers: an error, or the body of the memory routes. *)
Inductive Reply :=
| Refused (status : Z) (error : string) (details : option string)
| Block (agent label value : string) (updatedAt : nat)
| Blocks (agent : string) (blocks : list (string * string * nat)).

(** *** POST /api/agents/:id/memory *)

(** [!v || typeof v !== 'string'] fails: [v] is a non-empty string. *)
Definition required_string (v : JSValue) : option string :=
  match v with
  | Some (JStr (String c r)) => Some (String c r)
  | _ => None
  end.

Definition post_memory (agents : gmap string Agent) (id : string) (label value : JSValue)
                       (ms : MemoryStore) : Reply * MemoryStore :=
  match agents !! id with
  | None => (Refused 404 ("Agent '" +:+ id +:+ "' nicht gefunden") None, ms)
  | Some agent =>
      match required_string label with
      | None =>
          (Refused 400
             ("Feld " +:+ quote +:+ "label" +:+ quote +:+ " ist erforderlich (String)") None,
           ms)
      | Some label =>
          match required_string value with
          | None =>
              (Refused 400
                 ("Feld " +:+ quote +:+ "value" +:+ quote +:+ " ist erforderlich (String)")
                 None, ms)
          | Some value =>
              match upsertAgentMemory uuid_generate_v4 (a_id agent) label value ms with
              | (Returned result, ms) =>
                  (Block (a_id agent) (mem_label result) (mem_value result)
                         (mem_updated_at result), ms)
              | (Threw err, ms) =>
                  (Refused 500 "Fehler beim Aktualisieren der Memory"
                           (Some (error_message err)), ms)
              end
          end
      end
  end.

(** *** GET /api/agents/:id/memory *)

Definition get_memory (agents : gmap string Agent) (id : string) (ms : MemoryStore)
  : Reply :=
  match agents !! id with
  | None => Refused 404 ("Agent '" +:+ id +:+ "' nicht gefunden") None
  | Some agent =>
      Blocks (a_id agent)
             ((fun m => (mem_label m, mem_value m, mem_updated_at m))
                <$> getAgentMemory label_le (a_id agent) ms)
  end.

End Routes.
End ServerMore.

(** * Statements about the further code *)

Module MoreStatements.
Import ToolExecutor DbMore.

(** Every stored message belongs to a stored conversation. *)
Definition no_orphans (st : Db.Store) : Prop :=
  forall m, m ∈ Db.messages st -> is_Some (Db.conversations st !! Db.m_conversation_id m).

(** Every conversation is stored under its own identifier. *)
Definition keyed_by_id (st : Db.Store) : Prop :=
  forall k c, Db.conversations st !! k = Some c -> Db.c_id c = k.

(** No conversation was updated after the current value of [NOW()]. *)
Definition timely (st : Db.Store) : Prop :=
  forall k c, Db.conversations st !! k = Some c -> Db.c_updated_at c <= Db.now st.

(** The messages of a conversation, oldest first. *)
Definition log_of (conversationId : string) (st : Db.Store) : list Db.MessageRow :=
  filter (fun m => Db.m_conversation_id m = conversationId) (Db.messages st).

(** Every memory block is stored under its own agent and label. *)
Definition keyed (ms : MemoryStore) : Prop :=
  forall k r, blocks ms !! k = Some r -> k = (mem_agent_id r, mem_label r).

Section Tools.
Context `{JSON} `{ModelRuntime}.

(** The string [executeTool] returns for the value [result] of an
    executor: a string as it is, another value serialized, and for
    [undefined] the error object of the [catch]. *)
Definition rendered (functionName : string) (result : JSValue) : string :=
  match result with
  | Some (JStr s) => s
  | Some v => JSON_stringify v
  | None =>
      JSON_stringify (JObj [("error", JStr (cannot_read "undefined" "substring"));
                            ("tool", JStr functionName)])
  end.

(** The tool calls the model asked for in its answers to the requests
    [posts], the first of which was the [n]-th request to the runtime. *)
Fixpoint requested_calls (n : nat) (posts : list Payload) : list ToolCall :=
  match posts with
  | [] => []
  | payload :: posts =>
      match axios_post n payload with
      | Returned data => default [] (tool_calls (d_message data))
      | Threw _ => []
      end ++ requested_calls (S n) posts
  end.

End Tools.

(** The first [k] delays of the start-up wait that begins with [delay]. *)
Fixpoint schedule (k : nat) (delay : Q) : list Q :=
  match k with
  | O => []
  | S k => delay :: schedule k (OllamaMore.next_delay delay)
  end.

(** An entry that [loadAgents] made for the identifier [id] from one of
    the [files]. *)
Definition loaded_from (files : list (string * option ServerMore.AgentConfig))
           (id : string) (e : ServerMore.AgentEntry) : Prop :=
  ServerMore.e_id e = id /\ id <> "" /\ ServerMore.e_systemInstructions e <> "" /\
  exists file config,
    file ∈ files /\ file.2 = Some config /\
    ServerMore.cfg_id config = Some id /\
    ServerMore.cfg_systemInstructions config = Some (ServerMore.e_systemInstructions e) /\
    ServerMore.e_sourceFile e = file.1.

(** The registry a file makes when it alone is loaded into an empty one:
    its one entry, or nothing when the file is skipped. *)
Definition made_by (file : string * option ServerMore.AgentConfig)
  : gmap string ServerMore.AgentEntry :=
  ServerMore.registry
    (ServerMore.load_file
       {| ServerMore.registry := ∅; ServerMore.loaded := 0; ServerMore.skipped := 0 |}
       file).

(** The agent ids and the labels of the configured blocks fit their
    columns. *)
Definition fitting (entries : list (string * list ServerMore.MemoryBlock)) : Prop :=
  forall entry, entry ∈ entries ->
    String.length entry.1 <= 128 /\
    forall block label,
      block ∈ entry.2 -> ServerMore.b_label block = Some label ->
      String.length label <= 128.

(** A configured block that [initAgentMemory] takes up (label and value
    are non-empty) has a stored block of its label. *)
Definition settled (agentId : string) (ms : MemoryStore) (block : ServerMore.MemoryBlock)
  : Prop :=
  forall c r c' r',
    ServerMore.b_label block = Some (String c r) ->
    ServerMore.b_value block = Some (String c' r') ->
    is_Some (blocks ms !! (agentId, String c r)).

End MoreStatements.

(** * Statements

    Notions used to state the properties. *)

Module Statements.
Import ToolExecutor.
Section Dispatch.
Context `{JSON} `{Services}.

(** The result object built for a call. *)
Definition result_of (githubToken linearApiKey : string) (toolCall : ToolCall) : ToolResult :=
  {| tr_tool_call_id := tc_id toolCall; tr_role := "tool";
     tr_content := executeTool toolCall githubToken linearApiKey |}.


End Dispatch.

(** The string is a sequence of white space characters (so the empty
    string counts). *)
Inductive whitespace_only : string -> Prop :=
| no_character : whitespace_only ""
| white_character w s :
    is_white_space w = true -> whitespace_only s -> whitespace_only (w +:+ s).

(** The [message] field is missing, is not a string, or is empty or
    white space only. *)
Inductive rejected_message : JSValue -> Prop :=
| message_missing : rejected_message None
| message_not_a_string v : (forall s, v <> JStr s) -> rejected_message (Some v)
| message_blank s : whitespace_only s -> rejected_message (Some (JStr s)).






(** The stored assistant messages. *)
Definition assistant_rows (st : Db.Store) : list Db.MessageRow :=
  filter (fun m => Db.m_role m = "assistant") (Db.messages st).

Definition is_chunk (e : SseEvent) : bool :=
  match e with SseChunk _ _ _ _ => true | SseError _ _ => false end.

End Statements.

(** * Sample data and properties *)

(** ** Sample environments

    Concrete instances of the environment, used to run the definitions on
    examples. *)

Module Sample.

(** A printer for JSON values (no escaping inside strings; a fraction is
    printed as numerator/denominator). *)
Fixpoint print (v : JValue) : string :=
  match v with
  | JNull => "null"
  | JBool true => "true"
  | JBool false => "false"
  | JNum q =>
      match Qden q with
      | xH => pretty (Qnum q)
      | d => pretty (Qnum q) +:+ "/" +:+ pretty (Zpos d)
      end
  | JStr s => quote +:+ s +:+ quote
  | JArr items =>
      "[" +:+ (fix go (l : list JValue) : string :=
                 match l with
                 | [] => ""
                 | x :: r => print x +:+ match r with [] => "" | _ => "," end +:+ go r
                 end) items +:+ "]"
  | JObj fields =>
      "{" +:+ (fix go (l : list (string * JValue)) : string :=
                 match l with
                 | [] => ""
                 | (k, x) :: r =>
                     quote +:+ k +:+ quote +:+ ":" +:+ print x
                     +:+ match r with [] => "" | _ => "," end +:+ go r
                 end) fields +:+ "}"
  end.

Definition delta (text : string) : JValue :=
  JObj [("message", JObj [("role", JStr "assistant"); ("content", JStr text)])].

(** A reader that inverts [print] on a few values and rejects every other
    text. *)
Definition known : list JValue :=
  [ JObj []; JNull; delta "Hel"; delta "lo" ].

Definition read (text : string) : option JValue :=
  find (fun v => String.eqb (print v) text) known.

Definition json : JSON := {| JSON_parse := read; JSON_stringify := print |}.

(** Services whose exchanges find nothing (an empty list), except that
    [github_get_repo] fails with the message Not Found. *)
Definition services : Services :=
  {| github_try := fun name _ _ =>
       if String.eqb name "github_get_repo" then Threw "Not Found"
       else Returned (JObj [("repos", JArr [])]);
     linear_try := fun _ _ _ => Returned (Some (JArr [])) |}.

Definition call (id name : string) (args : JValue) : ToolCall :=
  {| tc_id := Some id; tc_name := name; tc_arguments := args |}.

Definition assistant (text : string) (calls : option (list ToolCall)) : Message :=
  {| role := "assistant"; content := Some text; tool_calls := calls; tool_call_id := None |}.

Definition reply (m : Message) : ChatData :=
  {| d_message := m; d_model := Some "glm4"; d_total_duration := Some (JNum 12);
     d_eval_count := Some (JNum 3) |}.

(** A runtime that asks for [github_list_repos] on every request. *)
Definition eager_runtime : ModelRuntime :=
  {| axios_post := fun _ _ =>
       Returned (reply (assistant "" (Some [call "call_1" "github_list_repos" (JObj [])])));
     fetch_post := fun _ _ => Threw "fetch failed" |}.

(** A runtime that asks for one tool call on the first request and
    answers in plain text afterwards; its stream carries two fragments. *)
Definition runtime : ModelRuntime :=
  {| axios_post := fun n _ =>
       match n with
       | O => Returned (reply (assistant "" (Some [call "call_1" "github_list_repos" (JObj [])])))
       | _ => Returned (reply (assistant "You have no repositories." None))
       end;
     fetch_post := fun _ _ =>
       Returned {| f_ok := true; f_status := 200; f_text := "";
                   f_body := [print (delta "Hel"); print (delta "lo")] |} |}.

(** A runtime that cannot be reached. *)
Definition dead_runtime : ModelRuntime :=
  {| axios_post := fun _ _ => Threw (RequestError "connect ECONNREFUSED 127.0.0.1:11434");
     fetch_post := fun _ _ => Threw "fetch failed" |}.

Definition uuid (n : nat) : string := "id-" +:+ pretty n.

Definition no_env : ProcessEnv :=
  {| GITHUB_TOKEN := None; LINEAR_API_KEY := None; OLLAMA_MODEL := None |}.

Definition github_env : ProcessEnv :=
  {| GITHUB_TOKEN := Some "ghp_token"; LINEAR_API_KEY := None; OLLAMA_MODEL := None |}.

(** An agent without permitted tools. *)
Definition helper : Agent :=
  {| a_id := "helper"; a_systemInstructions := "You are helpful.";
     a_temperature := None; a_allowedTools := [] |}.

Definition other : Agent :=
  {| a_id := "other"; a_systemInstructions := "You are different.";
     a_temperature := None; a_allowedTools := ["Read"] |}.

Definition registry : gmap string Agent := <["other" := other]> {["helper" := helper]}.

Definition empty_store : Db.Store :=
  {| Db.conversations := ∅; Db.messages := []; Db.now := 0; Db.issued := 0 |}.

Definition empty_world : World := {| heap := ∅; trace := []; db := empty_store |}.

Definition request (text : JSValue) (conv : option string) : ChatRequest :=
  {| params_id := "helper"; message := text; conversationId := conv;
     options := None; githubToken := None; linearApiKey := None |}.

(** A batch of three tool calls; the second names a tool nobody provides. *)
Definition batch : list ToolCall :=
  [ call "call_a" "github_list_repos" (JObj []);
    call "call_b" "weather_lookup" (JStr "{}");
    call "call_c" "github_get_repo" (JObj [("repo", JStr "octo/cat")]) ].


(** A world whose heap holds the caller's array at location 1. *)
Definition caller_messages : list Message :=
  [ system_message helper;
    {| role := "user"; content := Some "list my repos"; tool_calls := None;
       tool_call_id := None |} ].

Definition start : World :=
  {| heap := {[ 1%positive := caller_messages ]}; trace := []; db := empty_store |}.

(** Requests. *)
Definition ask : ChatRequest := request (Some (JStr "list my repos")) None.

Definition blank : ChatRequest := request (Some (JStr "   ")) None.

(** EM SPACE, IDEOGRAPHIC SPACE, the byte order mark and a line feed. *)
Definition wide_blank : string :=
  bytes [226; 128; 131; 227; 128; 128; 239; 187; 191; 10].

(** A no-break space, the letter a with grave accent (whose second byte
    is that of the no-break space) and a space. *)
Definition padded : string := bytes [194; 160; 195; 160; 32].

(** A store with one conversation, owned by the agent [other]. *)
Definition foreign_row : Db.ConversationRow :=
  {| Db.c_id := "conv-1"; Db.c_agent_id := "other"; Db.c_title := Some "earlier";
     Db.c_created_at := 0; Db.c_updated_at := 0 |}.

Definition busy_world : World :=
  {| heap := ∅; trace := [];
     db := {| Db.conversations := {[ "conv-1" := foreign_row ]}; Db.messages := [];
              Db.now := 1; Db.issued := 1 |} |}.

Definition intrude : ChatRequest := request (Some (JStr "hello")) (Some "conv-1").

(** *** Responses as they arrive *)

(** A response of the runtime with the given message. *)
Definition answer (assistantMsg : JValue) : JValue :=
  JObj [("model", JStr "glm4"); ("message", assistantMsg);
        ("total_duration", JNum 12); ("eval_count", JNum 3)].





Definition numbers : Untyped.Numbers := {| Untyped.positive_number := fun _ => false |}.









End Sample.

(** ** Sample data for the further code *)

Module MoreSamples.
Import Sample DbMore ServerMore.

(** A store with one conversation of the agent [helper], holding a
    question and its answer. *)
Definition chat_store : Db.Store :=
  (Db.addMessage uuid "id-0" "assistant" "hi"
     (Db.addMessage uuid "id-0" "user" "hello"
        (Db.createConversation uuid "helper" "hello" empty_store).2).2).2.

(** The conversation of that store. *)
Definition chat_row : Db.ConversationRow :=
  {| Db.c_id := "id-0"; Db.c_agent_id := "helper"; Db.c_title := Some "hello";
     Db.c_created_at := 0; Db.c_updated_at := 4 |}.

Definition chat_world : World := {| heap := ∅; trace := []; db := chat_store |}.

(** A request that continues that conversation. *)
Definition follow_up : ChatRequest := request (Some (JStr " and now? ")) (Some "id-0").

(** The labels in the order of their characters. *)
Definition by_label : relation string := fun a b => String.leb a b = true.

#[global] Instance by_label_dec a b : Decision (by_label a b).
Proof. unfold by_label. apply _. Defined.

(** A memory with the block [persona] of the agent [helper]. *)
Definition no_memory : MemoryStore := {| blocks := ∅; mem_now := 0; mem_issued := 0 |}.

Definition notes : MemoryStore :=
  (upsertAgentMemory uuid "helper" "persona" "kind" no_memory).2.

(** The configured blocks of the agents: one that is stored already, one
    that is new and one without a value. *)
Definition configured : list (string * list MemoryBlock) :=
  [ ("helper", [ {| b_label := Some "persona"; b_value := Some "stern" |};
                 {| b_label := Some "human"; b_value := Some "unknown" |};
                 {| b_label := Some "draft"; b_value := None |} ]) ].

(** A tags endpoint that answers from the third request on. *)
Definition slow_start : OllamaMore.TagsEndpoint :=
  {| OllamaMore.get_tags := fun n =>
       if (n <? 2)%nat then Threw "connect ECONNREFUSED" else Returned (Some []) |}.

(** The store [chat_store] with a second conversation of [helper] and a
    conversation of [other]. *)
Definition shared_store : Db.Store :=
  (Db.createConversation uuid "other" "elsewhere"
     (Db.createConversation uuid "helper" "again" chat_store).2).2.

(** A configuration file with the given id, name and instructions. *)
Definition config_file (id name instructions : option string) : AgentConfig :=
  {| cfg_id := id; cfg_name := name; cfg_description := None;
     cfg_systemInstructions := instructions;
     cfg_modelPreferences := None; cfg_lettaConfig := None; cfg_frameworks := None;
     cfg_knowledge := None; cfg_version := None; cfg_createdAt := None |}.

(** A directory in which two files carry the id [helper], one file is not
    JSON, one has no instructions and one is no [.json] file. *)
Definition agent_files : list (string * option AgentConfig) :=
  [ ("a.json", Some (config_file (Some "helper") (Some "first") (Some "Be kind.")));
    ("broken.json", None);
    ("notes.txt", Some (config_file (Some "notes") None (Some "Be brief.")));
    ("b.json", Some (config_file (Some "helper") (Some "second") (Some "Be stern.")));
    ("c.json", Some (config_file (Some "silent") None None)) ].

(** The responses of [runtime], which depend on the number of the request
    only, as JSON. *)
Definition received_runtime : Untyped.Runtime :=
  {| Untyped.post := fun n _ =>
       Shaped.of_outcome Shaped.of_data
         (@axios_post runtime n (ToolExecutor.loop_payload "" [] [] [])) |}.

(** A call of an offered tool. *)
Definition get_file : ToolCall :=
  call "call_7" "github_get_file"
       (JObj [("repo", JStr "octo/cat"); ("path", JStr "README.md")]).

End MoreSamples.

(** ** The world: bookkeeping lemmas *)

Module WorldFacts.

Lemma model_calls_emit_post payload w :
  model_calls (emit (Posted payload) w) = S (model_calls w).
Proof.
  unfold model_calls, emit; simpl.
  rewrite filter_app, length_app; simpl. lia.
Qed.

Lemma model_calls_emit_entry f w :
  model_calls (emit (Entered f) w) = model_calls w.
Proof.
  unfold model_calls, emit; simpl.
  rewrite filter_app, length_app; simpl. lia.
Qed.

Lemma filter_entry_posts f (posts : list Payload) :
  filter (is_entry f) (Posted <$> posts) = [].
Proof.
  induction posts as [|p posts IH]; [done|].
  rewrite fmap_cons, filter_cons_False; [done|]. simpl. tauto.
Qed.

Lemma elements_of_push_same r m w :
  is_Some (heap w !! r) ->
  elements_of r (push r m w) = (elements_of r w ++ [m])%list.
Proof.
  intros [items Hitems]. unfold elements_of, push; simpl.
  rewrite !lookup_total_alt, lookup_alter_eq, Hitems. reflexivity.
Qed.

Lemma heap_push_other r r' m w :
  r <> r' -> heap (push r m w) !! r' = heap w !! r'.
Proof. intros Hne. unfold push; simpl. by rewrite lookup_alter_ne. Qed.

Lemma push_is_Some r r' m w :
  is_Some (heap w !! r') -> is_Some (heap (push r m w) !! r').
Proof.
  intros Hsome. unfold push; simpl.
  destruct (decide (r = r')) as [->|Hne].
  - rewrite lookup_alter_eq. destruct Hsome as [x ->]. eauto.
  - by rewrite lookup_alter_ne.
Qed.

End WorldFacts.
Import WorldFacts.

(** ** The dispatch boundary *)

Module DispatchProps.
Import ToolExecutor Statements.
Section DispatchProps.
Context `{JSON} `{Services} `{ModelRuntime}.

Lemma processToolCalls_lookup toolCalls gh ln i :
  processToolCalls toolCalls gh ln !! i = result_of gh ln <$> toolCalls !! i.
Proof. unfold processToolCalls. apply list_lookup_fmap. Qed.

(** C4.  The array returned by [processToolCalls] is as long as the batch,
    and its [i]-th entry is the result of the [i]-th call: it carries that
    call's identifier and the text [executeTool] produced for that call.
    Positions follow the order of submission. *)
Theorem processToolCalls_positional (toolCalls : list ToolCall) (gh ln : string) :
  length (processToolCalls toolCalls gh ln) = length toolCalls /\
  forall i : nat,
    tr_tool_call_id <$> processToolCalls toolCalls gh ln !! i = tc_id <$> toolCalls !! i /\
    tr_content <$> processToolCalls toolCalls gh ln !! i
      = (fun toolCall => executeTool toolCall gh ln) <$> toolCalls !! i.
Proof.
  split.
  - unfold processToolCalls. apply length_map.
  - intros i. rewrite processToolCalls_lookup.
    destruct (toolCalls !! i); simpl; auto.
Qed.



(** An iteration whose response carries tool calls always goes on to the
    next iteration, with the results of the batch appended. *)
Lemma iterate_tool_calls model tools options gh ln remaining iterations cur all w data
      toolCall others :
  axios_post (model_calls w) (loop_payload model tools options (elements_of cur w))
    = Returned data ->
  tool_calls (d_message data) = Some (toolCall :: others) ->
  iterate model tools options gh ln (S remaining) iterations cur all w
  = iterate model tools options gh ln remaining (S iterations) cur
      (all ++ processToolCalls (toolCall :: others) gh ln)
      (push_results cur (processToolCalls (toolCall :: others) gh ln)
         (push cur (d_message data)
            (emit (Posted (loop_payload model tools options (elements_of cur w))) w))).
Proof. intros Hpost Hcalls. simpl. rewrite Hpost, Hcalls. reflexivity. Qed.

(** A failed request ends the loop in the iteration that sent it. *)
Lemma iterate_failed model tools options gh ln remaining iterations cur all w error :
  axios_post (model_calls w) (loop_payload model tools options (elements_of cur w))
    = Threw error ->
  iterate model tools options gh ln (S remaining) iterations cur all w
  = (Threw (Axios error),
     emit (Posted (loop_payload model tools options (elements_of cur w))) w).
Proof. intros Hpost. simpl. rewrite Hpost. reflexivity. Qed.

(** A response without tool calls is the final answer. *)
Lemma iterate_final model tools options gh ln remaining iterations cur all w data :
  axios_post (model_calls w) (loop_payload model tools options (elements_of cur w))
    = Returned data ->
  tool_calls (d_message data) = None \/ tool_calls (d_message data) = Some [] ->
  iterate model tools options gh ln (S remaining) iterations cur all w
  = (Returned {| r_message := str_or (content (d_message data)) "";
                 r_toolResults := all;
                 r_iterations := S iterations;
                 r_totalDuration := d_total_duration data;
                 r_evalCount := d_eval_count data;
                 r_maxIterationsReached := None |},
     emit (Posted (loop_payload model tools options (elements_of cur w))) w).
Proof. intros Hpost [Hcalls|Hcalls]; simpl; rewrite Hpost, Hcalls; reflexivity. Qed.

(** With no iteration left the loop ends with the fallback. *)
Lemma iterate_exhausted model tools options gh ln iterations cur all w :
  iterate model tools options gh ln 0 iterations cur all w
  = (Returned {| r_message := str_or (last (elements_of cur w) ≫= content)
                                     "Max tool iterations reached";
                 r_toolResults := all;
                 r_iterations := iterations;
                 r_totalDuration := None;
                 r_evalCount := None;
                 r_maxIterationsReached := Some true |}, w).
Proof. reflexivity. Qed.


End DispatchProps.
End DispatchProps.

(** ** The orchestration loop *)

Module LoopProps.
Import ToolExecutor Statements DispatchProps.
Section LoopProps.
Context `{JSON} `{Services} `{ModelRuntime}.

Lemma push_results_trace cur results w :
  trace (push_results cur results w) = trace w.
Proof.
  unfold push_results. revert w.
  induction results as [|result results IH]; intros w; simpl; [done|].
  by rewrite IH.
Qed.

Lemma push_results_db cur results w :
  db (push_results cur results w) = db w.
Proof.
  unfold push_results. revert w.
  induction results as [|result results IH]; intros w; simpl; [done|].
  by rewrite IH.
Qed.

Lemma push_results_other cur results w r :
  r <> cur -> heap (push_results cur results w) !! r = heap w !! r.
Proof.
  intros Hne. unfold push_results. revert w.
  induction results as [|result results IH]; intros w; simpl; [done|].
  rewrite IH. by apply heap_push_other.
Qed.

Lemma push_results_elements cur results w :
  is_Some (heap w !! cur) ->
  elements_of cur (push_results cur results w)
  = (elements_of cur w ++ map tool_message results)%list.
Proof.
  unfold push_results. revert w.
  induction results as [|result results IH]; intros w Hsome; simpl.
  - by rewrite app_nil_r.
  - rewrite IH by (by apply push_is_Some).
    rewrite elements_of_push_same by done.
    by rewrite <- app_assoc.
Qed.

Lemma model_calls_trace w w' :
  trace w' = trace w -> model_calls w' = model_calls w.
Proof. unfold model_calls. by intros ->. Qed.

Lemma model_calls_posts w w' (posts : list Payload) :
  trace w' = (trace w ++ (Posted <$> posts))%list ->
  model_calls w' = model_calls w + length posts.
Proof.
  unfold model_calls. intros ->.
  rewrite filter_app, length_app. f_equal.
  induction posts as [|p posts IH]; [done|].
  rewrite fmap_cons, filter_cons_True by done. simpl. by rewrite IH.
Qed.

(** One request that was answered: the effect when the loop returns in
    the iteration it started with. *)
Lemma single_post_returned w payload data (result : LoopResult) cur remaining :
  axios_post (model_calls w) payload = Returned data ->
  db (emit (Posted payload) w) = db w /\
  (forall r, r <> cur -> heap (emit (Posted payload) w) !! r = heap w !! r) /\
  exists posts : list Payload,
    trace (emit (Posted payload) w) = (trace w ++ (Posted <$> posts))%list /\
    length posts <= S remaining /\
    (forall i p err,
        posts !! i = Some p ->
        axios_post (model_calls w + i) p = Threw err ->
        S i = length posts /\ Returned result = Threw (E := JSError) (Axios err)) /\
    (forall e,
        Returned result = Threw (E := JSError) e ->
        exists p err,
          last posts = Some p /\
          axios_post (model_calls w + (length posts - 1)) p = Threw err /\
          e = Axios err).
Proof.
  intros Hpost.
  split; [done|]. split; [done|].
  exists [payload].
  split; [done|]. split; [simpl; lia|]. split.
  - intros [|i] p err Hp Herr; simpl in Hp; [|by rewrite lookup_nil in Hp].
    injection Hp as <-. rewrite Nat.add_0_r in Herr. congruence.
  - intros e He. discriminate.
Qed.

(** The effect of the loop on the world: the store and every array other
    than the working copy are left alone, and the trace grows by the
    requests sent, at most one per remaining iteration.  A request that
    fails is the last one and its error is the outcome; no other outcome
    is an error. *)
Lemma iterate_effect model tools options gh ln remaining :
  forall iterations cur all w out w',
    iterate model tools options gh ln remaining iterations cur all w = (out, w') ->
    db w' = db w /\
    (forall r, r <> cur -> heap w' !! r = heap w !! r) /\
    exists posts : list Payload,
      trace w' = (trace w ++ (Posted <$> posts))%list /\
      length posts <= remaining /\
      (forall i p err,
          posts !! i = Some p ->
          axios_post (model_calls w + i) p = Threw err ->
          S i = length posts /\ out = Threw (Axios err)) /\
      (forall e,
          out = Threw e ->
          exists p err,
            last posts = Some p /\
            axios_post (model_calls w + (length posts - 1)) p = Threw err /\
            e = Axios err).
Proof.
  induction remaining as [|remaining IH]; intros iterations cur all w out w' Hrun.
  - rewrite iterate_exhausted in Hrun. injection Hrun as <- <-.
    split; [done|]. split; [done|].
    exists []. simpl. rewrite app_nil_r.
    split; [done|]. split; [lia|]. split.
    + intros i p err Hp. by rewrite lookup_nil in Hp.
    + intros e He. discriminate.
  - set (payload := loop_payload model tools options (elements_of cur w)).
    destruct (axios_post (model_calls w) payload) as [data|error] eqn:Hpost.
    + destruct (tool_calls (d_message data)) as [[|toolCall others]|] eqn:Hcalls.
      * rewrite (iterate_final _ _ _ _ _ _ _ _ _ _ data) in Hrun by auto.
        injection Hrun as <- <-. by apply (single_post_returned _ _ data).
      * rewrite (iterate_tool_calls _ _ _ _ _ _ _ _ _ _ data toolCall others)
          in Hrun by done.
        fold payload in Hrun.
        set (results := processToolCalls (toolCall :: others) gh ln) in *.
        apply IH in Hrun as (Hdb & Hheap & posts & Htrace & Hlen & Hfail & Hthrow).
        rewrite push_results_db in Hdb.
        rewrite push_results_trace in Htrace. simpl in Htrace.
        assert (Hcalls' : model_calls
                  (push_results cur results
                     (push cur (d_message data) (emit (Posted payload) w)))
                = S (model_calls w)).
        { rewrite (model_calls_trace (emit (Posted payload) w)).
          - apply model_calls_emit_post.
          - by rewrite push_results_trace. }
        rewrite Hcalls' in Hfail, Hthrow.
        split; [done|]. split.
        { intros r Hne. rewrite Hheap, push_results_other by done.
          by rewrite heap_push_other. }
        exists (payload :: posts).
        split; [by rewrite Htrace, <- app_assoc|].
        split; [simpl; lia|]. split.
        -- intros [|i] p err Hp Herr; simpl in Hp.
           ++ injection Hp as <-. rewrite Nat.add_0_r in Herr. congruence.
           ++ replace (model_calls w + S i) with (S (model_calls w) + i) in Herr by lia.
              destruct (Hfail i p err Hp Herr) as [Hlast Hout].
              split; [simpl; lia | done].
        -- intros e He. destruct (Hthrow e He) as (p & err & Hlast & Herr & ->).
           exists p, err.
           destruct posts as [|q posts]; [discriminate|].
           split; [by rewrite last_cons, Hlast|]. split; [|done].
           replace (model_calls w + (length (payload :: q :: posts) - 1))
             with (S (model_calls w) + (length (q :: posts) - 1))
             by (simpl; lia).
           done.
      * rewrite (iterate_final _ _ _ _ _ _ _ _ _ _ data) in Hrun by auto.
        injection Hrun as <- <-. by apply (single_post_returned _ _ data).
    + rewrite (iterate_failed _ _ _ _ _ _ _ _ _ _ error) in Hrun by done.
      injection Hrun as <- <-.
      split; [done|]. split; [done|].
      exists [payload].
      split; [done|]. split; [simpl; lia|]. split.
      * intros [|i] p err Hp Herr; simpl in Hp; [|by rewrite lookup_nil in Hp].
        injection Hp as <-. rewrite Nat.add_0_r in Herr. split; [done | congruence].
      * intros e [= <-]. exists payload, error.
        simpl. rewrite Nat.add_0_r. done.
Qed.

Lemma chatWithTools_unfold model messages tools options gh ln maxIterations w :
  chatWithTools model messages tools options gh ln maxIterations w
  = iterate model tools options gh ln maxIterations 0 (fresh (dom (heap w))) []
      (alloc (elements_of messages w) (emit (Entered "chatWithTools") w)).2.
Proof. reflexivity. Qed.

Lemma model_calls_started items w :
  model_calls (alloc items (emit (Entered "chatWithTools") w)).2 = model_calls w.
Proof.
  rewrite (model_calls_trace (emit (Entered "chatWithTools") w)) by done.
  apply model_calls_emit_entry.
Qed.

(** C10.  The array the caller passes to [chatWithTools] holds the same
    elements after the run as before it: the loop pushes onto its own
    copy. *)
Theorem caller_messages_untouched (model : string) (messages : loc) (tools : list string)
        (options : list (string * JValue)) (gh ln : string) (maxIterations : nat)
        (w : World) :
  is_Some (heap w !! messages) ->
  let run := chatWithTools model messages tools options gh ln maxIterations w in
  heap run.2 !! messages = heap w !! messages /\
  elements_of messages run.2 = elements_of messages w /\
  fresh (dom (heap w)) <> messages.
Proof.
  intros Hsome run. subst run. rewrite chatWithTools_unfold.
  set (w0 := (alloc (elements_of messages w) (emit (Entered "chatWithTools") w)).2).
  assert (Hne : fresh (dom (heap w)) <> messages).
  { intros Heq. pose proof (is_fresh (dom (heap w))) as Hfresh.
    rewrite Heq in Hfresh. by apply Hfresh, elem_of_dom. }
  destruct (iterate model tools options gh ln maxIterations 0
              (fresh (dom (heap w))) [] w0) as [out w'] eqn:Hrun.
  apply iterate_effect in Hrun as (_ & Hheap & _).
  assert (Hsame : heap w' !! messages = heap w !! messages).
  { rewrite Hheap by done. unfold w0, alloc; simpl. by rewrite lookup_insert_ne. }
  simpl. split; [done|]. split; [|done].
  unfold elements_of. by rewrite !lookup_total_alt, Hsame.
Qed.

(** C5 (as amended).  The messages pushed onto the working sequence for a
    batch are, in the order of the calls, objects with the role tag
    ['tool'] and the serialized output of the call and nothing else: no
    call identifier.  The identifier is carried by the entries of the
    result array ([toolResults]), which are aligned with the calls. *)
Theorem tool_messages_have_role_and_content (cur : loc) (toolCalls : list ToolCall)
        (gh ln : string) (w : World) :
  is_Some (heap w !! cur) ->
  elements_of cur (push_results cur (processToolCalls toolCalls gh ln) w)
  = (elements_of cur w
     ++ map (fun toolCall =>
               {| role := "tool"; content := Some (executeTool toolCall gh ln);
                  tool_calls := None; tool_call_id := None |}) toolCalls)%list /\
  map tr_tool_call_id (processToolCalls toolCalls gh ln) = map tc_id toolCalls.
Proof.
  intros Hsome. split.
  - rewrite push_results_elements by done. f_equal.
    unfold processToolCalls. rewrite map_map. reflexivity.
  - unfold processToolCalls. rewrite map_map. reflexivity.
Qed.

End LoopProps.
End LoopProps.

(** ** The loop on the data as it arrives *)

Module RunProps.
Import Untyped Statements.
Section RunProps.
Context `{JSON} `{Services} `{Runtime} `{Numbers}.
















Section Loop.
Variables (model : string) (tools : list string) (options : list (string * JValue))
          (gh ln : string).




End Loop.
End RunProps.
End RunProps.

(** ** The chat handlers *)

Module HandlerProps.
Import Statements.
Section HandlerProps.
Context `{JSON} `{Services} `{ModelRuntime}.
Variable uuid_generate_v4 : nat -> string.
Variable env : ProcessEnv.
Variable agents : gmap string Agent.

Lemma append_empty_r (a : string) : a +:+ "" = a.
Proof.
  induction a as [|x a IH]; [done|].
  change (String x a +:+ "") with (String x (a +:+ "")).
  by rewrite IH.
Qed.

Lemma append_assoc (a b c : string) : (a +:+ b) +:+ c = a +:+ (b +:+ c).
Proof.
  induction a as [|x a IH]; [done|].
  change ((String x a +:+ b) +:+ c) with (String x ((a +:+ b) +:+ c)).
  by rewrite IH.
Qed.

Lemma is_white_space_elem w : is_white_space w = true -> w ∈ white_space.
Proof.
  unfold is_white_space. intros Hw.
  apply existsb_exists in Hw as (w' & Hin & Heq).
  apply String.eqb_eq in Heq. subst w'. by apply list_elem_of_In.
Qed.

Lemma trim_start_white w s : is_white_space w = true -> trim_start (w +:+ s) = trim_start s.
Proof.
  intros Hw. apply is_white_space_elem in Hw.
  unfold white_space in Hw. rewrite !fmap_cons, fmap_nil in Hw.
  repeat (apply elem_of_cons in Hw as [->|Hw]; [reflexivity|]).
  by apply elem_of_nil in Hw.
Qed.

Lemma trim_start_blank s : whitespace_only s -> trim_start s = EmptyString.
Proof.
  induction 1 as [|w s Hw _ IH]; [done|]. by rewrite trim_start_white.
Qed.

Lemma accepted_message_rejected m : rejected_message m -> accepted_message m = None.
Proof.
  intros [ | v Hv | s Hblank ]; [done | | ].
  - unfold accepted_message.
    destruct v as [ | b | q | s | items | fields ]; simpl;
      try (by destruct (negb _)); try done.
    by destruct (Hv s).
  - unfold accepted_message; simpl.
    destruct (negb (negb (String.eqb s ""))); simpl; [done|].
    unfold trim. by rewrite trim_start_blank.
Qed.

(** One step of [trim_start]: it removes a leading white space character
    and goes on, or it stops. *)
Lemma trim_start_step s :
  (exists w r, is_white_space w = true /\ s = w +:+ r /\
               trim_start s = trim_start r /\ String.length r < String.length s) \/
  trim_start s = s.
Proof.
  destruct s as [|a r1]; [by right|].
  cbn [trim_start].
  destruct (is_white_space (String a EmptyString)) eqn:Hw1.
  { left. exists (String a EmptyString), r1. repeat split; [done|simpl; lia]. }
  destruct r1 as [|b r2]; [by right|].
  destruct (is_white_space (String a (String b EmptyString))) eqn:Hw2.
  { left. exists (String a (String b EmptyString)), r2. repeat split; [done|simpl; lia]. }
  destruct r2 as [|c r3]; [by right|].
  destruct (is_white_space (String a (String b (String c EmptyString)))) eqn:Hw3.
  { left. exists (String a (String b (String c EmptyString))), r3.
    repeat split; [done|simpl; lia]. }
  by right.
Qed.

(** What [trim_start] removes is white space, and it removes all of it. *)
Lemma trim_start_spec s :
  (exists p, whitespace_only p /\ s = p +:+ trim_start s) /\
  trim_start (trim_start s) = trim_start s.
Proof.
  remember (String.length s) as n eqn:Hn.
  revert s Hn. induction (lt_wf n) as [n _ IH]. intros s ->.
  destruct (trim_start_step s) as [(w & r & Hw & -> & Hstep & Hlen)|Hstop].
  - destruct (IH _ Hlen r eq_refl) as [(p & Hp & Hr) Hidem].
    rewrite Hstep. split; [|done].
    exists (w +:+ p). split; [by constructor|].
    rewrite Hr at 1. by rewrite append_assoc.
  - rewrite Hstop. split; [|done].
    exists "". split; [constructor|done].
Qed.

Lemma trim_end_empty s : trim_end s = EmptyString -> trim_start s = EmptyString.
Proof.
  destruct s as [|a r]; [done|].
  cbn [trim_end]. by destruct (trim_start (String a r)).
Qed.

Lemma trim_empty s : trim s = EmptyString -> whitespace_only s.
Proof.
  unfold trim. intros Hempty.
  apply trim_end_empty in Hempty.
  destruct (trim_start_spec s) as [(p & Hp & Hs) Hidem].
  rewrite Hidem in Hempty. rewrite Hempty in Hs.
  rewrite append_empty_r in Hs. by subst s.
Qed.

(** The guard of the handlers rejects exactly the messages that are
    missing, not strings, or blank. *)
Lemma accepted_message_None m : accepted_message m = None <-> rejected_message m.
Proof.
  split; [|apply accepted_message_rejected].
  unfold accepted_message.
  destruct m as [[ | b | q | s | items | fields ]|];
    try (intros _; first [ apply message_missing
                         | apply message_not_a_string; intros s' Hs'; discriminate ]).
  simpl. destruct (negb (negb (String.eqb s ""))) eqn:Hs; simpl.
  - intros _. apply message_blank.
    apply negb_true_iff, negb_false_iff, String.eqb_eq in Hs. subst s. constructor.
  - destruct (String.length (trim s) =? 0)%nat eqn:Hlen; [|discriminate].
    intros _. apply message_blank, trim_empty.
    apply Nat.eqb_eq in Hlen. by destruct (trim s).
Qed.

(** C8.  A chat request whose [message] is missing, not a string, or
    empty or white space only leaves the world exactly as it was: nothing
    was sent to the model runtime, no conversation was created and no
    message was stored.  When the agent addressed is registered the request
    is answered with status 400 and the validation error.  This holds for
    both server variants. *)
Theorem invalid_message_rejected (req : ChatRequest) (w : World) :
  rejected_message (message req) ->
  (Server.chat uuid_generate_v4 env agents req w).2 = w /\
  (ServerBasic.chat uuid_generate_v4 env agents req w).2 = w /\
  (is_Some (agents !! params_id req) ->
   Server.chat uuid_generate_v4 env agents req w
     = (Json 400 (ErrorBody message_required None), w) /\
   ServerBasic.chat uuid_generate_v4 env agents req w
     = (Json 400 (ErrorBody message_required None), w)).
Proof.
  intros Hrejected.
  unfold Server.chat, ServerBasic.chat.
  rewrite (accepted_message_rejected _ Hrejected).
  destruct (agents !! params_id req) as [agent|]; repeat split; try done;
    by intros [? ?].
Qed.

(** C9.  A chat request to a registered agent that names a stored
    conversation owned by another agent leaves the world exactly as it
    was: no message is appended.  It is answered with status 400; when the
    message passes validation the error names the conversation, its owner
    and the agent addressed (otherwise it is the validation error).
    This holds for both server variants. *)
Theorem foreign_conversation_rejected (req : ChatRequest) (w : World) (agent : Agent)
        (convId : string) (conversation : Db.ConversationRow) :
  agents !! params_id req = Some agent ->
  conversationId req = Some convId ->
  convId <> "" ->
  Db.conversations (db w) !! convId = Some conversation ->
  Db.c_agent_id conversation <> a_id agent ->
  let rejection :=
    Json 400
      (ErrorBody
         (match accepted_message (message req) with
          | Some _ => wrong_agent convId (Db.c_agent_id conversation) (a_id agent)
          | None => message_required
          end) None) in
  Server.chat uuid_generate_v4 env agents req w = (rejection, w) /\
  ServerBasic.chat uuid_generate_v4 env agents req w = (rejection, w).
Proof.
  intros Hagent Hconv Hne Hrow Howner rejection. subst rejection.
  assert (Hneq : String.eqb (Db.c_agent_id conversation) (a_id agent) = false)
    by (by apply String.eqb_neq).
  unfold Server.chat, ServerBasic.chat.
  rewrite Hagent.
  destruct (accepted_message (message req)) as [text|]; [|done].
  unfold Server.chat_try, ServerBasic.chat_try. rewrite Hconv.
  destruct convId as [|c r]; [done|].
  unfold Db.getConversation. rewrite Hrow, Hneq. done.
Qed.

(** *** Effects of the steps of a handler *)

Lemma addMessage_effect convId r text w out w' :
  addMessage uuid_generate_v4 convId r text w = (out, w') ->
  trace w' = trace w /\ heap w' = heap w /\
  (Db.messages (db w') = Db.messages (db w) \/
   exists row, Db.m_role row = r /\
               Db.messages (db w') = (Db.messages (db w) ++ [row])%list).
Proof.
  unfold addMessage, query, Db.addMessage.
  destruct (Db.conversations (db w) !! convId) as [conv|].
  - destruct (negb (Db.role_allowed r)).
    + intros [= <- <-]. simpl. split; [done|]. split; [done|]. by left.
    + intros [= <- <-]. simpl. split; [done|]. split; [done|]. right.
      eexists. split; [|reflexivity]. reflexivity.
  - intros [= <- <-]. simpl. split; [done|]. split; [done|]. by left.
Qed.

Lemma createConversation_effect agentId title w out w' :
  createConversation uuid_generate_v4 agentId title w = (out, w') ->
  trace w' = trace w /\ heap w' = heap w /\ Db.messages (db w') = Db.messages (db w).
Proof.
  unfold createConversation, query, Db.createConversation.
  destruct (Db.conversations (db w) !! uuid_generate_v4 (Db.issued (db w))).
  - intros [= <- <-]. simpl. done.
  - intros [= <- <-]. simpl. done.
Qed.

Lemma build_messages_effect agent convId w r w' :
  build_messages agent convId w = (r, w') ->
  trace w' = trace w /\ db w' = db w.
Proof. unfold build_messages, alloc. intros [= <- <-]. simpl. done. Qed.

Lemma chat_effect model messages options w out w' :
  Ollama.chat env model messages options w = (out, w') ->
  db w' = db w /\ exists payload, trace w' = (trace w ++ [Entered "chat"; Posted payload])%list.
Proof.
  unfold Ollama.chat, Ollama.post.
  match goal with
  | |- context [axios_post ?n ?p] => destruct (axios_post n p) as [data|[st stt de m|m]]
  end; intros [= <- <-]; simpl; (split; [done|]); eexists; by rewrite <- app_assoc.
Qed.

Lemma chatStream_effect model messages options w p w' :
  Ollama.chatStream env model messages options w = (p, w') ->
  db w' = db w.
Proof.
  unfold Ollama.chatStream.
  match goal with
  | |- context [fetch_post ?n ?q] => destruct (fetch_post n q) as [response|m]
  end.
  - destruct (negb (f_ok response)); intros [= <- <-]; done.
  - intros [= <- <-]; done.
Qed.

(** What a run of [chatWithTools] does to the world. *)
Lemma chatWithTools_effect model messages tools options gh ln maxIterations w out w' :
  ToolExecutor.chatWithTools model messages tools options gh ln maxIterations w = (out, w') ->
  db w' = db w /\
  exists posts : list Payload,
    trace w' = (trace w ++ Entered "chatWithTools" :: (Posted <$> posts))%list.
Proof.
  rewrite LoopProps.chatWithTools_unfold. intros Hrun.
  apply LoopProps.iterate_effect in Hrun as (Hdb & _ & posts & Htrace & _).
  split; [done|]. exists posts. rewrite Htrace. simpl. by rewrite <- app_assoc.
Qed.

Lemma entries_trace f w w' :
  trace w' = trace w -> entries f w' = entries f w.
Proof. unfold entries. by intros ->. Qed.

Lemma getAvailableTools_empty gh ln :
  ToolExecutor.getAvailableTools gh ln = [] <-> gh = "" /\ ln = "".
Proof.
  unfold ToolExecutor.getAvailableTools, nonempty.
  destruct gh as [|c gh], ln as [|d ln]; simpl; split; try done; intros [? ?]; done.
Qed.

(** The direct path of the handler: one call of [ollama.chat], one request
    to the model runtime. *)
Lemma chat_turn_without_tools agent req text convId w out w' :
  str_or (githubToken req) (str_or (GITHUB_TOKEN env) "") = "" ->
  str_or (linearApiKey req) (str_or (LINEAR_API_KEY env) "") = "" ->
  Server.chat_turn uuid_generate_v4 env agent req text convId w = (out, w') ->
  entries "chatWithTools" w' = entries "chatWithTools" w /\
  model_calls w' <= S (model_calls w) /\
  (forall response, out = Returned response ->
     model_calls w' = S (model_calls w) /\ entries "chat" w' = S (entries "chat" w)).
Proof.
  intros Hgh Hln. unfold Server.chat_turn. rewrite Hgh, Hln.
  destruct (addMessage uuid_generate_v4 convId "user" (trim text) w)
    as [[row|err] w1] eqn:Hadd;
    apply addMessage_effect in Hadd as (Ht1 & _ & _).
  - destruct (build_messages agent convId w1) as [ollamaMessages w2] eqn:Hbuild.
    apply build_messages_effect in Hbuild as (Ht2 & _).
    cbn [ToolExecutor.getAvailableTools nonempty String.eqb negb]. cbv beta iota zeta.
    destruct (Ollama.chat env (Ollama.DEFAULT_MODEL env) ollamaMessages
                (chat_options agent (options req)) w2) as [[data|err] w3] eqn:Hchat;
      apply chat_effect in Hchat as (_ & payload & Ht3).
    + destruct (addMessage uuid_generate_v4 convId "assistant"
                  (str_or (content (d_message data)) "") w3) as [[row'|err] w4] eqn:Hadd2;
        apply addMessage_effect in Hadd2 as (Ht4 & _ & _);
        intros [= <- <-];
        unfold entries, model_calls; rewrite Ht4, Ht3, Ht2, Ht1;
        rewrite !filter_app, !length_app; simpl.
      * split; [lia|]. split; [lia|]. intros response _. lia.
      * split; [lia|]. split; [lia|]. intros response Hr. discriminate.
    + intros [= <- <-].
      unfold entries, model_calls; rewrite Ht3, Ht2, Ht1.
      rewrite !filter_app, !length_app; simpl.
      split; [lia|]. split; [lia|]. intros response Hr. discriminate.
  - intros [= <- <-].
    unfold entries, model_calls; rewrite Ht1.
    split; [lia|]. split; [lia|]. intros response Hr. discriminate.
Qed.

(** The tool path of the handler: one call of [chatWithTools]. *)
Lemma chat_turn_with_tools agent req text convId w out w' :
  ToolExecutor.getAvailableTools
    (str_or (githubToken req) (str_or (GITHUB_TOKEN env) ""))
    (str_or (linearApiKey req) (str_or (LINEAR_API_KEY env) "")) <> [] ->
  Server.chat_turn uuid_generate_v4 env agent req text convId w = (out, w') ->
  forall response, out = Returned response ->
    entries "chatWithTools" w' = S (entries "chatWithTools" w) /\
    entries "chat" w' = entries "chat" w.
Proof.
  intros Htools. unfold Server.chat_turn.
  destruct (ToolExecutor.getAvailableTools _ _) as [|tool tools]; [done|].
  destruct (addMessage uuid_generate_v4 convId "user" (trim text) w)
    as [[row|err] w1] eqn:Hadd;
    apply addMessage_effect in Hadd as (Ht1 & _ & _);
    [|intros [= <- <-] response Hr; discriminate].
  destruct (build_messages agent convId w1) as [ollamaMessages w2] eqn:Hbuild.
  apply build_messages_effect in Hbuild as (Ht2 & _).
  cbv beta iota zeta.
  match goal with
  | |- context [ToolExecutor.chatWithTools ?a ?b ?c ?d ?e ?f ?g ?h] =>
      destruct (ToolExecutor.chatWithTools a b c d e f g h) as [[result|err] w3] eqn:Hloop
  end;
    apply chatWithTools_effect in Hloop as (_ & posts & Ht3);
    [|intros [= <- <-] response Hr; discriminate].
  match goal with
  | |- context [addMessage ?a ?b ?c ?d ?e] =>
      destruct (addMessage a b c d e) as [[row'|err] w4] eqn:Hadd2
  end;
    apply addMessage_effect in Hadd2 as (Ht4 & _ & _);
    intros [= <- <-] response Hr; [|discriminate].
  pose proof (fun f => filter_entry_posts f posts) as Hnone.
  unfold entries. rewrite Ht4, Ht3, Ht2, Ht1.
  rewrite !filter_app, !length_app. split.
  - rewrite filter_cons_True by done. rewrite Hnone. simpl. lia.
  - rewrite filter_cons_False by (simpl; auto). rewrite Hnone. simpl. lia.
Qed.

Lemma chat_try_cases agent req text w out w' :
  Server.chat_try uuid_generate_v4 env agent req text w = (out, w') ->
  (trace w' = trace w /\ forall body, out <> Returned (Json 200 body)) \/
  exists convId w1,
    trace w1 = trace w /\
    Server.chat_turn uuid_generate_v4 env agent req text convId w1 = (out, w').
Proof.
  unfold Server.chat_try.
  destruct (conversationId req) as [[|c r]|].
  - destruct (createConversation uuid_generate_v4 (a_id agent) (substring0 100 text) w)
      as [[conversation|err] w1] eqn:Hcreate;
      apply createConversation_effect in Hcreate as (Ht & _ & _).
    + intros Hturn. right. eauto.
    + intros [= <- <-]. left. split; [done|]. intros body Hb. discriminate.
  - destruct (Db.getConversation (String c r) (db w)) as [[conversation rows]|].
    + destruct (negb (String.eqb (Db.c_agent_id conversation) (a_id agent))).
      * intros [= <- <-]. left. split; [done|]. intros body Hb. discriminate.
      * intros Hturn. right. eauto.
    + intros [= <- <-]. left. split; [done|]. intros body Hb. discriminate.
  - destruct (createConversation uuid_generate_v4 (a_id agent) (substring0 100 text) w)
      as [[conversation|err] w1] eqn:Hcreate;
      apply createConversation_effect in Hcreate as (Ht & _ & _).
    + intros Hturn. right. eauto.
    + intros [= <- <-]. left. split; [done|]. intros body Hb. discriminate.
Qed.

Lemma chat_failed_status err body : chat_failed err <> Json 200 body.
Proof. unfold chat_failed. destruct (includes _ _); discriminate. Qed.

(** C1 (as amended).  The function catalog is derived from the configured
    credentials: it is empty exactly when neither a GitHub token nor a
    Linear API key is configured, in the request or in the environment;
    the agent's permitted-tool list is not consulted.  With no credential
    configured [chatWithTools] is never invoked and at most one request is
    sent to the model runtime, exactly one (through [ollama.chat]) when
    the request is served with status 200.  With a credential configured a
    request served with status 200 went through [chatWithTools] exactly
    once and not through [ollama.chat]. *)
Theorem tools_follow_credentials (req : ChatRequest) (w : World) :
  let gh := str_or (githubToken req) (str_or (GITHUB_TOKEN env) "") in
  let ln := str_or (linearApiKey req) (str_or (LINEAR_API_KEY env) "") in
  let run := Server.chat uuid_generate_v4 env agents req w in
  (ToolExecutor.getAvailableTools gh ln = [] <-> gh = "" /\ ln = "") /\
  (gh = "" /\ ln = "" ->
     entries "chatWithTools" run.2 = entries "chatWithTools" w /\
     model_calls run.2 <= S (model_calls w) /\
     (forall body, run.1 = Json 200 body ->
        model_calls run.2 = S (model_calls w) /\
        entries "chat" run.2 = S (entries "chat" w))) /\
  (~ (gh = "" /\ ln = "") ->
     forall body, run.1 = Json 200 body ->
       entries "chatWithTools" run.2 = S (entries "chatWithTools" w) /\
       entries "chat" run.2 = entries "chat" w).
Proof.
  intros gh ln run.
  split; [apply getAvailableTools_empty|].
  subst run. unfold Server.chat.
  destruct (agents !! params_id req) as [agent|]; simpl.
  2: { split; [intros _; split; [done|]; split; [lia|]; intros body Hb; discriminate|].
       intros _ body Hb. discriminate. }
  destruct (accepted_message (message req)) as [text|]; simpl.
  2: { split; [intros _; split; [done|]; split; [lia|]; intros body Hb; discriminate|].
       intros _ body Hb. discriminate. }
  destruct (Server.chat_try uuid_generate_v4 env agent req text w) as [out w'] eqn:Htry.
  apply chat_try_cases in Htry as [[Ht Hnot]|(convId & w1 & Ht1 & Hturn)].
  - assert (Hfst : forall body,
               (let (o, w0) := (out, w') in
                match o with
                | Returned response => (response, w0)
                | Threw err => (chat_failed err, w0)
                end).1 = Json 200 body -> False).
    { intros body. destruct out; simpl; [by intros ->; apply (Hnot body)|].
      apply chat_failed_status. }
    destruct out as [response|err]; simpl in *.
    + split; [intros _; split; [by apply entries_trace|]; split;
              [unfold model_calls; rewrite Ht; lia|]; intros body Hb; by destruct (Hfst body)|].
      intros _ body Hb. by destruct (Hfst body).
    + split; [intros _; split; [by apply entries_trace|]; split;
              [unfold model_calls; rewrite Ht; lia|]; intros body Hb; by destruct (Hfst body)|].
      intros _ body Hb. by destruct (Hfst body).
  - assert (Hm : model_calls w1 = model_calls w) by (unfold model_calls; by rewrite Ht1).
    assert (He : forall f, entries f w1 = entries f w) by (intros f; by apply entries_trace).
    split.
    + intros [Hgh Hln].
      destruct (chat_turn_without_tools agent req text convId w1 out w' Hgh Hln Hturn)
        as (Hloop & Hle & Hserved).
      rewrite Hm, He in *.
      destruct out as [response|err]; simpl.
      * split; [done|]. split; [done|]. intros body _.
        exact (Hserved response eq_refl).
      * split; [done|]. split; [done|]. intros body Hb.
        by destruct (chat_failed_status err body).
    + intros Hcred body Hb.
      assert (Htools : ToolExecutor.getAvailableTools gh ln <> []).
      { intros Hempty. by apply Hcred, getAvailableTools_empty. }
      destruct out as [response|err]; simpl in Hb |- *;
        [|by destruct (chat_failed_status err body)].
      destruct (chat_turn_with_tools agent req text convId w1 _ w' Htools Hturn
                  response eq_refl) as [Hloop Hchat].
      by rewrite !He in *.
Qed.

(** *** The streaming handler *)

Lemma assistant_rows_user convId text w out w' :
  addMessage uuid_generate_v4 convId "user" text w = (out, w') ->
  assistant_rows (db w') = assistant_rows (db w).
Proof.
  intros Hadd. apply addMessage_effect in Hadd as (_ & _ & [Hsame|(row & Hrole & Happ)]).
  - unfold assistant_rows. by rewrite Hsame.
  - unfold assistant_rows. rewrite Happ, filter_app, filter_cons_False.
    + by rewrite filter_nil, app_nil_r.
    + rewrite Hrole. discriminate.
Qed.

(** With [chatStream] present the turn always throws before anything is
    written: the [for await] is given the promise that the [async] function
    returns. *)
Lemma stream_turn_throws agent req text convId w :
  exists err w',
    Server.stream_turn uuid_generate_v4 env true agent req text convId w
      = (Threw (err, []), w') /\
    assistant_rows (db w') = assistant_rows (db w).
Proof.
  unfold Server.stream_turn.
  destruct (addMessage uuid_generate_v4 convId "user" (trim text) w)
    as [[row|err] w1] eqn:Hadd;
    apply assistant_rows_user in Hadd; [|eauto].
  destruct (build_messages agent convId w1) as [ollamaMessages w2] eqn:Hbuild.
  apply build_messages_effect in Hbuild as (_ & Hdb2).
  match goal with
  | |- context [Ollama.chatStream ?a ?b ?c ?d ?e] =>
      destruct (Ollama.chatStream a b c d e) as [p w3] eqn:Hstream
  end.
  apply chatStream_effect in Hstream. simpl.
  eexists _, w3. split; [reflexivity|]. by rewrite Hstream, Hdb2.
Qed.

(** Closes a case in which the events written are known and hold no
    chunk. *)
Ltac no_chunk_written := simpl; split; [by intros ? [= <-] | ].

(** C7 (what the code does).  With the client that exports [chatStream],
    no streaming request ever has a text fragment written to its event
    stream, and none stores an assistant message: the concatenation of the
    delivered fragments is never persisted. *)
Theorem stream_delivers_nothing (req : ChatRequest) (w : World) :
  let run := Server.chat_stream uuid_generate_v4 env agents true req w in
  (forall events, run.1 = EventStream events -> filter is_chunk events = []) /\
  assistant_rows (db run.2) = assistant_rows (db w).
Proof.
  intros run. subst run. unfold Server.chat_stream.
  destruct (agents !! params_id req) as [agent|]; [|split; [intros ? [=]|done]].
  destruct (accepted_message (message req)) as [text|]; [|split; [intros ? [=]|done]].
  unfold Server.stream_try.
  destruct (conversationId req) as [[|c r]|].
  - destruct (createConversation uuid_generate_v4 (a_id agent) (substring0 100 text) w)
      as [[conversation|err] w1] eqn:Hcreate;
      apply createConversation_effect in Hcreate as (_ & _ & Hm).
    + destruct (stream_turn_throws agent req text (Db.c_id conversation) w1)
        as (err & w' & -> & Hrows).
      no_chunk_written.
      rewrite Hrows. unfold assistant_rows. by rewrite Hm.
    + no_chunk_written. unfold assistant_rows. by rewrite Hm.
  - destruct (Db.getConversation (String c r) (db w)) as [[conversation rows]|].
    + destruct (negb (String.eqb (Db.c_agent_id conversation) (a_id agent))).
      * no_chunk_written; done.
      * destruct (stream_turn_throws agent req text (String c r) w)
          as (err & w' & -> & Hrows).
        no_chunk_written; done.
    + no_chunk_written; done.
  - destruct (createConversation uuid_generate_v4 (a_id agent) (substring0 100 text) w)
      as [[conversation|err] w1] eqn:Hcreate;
      apply createConversation_effect in Hcreate as (_ & _ & Hm).
    + destruct (stream_turn_throws agent req text (Db.c_id conversation) w1)
        as (err & w' & -> & Hrows).
      no_chunk_written.
      rewrite Hrows. unfold assistant_rows. by rewrite Hm.
    + no_chunk_written. unfold assistant_rows. by rewrite Hm.
Qed.

(** What the loop of the handler is written to do, given chunks it could
    iterate: every chunk's text is written as an event of its own, in
    order, and [fullMessage] is the concatenation of the texts. *)
Lemma consume_concatenates (chunks : list JValue) :
  Server.consume chunks
  = (foldr String.append "" (Server.textChunk_of <$> chunks),
     (fun chunk => SseChunk (Server.textChunk_of chunk) false None None) <$> chunks).
Proof.
  unfold Server.consume.
  assert (Hgen : forall (text : string) (written : list SseEvent),
             foldl (fun '(fullMessage, written) chunk =>
                      (fullMessage +:+ Server.textChunk_of chunk,
                       (written ++ [SseChunk (Server.textChunk_of chunk) false None None])%list))
                   (text, written) chunks
             = (text +:+ foldr String.append "" (Server.textChunk_of <$> chunks),
                (written
                 ++ ((fun chunk => SseChunk (Server.textChunk_of chunk) false None None)
                       <$> chunks))%list)).
  { induction chunks as [|chunk chunks IH]; intros text written.
    - simpl. by rewrite append_empty_r, app_nil_r.
    - rewrite !fmap_cons. simpl. rewrite IH, append_assoc, <- app_assoc. done. }
  rewrite Hgen. done.
Qed.

(** The chunks [chatStream] enqueues are strings, while the loop of the
    handler reads [chunk.message?.content]: even an iterable of those
    fragments would accumulate the empty text. *)
Lemma consume_fragments (fragments : list string) :
  (Server.consume (JStr <$> fragments)).1 = "".
Proof.
  unfold Server.consume.
  assert (Hgen : forall written : list SseEvent,
             (foldl (fun '(fullMessage, written) chunk =>
                       (fullMessage +:+ Server.textChunk_of chunk,
                        (written ++ [SseChunk (Server.textChunk_of chunk) false None None])%list))
                    ("", written) (JStr <$> fragments)).1 = "").
  { induction fragments as [|s fragments IH]; intros written; [done|].
    rewrite fmap_cons. simpl. apply IH. }
  apply Hgen.
Qed.

End HandlerProps.
End HandlerProps.

(** ** The properties on the sample environments *)

Module Examples.
Import ToolExecutor Statements Sample.






(** The caller's array still holds its two messages after a run that
    pushed an assistant message and a tool message onto the copy. *)
Lemma caller_messages_untouched_witness :
  is_Some (heap start !! 1%positive) /\
  elements_of 1%positive
    (@chatWithTools json services runtime "glm4" 1%positive Github.tools []
       "ghp_token" "" 10 start).2 = caller_messages /\
  length (elements_of 2%positive
    (@chatWithTools json services runtime "glm4" 1%positive Github.tools []
       "ghp_token" "" 10 start).2) = 4.
Proof.
  assert (Hsome : is_Some (heap start !! 1%positive)) by (eexists; reflexivity).
  split; [exact Hsome|].
  destruct (@LoopProps.caller_messages_untouched json services runtime "glm4" 1%positive
              Github.tools [] "ghp_token" "" 10 start Hsome) as (_ & Hsame & _).
  split; [rewrite Hsame; reflexivity | vm_compute; reflexivity].
Defined.

(** The messages pushed for [batch]: role and content only. *)
Lemma tool_messages_have_role_and_content_witness :
  is_Some (heap start !! 1%positive) /\
  tool_call_id <$>
    elements_of 1%positive
      (@push_results 1%positive (@processToolCalls json services batch "ghp_token" "") start)
  = [None; None; None; None; None] /\
  map tr_tool_call_id (@processToolCalls json services batch "ghp_token" "")
  = [Some "call_a"; Some "call_b"; Some "call_c"].
Proof.
  assert (Hsome : is_Some (heap start !! 1%positive)) by (eexists; reflexivity).
  split; [exact Hsome|].
  destruct (@LoopProps.tool_messages_have_role_and_content json services 1%positive batch
              "ghp_token" "" start Hsome) as [Hpushed Hids].
  split; [rewrite Hpushed; reflexivity | rewrite Hids; reflexivity].
Defined.

(** C5, refuted as stated.  In a run where the model issues the call
    [call_1], the message appended to the working sequence for its result
    has the role tag and the serialized output but no call identifier. *)
Lemma tool_message_lacks_call_id :
  let run := @chatWithTools json services runtime "glm4" 1%positive Github.tools []
               "ghp_token" "" 10 start in
  let currentMessages := fresh (dom (heap start)) in
  exists assistantMsg toolMsg toolCall,
    elements_of currentMessages run.2 !! 2 = Some assistantMsg /\
    tool_calls assistantMsg = Some [toolCall] /\
    tc_id toolCall = Some "call_1" /\
    elements_of currentMessages run.2 !! 3 = Some toolMsg /\
    role toolMsg = "tool" /\
    content toolMsg = Some (print (JObj [("repos", JArr [])])) /\
    tool_call_id toolMsg = None /\
    tool_call_id toolMsg <> tc_id toolCall.
Proof.
  vm_compute. do 3 eexists.
  repeat (split; [reflexivity|]). discriminate.
Qed.

(** *** The handlers *)

(** C1, refuted as stated.  The agent [helper] has no permitted tool, yet
    with a GitHub token in the environment its chat request runs the
    orchestration loop, which sends two requests to the model runtime. *)
Lemma toolless_agent_enters_loop :
  let run := @Server.chat json services runtime uuid github_env registry ask empty_world in
  registry !! params_id ask = Some helper /\
  a_allowedTools helper = [] /\
  entries "chatWithTools" run.2 = 1 /\
  entries "chat" run.2 = 0 /\
  model_calls run.2 = 2.
Proof. vm_compute. repeat split; reflexivity. Qed.

(** Without credentials the same request is served by one direct call. *)
Lemma tools_follow_credentials_witness :
  let run := @Server.chat json services runtime uuid no_env registry ask empty_world in
  entries "chatWithTools" run.2 = 0 /\
  model_calls run.2 = 1 /\
  entries "chat" run.2 = 1.
Proof.
  intros run.
  destruct (@HandlerProps.tools_follow_credentials json services runtime uuid no_env
              registry ask empty_world) as (_ & Hdirect & _).
  destruct (Hdirect (conj eq_refl eq_refl)) as (Hloop & _ & Hserved).
  split; [exact Hloop|].
  refine (Hserved (ChatBody "" "id-0" "helper" "glm4" (Some [])
                     (Some (JNum 12)) (Some (JNum 3))) _).
  vm_compute. reflexivity.
Defined.

Lemma blank_is_whitespace : whitespace_only "   ".
Proof.
  apply (white_character " " "  " eq_refl).
  apply (white_character " " " " eq_refl).
  apply (white_character " " "" eq_refl).
  apply no_character.
Defined.

(** White space beyond ASCII is white space, and a request carrying only
    such characters does not pass the guard of the handlers. *)
Lemma wide_blank_is_whitespace : whitespace_only wide_blank.
Proof.
  apply (white_character (bytes [226; 128; 131]) _ eq_refl).
  apply (white_character (bytes [227; 128; 128]) _ eq_refl).
  apply (white_character (bytes [239; 187; 191]) _ eq_refl).
  apply (white_character (bytes [10]) _ eq_refl).
  apply no_character.
Qed.

Lemma wide_blank_not_accepted :
  accepted_message (Some (JStr wide_blank)) = None /\
  rejected_message (Some (JStr wide_blank)).
Proof. split; [reflexivity|]. apply message_blank, wide_blank_is_whitespace. Qed.

(** Trimming removes white space characters, not bytes that occur in
    them. *)
Lemma padded_trimmed : trim padded = bytes [195; 160].
Proof. reflexivity. Qed.

(** A message of three spaces is rejected and the world is unchanged. *)
Lemma invalid_message_rejected_witness :
  (@Server.chat json services runtime uuid no_env registry blank empty_world).2
    = empty_world /\
  (@ServerBasic.chat runtime uuid no_env registry blank empty_world).2 = empty_world /\
  @Server.chat json services runtime uuid no_env registry blank empty_world
    = (Json 400 (ErrorBody message_required None), empty_world) /\
  @ServerBasic.chat runtime uuid no_env registry blank empty_world
    = (Json 400 (ErrorBody message_required None), empty_world).
Proof.
  destruct (@HandlerProps.invalid_message_rejected json services runtime uuid no_env registry
              blank empty_world (message_blank "   " blank_is_whitespace))
    as (Hserved & Hbasic & Hanswer).
  split; [exact Hserved|]. split; [exact Hbasic|].
  apply Hanswer. by exists helper.
Defined.

(** [helper] is refused the conversation of [other]; nothing is stored. *)
Lemma foreign_conversation_rejected_witness :
  Db.c_agent_id foreign_row <> a_id helper /\
  @Server.chat json services runtime uuid no_env registry intrude busy_world
    = (Json 400 (ErrorBody (wrong_agent "conv-1" "other" "helper") None), busy_world) /\
  @ServerBasic.chat runtime uuid no_env registry intrude busy_world
    = (Json 400 (ErrorBody (wrong_agent "conv-1" "other" "helper") None), busy_world).
Proof.
  assert (Hne : Db.c_agent_id foreign_row <> a_id helper) by discriminate.
  split; [exact Hne|].
  refine (@HandlerProps.foreign_conversation_rejected json services runtime uuid no_env
            registry intrude busy_world helper "conv-1" foreign_row
            eq_refl eq_refl _ eq_refl Hne).
  discriminate.
Defined.

(** C7 at a concrete request.  The runtime's stream carries the fragments
    "Hel" and "lo", and [chatStream] resolves to a stream of exactly these;
    the handler nevertheless writes a single error event (the TypeError of
    the [for await]) and stores the user message only. *)
Lemma stream_request_fails :
  let run := @Server.chat_stream json runtime uuid no_env registry true ask empty_world in
  (@Ollama.chatStream json runtime no_env "glm4" 1%positive [] start).1
    = promise (Returned {| Ollama.stream := ["Hel"; "lo"] |}) /\
  run.1 = EventStream
            [SseError "Streaming-Anfrage fehlgeschlagen"
               (Some "ollama.chatStream(...) is not a function or its return value is not async iterable")] /\
  Db.m_role <$> Db.messages (db run.2) = ["user"].
Proof. vm_compute. repeat split; reflexivity. Qed.

Lemma stream_delivers_nothing_witness :
  let run := @Server.chat_stream json runtime uuid no_env registry true ask empty_world in
  assistant_rows (db run.2) = [] /\
  forall events, run.1 = EventStream events -> filter is_chunk events = [].
Proof.
  intros run.
  destruct (@HandlerProps.stream_delivers_nothing json runtime uuid no_env registry ask
              empty_world) as [Hchunks Hrows].
  split; [exact Hrows | exact Hchunks].
Defined.

(** With the client that has no [chatStream] the handler falls back to one
    non-streaming call and sends the stored text as a single event. *)
Lemma stream_fallback_example :
  let run := @Server.chat_stream json runtime uuid no_env registry false ask empty_world in
  exists text,
    run.1 = EventStream [SseChunk text true (Some "id-0") (Some "glm4")] /\
    Db.m_content <$> Db.messages (db run.2) = ["list my repos"; text].
Proof. vm_compute. eexists. split; reflexivity. Qed.

End Examples.

(** * Properties of the further code *)

(** ** Lists *)

Module ListFacts.

Lemma filter_none {A} (P : A -> Prop) `{forall x, Decision (P x)} (l : list A) :
  (forall x, x ∈ l -> ~ P x) -> filter P l = [].
Proof.
  induction l as [|x l IH]; intros Hnone; [done|].
  rewrite filter_cons_False by (apply Hnone; left).
  apply IH. intros y Hy. apply Hnone. by right.
Qed.

End ListFacts.
Import ListFacts.

(** ** The store *)

Module DbProps.
Import Db DbMore MoreStatements.
Section DbProps.
Variable uuid_generate_v4 : nat -> string.

Lemma createConversation_cases agentId title st out st' :
  createConversation uuid_generate_v4 agentId title st = (out, st') ->
  (exists row,
      out = Returned row /\
      c_id row = uuid_generate_v4 (issued st) /\
      c_agent_id row = agentId /\
      c_updated_at row = now st /\
      conversations st !! c_id row = None /\
      conversations st' = <[c_id row := row]> (conversations st) /\
      messages st' = messages st /\
      now st' = S (now st)) \/
  (exists err, out = Threw err /\ st' = st).
Proof.
  unfold createConversation.
  destruct (conversations st !! uuid_generate_v4 (issued st)) eqn:Hkey;
    intros [= <- <-].
  - right. eauto.
  - left. eexists. simpl. repeat (split; [reflexivity || exact Hkey|]). reflexivity.
Qed.

Lemma addMessage_cases conversationId r text st out st' :
  addMessage uuid_generate_v4 conversationId r text st = (out, st') ->
  (exists row conv,
      out = Returned row /\
      conversations st !! conversationId = Some conv /\
      m_conversation_id row = conversationId /\
      m_role row = r /\
      m_content row = text /\
      messages st' = (messages st ++ [row])%list /\
      conversations st'
        = <[conversationId := {| c_id := c_id conv; c_agent_id := c_agent_id conv;
                                 c_title := c_title conv;
                                 c_created_at := c_created_at conv;
                                 c_updated_at := S (now st) |}]> (conversations st) /\
      now st' = S (S (now st))) \/
  (exists err, out = Threw err /\ st' = st).
Proof.
  unfold addMessage.
  destruct (conversations st !! conversationId) as [conv|] eqn:Hconv.
  - destruct (negb (role_allowed r)); intros [= <- <-].
    + right. eauto.
    + left. eexists _, conv. simpl. repeat (split; [reflexivity|]). reflexivity.
  - intros [= <- <-]. right. eauto.
Qed.

Lemma deleteConversation_cases conversationId st :
  (exists conv,
      conversations st !! conversationId = Some conv /\
      (deleteConversation conversationId st).1 = true /\
      conversations (deleteConversation conversationId st).2
        = delete conversationId (conversations st) /\
      messages (deleteConversation conversationId st).2
        = filter (fun m => m_conversation_id m <> conversationId) (messages st)) \/
  (conversations st !! conversationId = None /\
   deleteConversation conversationId st = (false, st)).
Proof.
  unfold deleteConversation.
  destruct (conversations st !! conversationId) as [conv|] eqn:Hconv.
  - left. exists conv. simpl. done.
  - right. done.
Qed.

(** Referential integrity is kept by every write of the [db] module:
    creating a conversation, appending a message and deleting a
    conversation (which takes its messages along) never leave a message
    without its conversation. *)
Theorem writes_keep_integrity (st : Store) (agentId title conversationId r text : string) :
  no_orphans st ->
  no_orphans (createConversation uuid_generate_v4 agentId title st).2 /\
  no_orphans (addMessage uuid_generate_v4 conversationId r text st).2 /\
  no_orphans (deleteConversation conversationId st).2.
Proof.
  intros Hst. split; [|split].
  - destruct (createConversation uuid_generate_v4 agentId title st) as [out st'] eqn:Hrun.
    apply createConversation_cases in Hrun
      as [(row & _ & _ & _ & _ & _ & Hconvs & Hmsgs & _)|(err & _ & ->)]; [|done].
    simpl. intros m Hm. rewrite Hmsgs in Hm. rewrite Hconvs.
    destruct (decide (c_id row = m_conversation_id m)) as [->|Hne].
    + rewrite lookup_insert_eq. eauto.
    + rewrite lookup_insert_ne by done. by apply Hst.
  - destruct (addMessage uuid_generate_v4 conversationId r text st) as [out st'] eqn:Hrun.
    apply addMessage_cases in Hrun
      as [(row & conv & _ & Hconv & Hid & _ & _ & Hmsgs & Hconvs & _)|(err & _ & ->)];
      [|done].
    simpl. intros m Hm. rewrite Hmsgs in Hm. rewrite Hconvs.
    apply elem_of_app in Hm as [Hm|Hm].
    + destruct (decide (conversationId = m_conversation_id m)) as [->|Hne].
      * rewrite lookup_insert_eq. eauto.
      * rewrite lookup_insert_ne by done. by apply Hst.
    + apply list_elem_of_singleton in Hm as ->. rewrite Hid, lookup_insert_eq. eauto.
  - destruct (deleteConversation_cases conversationId st)
      as [(conv & _ & _ & Hconvs & Hmsgs)|(_ & ->)]; [|done].
    intros m Hm. rewrite Hmsgs in Hm. rewrite Hconvs.
    apply list_elem_of_filter in Hm as [Hne Hm].
    rewrite lookup_delete_ne by done. by apply Hst.
Qed.

(** Deleting a stored conversation reports success; afterwards it cannot
    be found and has no messages, while every other conversation and its
    messages are as before. *)
Theorem deleteConversation_cascades (conversationId : string) (limit : nat) (st : Store) :
  is_Some (conversations st !! conversationId) ->
  let run := deleteConversation conversationId st in
  run.1 = true /\
  getConversation conversationId run.2 = None /\
  getMessages conversationId limit run.2 = [] /\
  forall other, other <> conversationId ->
    getConversation other run.2 = getConversation other st /\
    getMessages other limit run.2 = getMessages other limit st.
Proof.
  intros [conv0 Hstored] run. subst run.
  destruct (deleteConversation_cases conversationId st)
    as [(conv & Hconv & Hres & Hconvs & Hmsgs)|(Hconv & _)]; [|congruence].
  split; [done|].
  split; [unfold getConversation; by rewrite Hconvs, lookup_delete_eq|].
  split.
  - unfold getMessages. rewrite Hmsgs.
    rewrite filter_none; [by destruct limit|].
    intros m Hm Heq. apply list_elem_of_filter in Hm as [Hne _]. done.
  - intros other Hother.
    assert (Hlog : filter (fun m => m_conversation_id m = other)
                     (filter (fun m => m_conversation_id m <> conversationId) (messages st))
                   = filter (fun m => m_conversation_id m = other) (messages st)).
    { apply list_filter_filter_l. intros m ->. done. }
    unfold getConversation, getMessages.
    rewrite Hconvs, Hmsgs, lookup_delete_ne, Hlog by done. done.
Qed.

(** A new conversation, created for an agent id and a title that fit
    their columns ([VARCHAR(128)] and [VARCHAR(512)]), can be looked up at
    once: it is owned by that agent, carries the title (none for the empty
    one) and has no messages yet; the conversations that existed are found
    as before. *)
Theorem createConversation_lookup (agentId title : string) (st st' : Store)
        (row : ConversationRow) :
  no_orphans st ->
  String.length agentId <= 128 ->
  String.length title <= 512 ->
  createConversation uuid_generate_v4 agentId title st = (Returned row, st') ->
  getConversation (c_id row) st' = Some (row, []) /\
  c_agent_id row = agentId /\
  c_title row = (if String.eqb title "" then None else Some title) /\
  forall other, other <> c_id row -> getConversation other st' = getConversation other st.
Proof.
  intros Hst _ _ Hrun.
  assert (Htitle : c_title row = (if String.eqb title "" then None else Some title)).
  { unfold createConversation in Hrun.
    destruct (conversations st !! uuid_generate_v4 (issued st)); [discriminate|].
    injection Hrun as <- _. simpl. by destruct title. }
  apply createConversation_cases in Hrun
    as [(row' & [= <-] & _ & Hagent & _ & Hfree & Hconvs & Hmsgs & _)|(err & [=] & _)].
  split; [|split; [done|split; [done|]]].
  - unfold getConversation. rewrite Hconvs, lookup_insert_eq, Hmsgs.
    rewrite filter_none; [done|].
    intros m Hm Heq.
    destruct (Hst m Hm) as [c Hc]. rewrite Heq, Hfree in Hc. discriminate.
  - intros other Hother. unfold getConversation.
    rewrite Hconvs, Hmsgs, lookup_insert_ne by done. done.
Qed.

(** [getMessages] returns the oldest [limit] messages.  After a message
    was appended to a conversation it is the last one returned as long as
    the conversation had fewer than [limit] messages; if it already had
    [limit] or more, the result is the same as before and the new message
    is not part of it. *)
Theorem getMessages_after_addMessage (conversationId r text : string) (limit : nat)
        (st st' : Store) (row : MessageRow) :
  addMessage uuid_generate_v4 conversationId r text st = (Returned row, st') ->
  getMessages conversationId limit st'
    = take limit (log_of conversationId st ++ [row]) /\
  (length (log_of conversationId st) < limit ->
     getMessages conversationId limit st' = (log_of conversationId st ++ [row])%list) /\
  (limit <= length (log_of conversationId st) ->
     getMessages conversationId limit st' = getMessages conversationId limit st).
Proof.
  intros Hrun.
  apply addMessage_cases in Hrun
    as [(row' & conv & [= <-] & _ & Hid & _ & _ & Hmsgs & _)|(err & [=] & _)].
  assert (Hlog : getMessages conversationId limit st'
                 = take limit (log_of conversationId st ++ [row])).
  { unfold getMessages, log_of. rewrite Hmsgs, filter_app.
    by rewrite (filter_cons_True _ row []) by done. }
  split; [done|]. split.
  - intros Hlt. rewrite Hlog. apply take_ge. rewrite length_app. simpl. lia.
  - intros Hge. rewrite Hlog. unfold getMessages, log_of in *.
    by rewrite take_app_le.
Qed.

#[local] Instance newer_first_total : Total newer_first.
Proof. intros a b. unfold newer_first. lia. Qed.

#[local] Instance newer_first_transitive : Transitive newer_first.
Proof. intros a b c. unfold newer_first. lia. Qed.

Lemma listConversations_elem agentId st s :
  s ∈ listConversations agentId st <->
  exists k c,
    conversations st !! k = Some c /\ c_agent_id c = agentId /\ s = summary st c.
Proof.
  unfold listConversations. rewrite merge_sort_Permutation, list_elem_of_fmap.
  split.
  - intros (c & -> & Hc). apply list_elem_of_filter in Hc as [Hagent Hc].
    apply list_elem_of_fmap in Hc as ([k c'] & -> & Hkc).
    apply elem_of_map_to_list in Hkc. eauto.
  - intros (k & c & Hkc & Hagent & ->). exists c. split; [done|].
    apply list_elem_of_filter. split; [done|].
    apply list_elem_of_fmap. exists (k, c). split; [done|].
    by apply elem_of_map_to_list.
Qed.

(** [listConversations] returns exactly the stored conversations of the
    agent: every one of them is listed and nothing else is, none is listed
    twice (in a store whose conversations are kept under their ids), the
    most recently updated come first, and each row carries the number of
    the stored messages of its conversation and the content of the last
    one. *)
Theorem listConversations_lists (agentId : string) (st : Store) :
  (forall c, (exists k, conversations st !! k = Some c /\ c_agent_id c = agentId) <->
             c ∈ (s_conversation <$> listConversations agentId st)) /\
  (keyed_by_id st ->
   NoDup ((fun s => c_id (s_conversation s)) <$> listConversations agentId st)) /\
  Sorted newer_first (listConversations agentId st) /\
  (forall s, s ∈ listConversations agentId st ->
     s_message_count s = length (log_of (c_id (s_conversation s)) st) /\
     s_last_message s = m_content <$> last (log_of (c_id (s_conversation s)) st)).
Proof.
  split; [|split; [|split]].
  - intros c. rewrite list_elem_of_fmap. split.
    + intros (k & Hkc & Hagent). exists (summary st c). split; [done|].
      apply listConversations_elem. eauto.
    + intros (s & -> & Hs). apply listConversations_elem in Hs as (k & c & Hkc & Hagent & ->).
      eauto.
  - intros Hkeyed. unfold listConversations.
    rewrite merge_sort_Permutation, <- list_fmap_compose.
    eapply sublist_NoDup; [|apply fmap_sublist, sublist_filter].
    rewrite <- list_fmap_compose.
    rewrite (list_fmap_ext _ fst (map_to_list (conversations st))).
    + apply NoDup_fst_map_to_list.
    + intros i [k c] Hi. simpl. apply (Hkeyed k c).
      apply elem_of_map_to_list. by eapply list_elem_of_lookup_2.
  - apply Sorted_merge_sort. apply _.
  - intros s Hs. apply listConversations_elem in Hs as (k & c & _ & _ & ->). done.
Qed.

(** A conversation that has just received a message is the first of its
    agent's listing, and the listing shows that message as its latest. *)
Theorem listConversations_after_addMessage (conversationId r text : string)
        (st st' : Store) (row : MessageRow) (conv : ConversationRow) :
  timely st ->
  keyed_by_id st ->
  conversations st !! conversationId = Some conv ->
  addMessage uuid_generate_v4 conversationId r text st = (Returned row, st') ->
  exists s,
    head (listConversations (c_agent_id conv) st') = Some s /\
    c_id (s_conversation s) = conversationId /\
    c_updated_at (s_conversation s) = S (now st) /\
    s_last_message s = Some text /\
    s_message_count s = S (length (log_of conversationId st)).
Proof.
  intros Htimely Hkeyed Hconv Hrun.
  apply addMessage_cases in Hrun
    as [(row' & conv0 & [= <-] & Hconv0 & Hid & _ & Htext & Hmsgs & Hconvs & _)
       |(err & [=] & _)].
  rewrite Hconv in Hconv0. injection Hconv0 as <-.
  set (conv' := {| c_id := c_id conv; c_agent_id := c_agent_id conv;
                   c_title := c_title conv; c_created_at := c_created_at conv;
                   c_updated_at := S (now st) |}) in *.
  assert (Hcid : c_id conv = conversationId) by (by apply Hkeyed).
  assert (Hin : summary st' conv' ∈ listConversations (c_agent_id conv) st').
  { apply listConversations_elem. exists conversationId, conv'.
    rewrite Hconvs, lookup_insert_eq. done. }
  assert (Hlog : log_of conversationId st' = (log_of conversationId st ++ [row])%list).
  { unfold log_of. rewrite Hmsgs, filter_app.
    by rewrite (filter_cons_True _ row []) by done. }
  assert (Hsummary : c_id (s_conversation (summary st' conv')) = conversationId /\
                     c_updated_at (s_conversation (summary st' conv')) = S (now st) /\
                     s_last_message (summary st' conv') = Some text /\
                     s_message_count (summary st' conv')
                       = S (length (log_of conversationId st))).
  { unfold summary; simpl. rewrite Hcid. fold (log_of conversationId st').
    rewrite Hlog, last_snoc, length_app. simpl. rewrite Htext.
    split; [done|]. split; [done|]. split; [done|]. lia. }
  pose proof (StronglySorted_merge_sort newer_first
                (summary st' <$> filter (fun c => c_agent_id c = c_agent_id conv)
                                        (snd <$> map_to_list (conversations st'))))
    as Hsorted.
  fold (listConversations (c_agent_id conv) st') in Hsorted.
  destruct (listConversations (c_agent_id conv) st') as [|h rest] eqn:Hlist;
    [by apply elem_of_nil in Hin|].
  exists h. split; [done|].
  assert (Hh : h = summary st' conv'); [|by rewrite Hh].
  apply elem_of_cons in Hin as [Hin|Hin]; [done|].
  apply StronglySorted_inv in Hsorted as [_ Hall].
  rewrite Forall_forall in Hall. specialize (Hall _ Hin).
  unfold newer_first in Hall. simpl in Hall.
  assert (Hhin : h ∈ listConversations (c_agent_id conv) st')
    by (rewrite Hlist; left).
  apply listConversations_elem in Hhin as (k & c & Hkc & _ & ->).
  rewrite Hconvs in Hkc.
  destruct (decide (conversationId = k)) as [<-|Hne].
  - rewrite lookup_insert_eq in Hkc. by injection Hkc as <-.
  - rewrite lookup_insert_ne in Hkc by done.
    pose proof (Htimely k c Hkc). simpl in Hall. lia.
Qed.

End DbProps.
End DbProps.

(** ** The agent memory *)

Module MemoryProps.
Import DbMore MoreStatements.

Lemma varchar_fits n s : String.length s <= n -> varchar n s = Some s.
Proof. intros Hlen. unfold varchar. by rewrite (proj2 (Nat.leb_le _ _) Hlen). Qed.

Section MemoryProps.
Variable uuid_generate_v4 : nat -> string.
Context (label_le : relation string) `{forall a b, Decision (label_le a b)}.

Lemma getAgentMemory_elem agentId ms r :
  r ∈ getAgentMemory label_le agentId ms <->
  mem_agent_id r = agentId /\ exists k, blocks ms !! k = Some r.
Proof.
  unfold getAgentMemory. rewrite merge_sort_Permutation, list_elem_of_filter.
  rewrite list_elem_of_fmap. split.
  - intros [Hagent ([k r'] & -> & Hkr)]. apply elem_of_map_to_list in Hkr. eauto.
  - intros [Hagent (k & Hkr)]. split; [done|]. exists (k, r). split; [done|].
    by apply elem_of_map_to_list.
Qed.

Lemma getAgentMemory_lookup agentId ms r :
  keyed ms ->
  r ∈ getAgentMemory label_le agentId ms <->
  mem_agent_id r = agentId /\ blocks ms !! (agentId, mem_label r) = Some r.
Proof.
  intros Hkeyed. rewrite getAgentMemory_elem. split.
  - intros [Hagent (k & Hkr)]. split; [done|].
    pose proof (Hkeyed _ _ Hkr) as ->. by rewrite <- Hagent.
  - intros [Hagent Hkr]. eauto.
Qed.

Lemma upsertAgentMemory_fits agentId label value ms :
  String.length agentId <= 128 ->
  String.length label <= 128 ->
  exists row,
    upsertAgentMemory uuid_generate_v4 agentId label value ms
      = (Returned row,
         {| blocks := <[(agentId, label) := row]> (blocks ms);
            mem_now := S (mem_now ms);
            mem_issued := S (mem_issued ms) |}) /\
    mem_agent_id row = agentId /\ mem_label row = label /\ mem_value row = value /\
    mem_updated_at row = mem_now ms /\
    mem_id row = match blocks ms !! (agentId, label) with
                 | Some old => mem_id old
                 | None => uuid_generate_v4 (mem_issued ms)
                 end.
Proof.
  intros Hagent Hlabel. unfold upsertAgentMemory.
  rewrite (varchar_fits _ _ Hagent), (varchar_fits _ _ Hlabel).
  eexists. split; [reflexivity|].
  destruct (blocks ms !! (agentId, label)); done.
Qed.

Lemma keyed_insert ms k row now' issued' :
  keyed ms ->
  k = (mem_agent_id row, mem_label row) ->
  keyed {| blocks := <[k := row]> (blocks ms); mem_now := now'; mem_issued := issued' |}.
Proof.
  intros Hkeyed Hk k' r. simpl.
  destruct (decide (k = k')) as [<-|Hne].
  - rewrite lookup_insert_eq. by intros [= <-].
  - rewrite lookup_insert_ne by done. apply Hkeyed.
Qed.

Lemma upsertAgentMemory_keyed agentId label value ms :
  keyed ms -> keyed (upsertAgentMemory uuid_generate_v4 agentId label value ms).2.
Proof.
  intros Hkeyed. unfold upsertAgentMemory.
  destruct (varchar 128 agentId) as [agent|]; [|done].
  destruct (varchar 128 label) as [label'|]; [|done].
  simpl. apply keyed_insert; [done|].
  by destruct (blocks ms !! (agent, label')).
Qed.

Lemma deleteAgentMemory_cases agentId label ms :
  (exists old,
      blocks ms !! (agentId, label) = Some old /\
      (deleteAgentMemory agentId label ms).1 = true /\
      blocks (deleteAgentMemory agentId label ms).2 = delete (agentId, label) (blocks ms)) \/
  (blocks ms !! (agentId, label) = None /\
   deleteAgentMemory agentId label ms = (false, ms)).
Proof.
  unfold deleteAgentMemory.
  destruct (blocks ms !! (agentId, label)) as [old|] eqn:Hold.
  - left. exists old. done.
  - right. done.
Qed.

Lemma deleteAgentMemory_keyed agentId label ms :
  keyed ms -> keyed (deleteAgentMemory agentId label ms).2.
Proof.
  intros Hkeyed.
  destruct (deleteAgentMemory_cases agentId label ms)
    as [(old & _ & _ & Hblocks)|(_ & ->)]; [|done].
  intros k r. rewrite Hblocks. intros Hkr.
  apply lookup_delete_Some in Hkr as [_ Hkr]. by apply Hkeyed.
Qed.

(** The blocks returned for an agent all belong to it and have pairwise
    different labels, and they come in the order of their labels: the
    unique key on agent and label survives every insertion, update and
    deletion. *)
Theorem getAgentMemory_distinct_sorted (agentId : string) (ms : MemoryStore) :
  Total label_le ->
  keyed ms ->
  (forall agent label value, keyed (upsertAgentMemory uuid_generate_v4 agent label value ms).2) /\
  (forall agent label, keyed (deleteAgentMemory agent label ms).2) /\
  (forall r, r ∈ getAgentMemory label_le agentId ms -> mem_agent_id r = agentId) /\
  NoDup (mem_label <$> getAgentMemory label_le agentId ms) /\
  Sorted (fun a b => label_le (mem_label a) (mem_label b))
         (getAgentMemory label_le agentId ms).
Proof.
  intros Htotal Hkeyed.
  split; [intros; by apply upsertAgentMemory_keyed|].
  split; [intros; by apply deleteAgentMemory_keyed|].
  split; [intros r Hr; by apply getAgentMemory_elem in Hr as [? _]|].
  split.
  - unfold getAgentMemory. rewrite merge_sort_Permutation.
    apply (NoDup_fmap_1 (pair agentId)).
    rewrite <- list_fmap_compose.
    assert (Hsame : (pair agentId ∘ mem_label)
                      <$> filter (fun r => mem_agent_id r = agentId)
                                 (snd <$> map_to_list (blocks ms))
                    = (fun r => (mem_agent_id r, mem_label r))
                        <$> filter (fun r => mem_agent_id r = agentId)
                                   (snd <$> map_to_list (blocks ms))).
    { apply list_fmap_ext. intros i r Hr.
      apply list_elem_of_lookup_2, list_elem_of_filter in Hr as [<- _]. done. }
    rewrite Hsame.
    eapply sublist_NoDup; [|apply fmap_sublist, sublist_filter].
    rewrite <- list_fmap_compose.
    assert (Hkeys : ((fun r => (mem_agent_id r, mem_label r)) ∘ snd)
                      <$> map_to_list (blocks ms)
                    = fst <$> map_to_list (blocks ms)).
    { apply list_fmap_ext. intros i [k r] Hkr.
      apply list_elem_of_lookup_2, elem_of_map_to_list in Hkr.
      simpl. symmetry. by apply Hkeyed. }
    rewrite Hkeys. apply NoDup_fst_map_to_list.
  - apply Sorted_merge_sort. intros a b. apply Htotal.
Qed.

Lemma upsertAgentMemory_members agentId label value ms :
  keyed ms ->
  String.length agentId <= 128 ->
  String.length label <= 128 ->
  exists row ms',
    upsertAgentMemory uuid_generate_v4 agentId label value ms = (Returned row, ms') /\
    mem_label row = label /\ mem_value row = value /\
    mem_updated_at row = mem_now ms /\
    (forall r, r ∈ getAgentMemory label_le agentId ms' <->
               r = row \/ (r ∈ getAgentMemory label_le agentId ms /\ mem_label r <> label)).
Proof.
  intros Hkeyed Hagent Hlabel.
  destruct (upsertAgentMemory_fits agentId label value ms Hagent Hlabel)
    as (row & Hrun & Hrow_agent & Hrow_label & Hrow_value & Hrow_time & _).
  pose proof (upsertAgentMemory_keyed agentId label value ms Hkeyed) as Hkeyed'.
  rewrite Hrun in Hkeyed'. simpl in Hkeyed'.
  eexists row, _. split; [exact Hrun|].
  split; [done|]. split; [done|]. split; [done|].
  intros r. rewrite !getAgentMemory_lookup by done. simpl.
  destruct (decide (mem_label r = label)) as [Hl|Hl].
  - rewrite Hl, lookup_insert_eq. split.
    + intros [_ [= <-]]. by left.
    + intros [->|[_ ?]]; [done|done].
  - rewrite lookup_insert_ne by congruence. split.
    + intros Hr. by right.
    + intros [->|[Hr _]]; [done|done].
Qed.

(** Writing a block and reading the agent's memory: for an agent id and a
    label that fit their columns the write succeeds, and afterwards the
    memory of the agent holds the written block, with the value just given
    and the time of the write, in place of any block of that label (whose
    id it keeps), and all its other blocks as they were; the memory of
    every other agent is unchanged. *)
Theorem upsertAgentMemory_then_get (agentId label value : string) (ms : MemoryStore) :
  keyed ms ->
  String.length agentId <= 128 ->
  String.length label <= 128 ->
  exists row ms',
    upsertAgentMemory uuid_generate_v4 agentId label value ms = (Returned row, ms') /\
    mem_agent_id row = agentId /\ mem_label row = label /\ mem_value row = value /\
    mem_updated_at row = mem_now ms /\
    (forall old, old ∈ getAgentMemory label_le agentId ms -> mem_label old = label ->
                 mem_id row = mem_id old) /\
    (forall r, r ∈ getAgentMemory label_le agentId ms' <->
               r = row \/ (r ∈ getAgentMemory label_le agentId ms /\ mem_label r <> label)) /\
    (forall other r, other <> agentId ->
       r ∈ getAgentMemory label_le other ms' <-> r ∈ getAgentMemory label_le other ms).
Proof.
  intros Hkeyed Hagent Hlabel.
  destruct (upsertAgentMemory_members agentId label value ms Hkeyed Hagent Hlabel)
    as (row & ms' & Hrun & Hrow_label & Hrow_value & Hrow_time & Hmembers).
  destruct (upsertAgentMemory_fits agentId label value ms Hagent Hlabel)
    as (row0 & Hrun0 & Hrow_agent & _ & _ & _ & Hrow_id).
  rewrite Hrun in Hrun0. injection Hrun0 as <- Hstore.
  pose proof (upsertAgentMemory_keyed agentId label value ms Hkeyed) as Hkeyed'.
  rewrite Hrun in Hkeyed'. simpl in Hkeyed'.
  exists row, ms'. split; [done|].
  split; [done|]. split; [done|]. split; [done|]. split; [done|].
  split; [|split; [done|]].
  - intros old Hold Hold_label.
    apply getAgentMemory_lookup in Hold as [_ Hold]; [|done].
    rewrite Hold_label in Hold. by rewrite Hrow_id, Hold.
  - intros other r Hother. rewrite !getAgentMemory_lookup by done.
    rewrite Hstore. simpl. rewrite lookup_insert_ne by congruence. done.
Qed.

(** Deleting a block reports whether the agent had a block of that label;
    afterwards the agent's memory holds its other blocks, and only them,
    and the memory of every other agent is unchanged. *)
Theorem deleteAgentMemory_then_get (agentId label : string) (ms : MemoryStore) :
  keyed ms ->
  let run := deleteAgentMemory agentId label ms in
  (run.1 = true <->
   exists r, r ∈ getAgentMemory label_le agentId ms /\ mem_label r = label) /\
  (forall r, r ∈ getAgentMemory label_le agentId run.2 <->
             r ∈ getAgentMemory label_le agentId ms /\ mem_label r <> label) /\
  (forall other r, other <> agentId ->
     r ∈ getAgentMemory label_le other run.2 <-> r ∈ getAgentMemory label_le other ms).
Proof.
  intros Hkeyed run. subst run.
  pose proof (deleteAgentMemory_keyed agentId label ms Hkeyed) as Hkeyed'.
  destruct (deleteAgentMemory_cases agentId label ms)
    as [(old & Hold & Hres & Hblocks)|(Hnone & Hrun)].
  - split; [|split].
    + rewrite Hres. split; [intros _|done].
      exists old. pose proof (Hkeyed _ _ Hold) as [= Ha Hl].
      split; [|done]. apply getAgentMemory_lookup; [done|].
      by rewrite <- Ha, <- Hl at 1.
    + intros r. rewrite !getAgentMemory_lookup by done. rewrite Hblocks.
      destruct (decide (mem_label r = label)) as [Hl|Hl].
      * rewrite Hl, lookup_delete_eq. split; [by intros [_ ?]|by intros [_ ?]].
      * rewrite lookup_delete_ne by congruence. split; [by intros ?|by intros [? _]].
    + intros other r Hother. rewrite !getAgentMemory_lookup by done. rewrite Hblocks.
      rewrite lookup_delete_ne by congruence. done.
  - rewrite Hrun. simpl. split; [|split].
    + split; [done|]. intros (r & Hr & Hl).
      apply getAgentMemory_lookup in Hr as [_ Hr]; [|done].
      rewrite Hl, Hnone in Hr. discriminate.
    + intros r. split; [|by intros [? _]].
      intros Hr. split; [done|]. intros Hl.
      apply getAgentMemory_lookup in Hr as [_ Hr]; [|done].
      rewrite Hl, Hnone in Hr. discriminate.
    + done.
Qed.

End MemoryProps.
End MemoryProps.

(** ** The initial memory *)

Module InitProps.
Import DbMore ServerMore MoreStatements MemoryProps.
Section InitProps.
Variable uuid_generate_v4 : nat -> string.
Context (label_le : relation string) `{forall a b, Decision (label_le a b)}.

Lemma exists_label agentId label ms :
  keyed ms ->
  existsb (fun m => String.eqb (mem_label m) label) (getAgentMemory label_le agentId ms)
    = true <->
  is_Some (blocks ms !! (agentId, label)).
Proof.
  intros Hkeyed. rewrite existsb_exists. split.
  - intros (r & Hr & Hl). apply String.eqb_eq in Hl as <-.
    apply list_elem_of_In, getAgentMemory_lookup in Hr as [_ Hr]; [|done]. eauto.
  - intros [r Hr]. exists r.
    pose proof (Hkeyed _ _ Hr) as [= Ha Hl].
    split; [|by apply String.eqb_eq].
    apply list_elem_of_In, getAgentMemory_lookup; [done|].
    split; [done|]. by rewrite <- Hl.
Qed.

Lemma settled_mono agentId ms ms' block :
  blocks ms ⊆ blocks ms' -> settled agentId ms block -> settled agentId ms' block.
Proof.
  intros Hsub Hsettled c r c' r' Hl Hv.
  eapply lookup_weaken_is_Some; [|exact Hsub]. eauto.
Qed.

Lemma init_block_spec agentId n ms block :
  keyed ms ->
  String.length agentId <= 128 ->
  (forall label, b_label block = Some label -> String.length label <= 128) ->
  exists n' ms',
    init_block uuid_generate_v4 label_le agentId (n, ms) block = (n', ms') /\
    keyed ms' /\
    blocks ms ⊆ blocks ms' /\
    n' + size (blocks ms) = n + size (blocks ms') /\
    settled agentId ms' block.
Proof.
  intros Hkeyed Hagent Hfit.
  assert (Hsame : keyed ms /\ blocks ms ⊆ blocks ms /\
                  n + size (blocks ms) = n + size (blocks ms)) by done.
  unfold init_block.
  destruct (b_label block) as [[|c r]|] eqn:Hl;
    [eexists _, _; split; [reflexivity|]; split; [done|]; split; [done|];
     split; [done|]; intros ? ? ? ? Hl' Hv'; rewrite Hl in Hl'; discriminate| |
     eexists _, _; split; [reflexivity|]; split; [done|]; split; [done|];
     split; [done|]; intros ? ? ? ? Hl' Hv'; rewrite Hl in Hl'; discriminate].
  destruct (b_value block) as [[|c' r']|] eqn:Hv;
    [eexists _, _; split; [reflexivity|]; split; [done|]; split; [done|];
     split; [done|]; intros ? ? ? ? Hl' Hv'; rewrite Hv in Hv'; discriminate| |
     eexists _, _; split; [reflexivity|]; split; [done|]; split; [done|];
     split; [done|]; intros ? ? ? ? Hl' Hv'; rewrite Hv in Hv'; discriminate].
  destruct (existsb _ (getAgentMemory label_le agentId ms)) eqn:Hexists; simpl.
  - eexists _, _. split; [reflexivity|]. split; [done|]. split; [done|]. split; [done|].
    intros ? ? ? ? ? _. simplify_eq. by apply (exists_label agentId (String c r) ms).
  - assert (Hfree : blocks ms !! (agentId, String c r) = None).
    { apply eq_None_not_Some. intros Hsome.
      apply (exists_label agentId (String c r) ms) in Hsome; [|done]. congruence. }
    destruct (upsertAgentMemory_fits uuid_generate_v4 agentId (String c r)
                (String c' r') ms Hagent (Hfit _ eq_refl))
      as (row & Hrun & Hrow_agent & Hrow_label & _).
    rewrite Hrun. eexists _, _. split; [reflexivity|]. simpl.
    split; [apply keyed_insert; [done|by rewrite Hrow_agent, Hrow_label]|].
    split; [by apply insert_subseteq|].
    split; [rewrite map_size_insert_None by done; lia|].
    intros ? ? ? ? ? _. simplify_eq. simpl. rewrite lookup_insert_eq. eauto.
Qed.

Lemma init_block_settled agentId n ms block :
  keyed ms ->
  settled agentId ms block ->
  init_block uuid_generate_v4 label_le agentId (n, ms) block = (n, ms).
Proof.
  intros Hkeyed Hsettled. unfold init_block.
  destruct (b_label block) as [[|c r]|] eqn:Hl; [done| |done].
  destruct (b_value block) as [[|c' r']|] eqn:Hv; [done| |done].
  specialize (Hsettled c r c' r' Hl Hv).
  apply (exists_label agentId (String c r) ms) in Hsettled; [|done].
  by rewrite Hsettled.
Qed.

Lemma init_blocks_spec agentId memBlocks : forall n ms,
  keyed ms ->
  String.length agentId <= 128 ->
  (forall block label, block ∈ memBlocks -> b_label block = Some label ->
                       String.length label <= 128) ->
  exists n' ms',
    foldl (init_block uuid_generate_v4 label_le agentId) (n, ms) memBlocks = (n', ms') /\
    keyed ms' /\
    blocks ms ⊆ blocks ms' /\
    n' + size (blocks ms) = n + size (blocks ms') /\
    forall block, block ∈ memBlocks -> settled agentId ms' block.
Proof.
  induction memBlocks as [|block memBlocks IH]; intros n ms Hkeyed Hagent Hfit.
  - exists n, ms. split; [done|]. split; [done|]. split; [done|]. split; [done|].
    intros block Hin. by apply elem_of_nil in Hin.
  - destruct (init_block_spec agentId n ms block Hkeyed Hagent)
      as (n1 & ms1 & Hrun1 & Hkeyed1 & Hsub1 & Hsize1 & Hsettled1).
    { intros label. apply Hfit. left. }
    destruct (IH n1 ms1 Hkeyed1 Hagent)
      as (n2 & ms2 & Hrun2 & Hkeyed2 & Hsub2 & Hsize2 & Hsettled2).
    { intros b label Hb. apply Hfit. by right. }
    exists n2, ms2. cbn [foldl]. rewrite Hrun1.
    split; [done|]. split; [done|]. split; [by etrans|]. split; [lia|].
    intros b Hb. apply elem_of_cons in Hb as [->|Hb]; [|by apply Hsettled2].
    by apply (settled_mono agentId ms1).
Qed.

Lemma init_blocks_settled agentId memBlocks n ms :
  keyed ms ->
  (forall block, block ∈ memBlocks -> settled agentId ms block) ->
  foldl (init_block uuid_generate_v4 label_le agentId) (n, ms) memBlocks = (n, ms).
Proof.
  intros Hkeyed. induction memBlocks as [|block memBlocks IH]; intros Hsettled; [done|].
  cbn [foldl]. rewrite init_block_settled; [|done|apply Hsettled; left].
  apply IH. intros b Hb. apply Hsettled. by right.
Qed.

Lemma init_entries_spec entries : forall n ms,
  keyed ms ->
  fitting entries ->
  exists n' ms',
    foldl (fun acc entry =>
             foldl (init_block uuid_generate_v4 label_le entry.1) acc entry.2)
          (n, ms) entries = (n', ms') /\
    keyed ms' /\
    blocks ms ⊆ blocks ms' /\
    n' + size (blocks ms) = n + size (blocks ms') /\
    forall entry block, entry ∈ entries -> block ∈ entry.2 -> settled entry.1 ms' block.
Proof.
  induction entries as [|entry entries IH]; intros n ms Hkeyed Hfit.
  - exists n, ms. split; [done|]. split; [done|]. split; [done|]. split; [done|].
    intros entry block Hin. by apply elem_of_nil in Hin.
  - destruct (init_blocks_spec entry.1 entry.2 n ms Hkeyed)
      as (n1 & ms1 & Hrun1 & Hkeyed1 & Hsub1 & Hsize1 & Hsettled1).
    { apply (Hfit entry). left. }
    { apply (Hfit entry). left. }
    destruct (IH n1 ms1 Hkeyed1)
      as (n2 & ms2 & Hrun2 & Hkeyed2 & Hsub2 & Hsize2 & Hsettled2).
    { intros e He. apply Hfit. by right. }
    exists n2, ms2. cbn [foldl]. rewrite Hrun1.
    split; [done|]. split; [done|]. split; [by etrans|]. split; [lia|].
    intros e b He Hb. apply elem_of_cons in He as [->|He]; [|by apply Hsettled2].
    apply (settled_mono _ ms1); [done|]. by apply Hsettled1.
Qed.

Lemma init_entries_settled entries : forall n ms,
  keyed ms ->
  (forall entry block, entry ∈ entries -> block ∈ entry.2 -> settled entry.1 ms block) ->
  foldl (fun acc entry =>
           foldl (init_block uuid_generate_v4 label_le entry.1) acc entry.2)
        (n, ms) entries = (n, ms).
Proof.
  induction entries as [|entry entries IH]; intros n ms Hkeyed Hsettled; [done|].
  cbn [foldl]. rewrite init_blocks_settled; [|done|].
  - apply IH; [done|]. intros e b He. apply Hsettled. by right.
  - intros b. apply Hsettled. left.
Qed.

(** The initial memory only adds blocks: every block stored before is
    still there, unchanged; the number of stored blocks grows by exactly
    the count the function keeps; and afterwards every configured block
    with a non-empty label and value has a stored block of its label.
    (Agent ids and labels are taken to fit their columns.) *)
Theorem initAgentMemory_only_adds (entries : list (string * list MemoryBlock))
        (ms : MemoryStore) :
  keyed ms ->
  fitting entries ->
  let run := initAgentMemory uuid_generate_v4 label_le entries ms in
  (forall agentId r, r ∈ getAgentMemory label_le agentId ms ->
                     r ∈ getAgentMemory label_le agentId run.2) /\
  size (blocks run.2) = size (blocks ms) + run.1 /\
  (forall entry block c r c' r',
     entry ∈ entries -> block ∈ entry.2 ->
     b_label block = Some (String c r) -> b_value block = Some (String c' r') ->
     exists row, row ∈ getAgentMemory label_le entry.1 run.2 /\
                 mem_label row = String c r).
Proof.
  intros Hkeyed Hfit run. subst run. unfold initAgentMemory.
  destruct (init_entries_spec entries 0 ms Hkeyed Hfit)
    as (n' & ms' & -> & Hkeyed' & Hsub & Hsize & Hsettled).
  simpl. split; [|split; [lia|]].
  - intros agentId r. rewrite !getAgentMemory_elem.
    intros [Hagent (k & Hkr)]. split; [done|]. exists k.
    by eapply lookup_weaken.
  - intros entry block c r c' r' Hentry Hblock Hl Hv.
    destruct (Hsettled entry block Hentry Hblock c r c' r' Hl Hv) as [row Hrow].
    exists row. pose proof (Hkeyed' _ _ Hrow) as [= Ha Hlabel].
    split; [|done]. apply getAgentMemory_elem. eauto.
Qed.

(** Running the initial memory again changes nothing: the second run
    creates no block and leaves the store as the first run left it. *)
Theorem initAgentMemory_idempotent (entries : list (string * list MemoryBlock))
        (ms : MemoryStore) :
  keyed ms ->
  fitting entries ->
  let once := initAgentMemory uuid_generate_v4 label_le entries ms in
  initAgentMemory uuid_generate_v4 label_le entries once.2 = (0, once.2).
Proof.
  intros Hkeyed Hfit once. subst once. unfold initAgentMemory.
  destruct (init_entries_spec entries 0 ms Hkeyed Hfit)
    as (n' & ms' & -> & Hkeyed' & _ & _ & Hsettled).
  simpl. by apply init_entries_settled.
Qed.

End InitProps.
End InitProps.

(** ** The agent registry *)

Module RegistryProps.
Import ServerMore MoreStatements.

Lemma load_file_cases acc file :
  (registry (load_file acc file) = registry acc /\
   loaded (load_file acc file) = loaded acc /\
   skipped (load_file acc file) = S (skipped acc)) \/
  (exists id e,
     loaded_from [file] id e /\
     registry (load_file acc file) = <[id := e]> (registry acc) /\
     loaded (load_file acc file) = S (loaded acc) /\
     skipped (load_file acc file) = skipped acc).
Proof.
  unfold load_file. destruct file as [name [config|]]; simpl; [|by left].
  destruct (cfg_id config) as [[|c r]|] eqn:Hid; [by left| |by left].
  destruct (cfg_systemInstructions config) as [[|c' r']|] eqn:Hinstructions;
    [by left| |by left].
  right. eexists _, _. split; [|done].
  split; [done|]. split; [done|]. split; [done|].
  exists (name, Some config), config. simpl.
  split; [left|]. done.
Qed.

Lemma loaded_from_mono files files' id e :
  files ⊆ files' -> loaded_from files id e -> loaded_from files' id e.
Proof.
  intros Hsub (Hid & Hne & Hinstr & file & config & Hfile & Hrest).
  split; [done|]. split; [done|]. split; [done|].
  exists file, config. split; [by apply Hsub|done].
Qed.

Lemma load_files_spec files : forall acc,
  let result := foldl load_file acc files in
  loaded result + skipped result = loaded acc + skipped acc + length files /\
  (forall id e, registry result !! id = Some e ->
                registry acc !! id = Some e \/ loaded_from files id e) /\
  (forall id, is_Some (registry acc !! id) -> is_Some (registry result !! id)).
Proof.
  induction files as [|file files IH]; intros acc result; subst result.
  - simpl. split; [lia|]. split; [by left|done].
  - cbn [foldl]. destruct (IH (load_file acc file)) as (Hcount & Hfrom & Hkept).
    destruct (load_file_cases acc file)
      as [(Hreg & Hloaded & Hskipped)|(id0 & e0 & Hnew & Hreg & Hloaded & Hskipped)].
    + split; [rewrite Hcount, Hloaded, Hskipped; simpl; lia|]. split.
      * intros id e He. destruct (Hfrom id e He) as [Hold|Hold].
        -- left. by rewrite <- Hreg.
        -- right. eapply loaded_from_mono; [|done]. intros f Hf. by right.
      * intros id Hid. apply Hkept. by rewrite Hreg.
    + split; [rewrite Hcount, Hloaded, Hskipped; simpl; lia|]. split.
      * intros id e He. destruct (Hfrom id e He) as [Hold|Hold].
        -- rewrite Hreg in Hold. destruct (decide (id0 = id)) as [->|Hne].
           ++ rewrite lookup_insert_eq in Hold. injection Hold as <-.
              right. eapply loaded_from_mono; [|done].
              intros f Hf. apply list_elem_of_singleton in Hf as ->. left.
           ++ rewrite lookup_insert_ne in Hold by done. by left.
        -- right. eapply loaded_from_mono; [|done]. intros f Hf. by right.
      * intros id Hid. apply Hkept. rewrite Hreg.
        destruct (decide (id0 = id)) as [->|Hne].
        -- rewrite lookup_insert_eq. eauto.
        -- by rewrite lookup_insert_ne.
Qed.

(** One file: it is skipped and makes nothing, or it is loaded and makes
    one entry, which replaces what the registry had under that id. *)
Lemma load_file_made_by acc file :
  (made_by file = ∅ /\
   registry (load_file acc file) = registry acc /\
   loaded (load_file acc file) = loaded acc /\
   skipped (load_file acc file) = S (skipped acc)) \/
  (exists id e,
     made_by file = {[ id := e ]} /\
     registry (load_file acc file) = <[id := e]> (registry acc) /\
     loaded (load_file acc file) = S (loaded acc) /\
     skipped (load_file acc file) = skipped acc).
Proof.
  unfold made_by, load_file. destruct file as [name [config|]]; simpl; [|by left].
  destruct (cfg_id config) as [[|c r]|]; [by left| |by left].
  destruct (cfg_systemInstructions config) as [[|c' r']|]; [by left| |by left].
  right. eexists _, _. split; [|done]. apply insert_empty.
Qed.

Lemma last_cons_from_option {A} (x : A) (l : list A) :
  last (x :: l) = Some (default x (last l)).
Proof.
  revert x. induction l as [|y l IH]; intros x; [done|].
  change (last (x :: y :: l)) with (last (y :: l)).
  rewrite IH. by destruct l.
Qed.

Lemma load_files_registry files : forall acc,
  let result := foldl load_file acc files in
  loaded result = loaded acc + length (filter (fun f => made_by f <> ∅) files) /\
  (forall id, registry result !! id
     = from_option Some (registry acc !! id)
                   (last (omap (fun f => made_by f !! id) files))).
Proof.
  induction files as [|file files IH]; intros acc result; subst result.
  - simpl. split; [lia|done].
  - cbn [foldl]. destruct (IH (load_file acc file)) as (Hcount & Hreg).
    rewrite Hcount. rewrite filter_cons.
    destruct (load_file_made_by acc file)
      as [(Hnone & Hsame & Hloaded & _)|(id0 & e0 & Hone & Hnew & Hloaded & _)].
    + rewrite Hloaded, decide_False by (by intros []).
      split; [done|]. intros id. cbn [omap list_omap].
      by rewrite Hreg, Hsame, Hnone, lookup_empty.
    + rewrite Hloaded, decide_True.
      2:{ rewrite Hone. intros Hempty.
          apply (f_equal (fun m => m !! id0)) in Hempty.
          by rewrite lookup_singleton_eq, lookup_empty in Hempty. }
      split; [simpl; lia|]. intros id. cbn [omap list_omap]. rewrite Hreg, Hnew, Hone.
      destruct (decide (id0 = id)) as [->|Hne].
      * rewrite lookup_insert_eq, lookup_singleton_eq, last_cons_from_option.
        by destruct (last _).
      * by rewrite lookup_insert_ne, lookup_singleton_ne.
Qed.

(** Loading the agents counts every [.json] file of the directory exactly
    once, as loaded when it makes an entry and as skipped otherwise.  An
    agent of the registry was either there before or comes from one of
    these files: it has the non-empty id it is registered under, non-empty
    system instructions and the name of its file.  The registry holds,
    under every id, the entry made by the last file that makes one for this
    id, and the entry it had before when no file does. *)
Theorem loadAgents_registry (listing : list (string * option AgentConfig))
        (agents : gmap string AgentEntry) :
  let result := loadAgents (Some listing) agents in
  let files := filter (fun f => endsWith f.1 ".json" = true) listing in
  loaded result + skipped result = length files /\
  loaded result = length (filter (fun f => made_by f <> ∅) files) /\
  (forall id e, registry result !! id = Some e ->
                agents !! id = Some e \/ loaded_from files id e) /\
  (forall id, registry result !! id
     = from_option Some (agents !! id)
                   (last (omap (fun f => made_by f !! id) files))).
Proof.
  intros result files. subst result files. unfold loadAgents.
  destruct (load_files_spec (filter (fun f => endsWith f.1 ".json" = true) listing)
              {| registry := agents; loaded := 0; skipped := 0 |})
    as (Hcount & Hfrom & _).
  destruct (load_files_registry (filter (fun f => endsWith f.1 ".json" = true) listing)
              {| registry := agents; loaded := 0; skipped := 0 |})
    as (Hloaded & Hreg).
  split; [simpl in Hcount; lia|]. split; [exact Hloaded|].
  split; [exact Hfrom|exact Hreg].
Qed.

End RegistryProps.

(** ** The start-up wait *)

Module WaitProps.
Import OllamaMore MoreStatements.

Lemma next_delay_bounds (delay : Q) :
  (0 <= delay)%Q -> (delay <= 15000)%Q ->
  (delay <= next_delay delay)%Q /\ (next_delay delay <= 15000)%Q.
Proof.
  intros Hlow Hhigh. unfold next_delay.
  pose proof (Q.le_min_r (delay * (3 # 2)) 15000) as Hcap.
  assert (Hgrow : (delay <= Qmin (delay * (3 # 2)) 15000)%Q)
    by (apply Q.min_glb; lra).
  done.
Qed.

Lemma schedule_bounds (k : nat) : forall delay : Q,
  (0 <= delay)%Q -> (delay <= 15000)%Q ->
  Forall (fun x => (delay <= x)%Q /\ (x <= 15000)%Q) (schedule k delay) /\
  Sorted Qle (schedule k delay).
Proof.
  induction k as [|k IH]; intros delay Hlow Hhigh; [by split; constructor|].
  destruct (next_delay_bounds delay Hlow Hhigh) as [Hgrow Hcap].
  destruct (IH (next_delay delay)) as [Hall Hsorted]; [lra|done|].
  simpl. split.
  - constructor; [lra|].
    eapply Forall_impl; [exact Hall|]. simpl. intros x [? ?]. lra.
  - constructor; [done|].
    destruct k as [|k]; [constructor|]. simpl. constructor. done.
Qed.

Section WaitProps.
Context `{TagsEndpoint}.

Lemma wait_loop_unreachable (remaining : nat) : forall delay slept n,
  (forall i, i < remaining -> exists e, get_tags (n + i) = Threw e) ->
  wait_loop remaining delay slept n
    = (false, (slept ++ schedule remaining delay)%list, n + remaining).
Proof.
  induction remaining as [|remaining IH]; intros delay slept n Hfail.
  - simpl. by rewrite app_nil_r, Nat.add_0_r.
  - simpl. destruct (Hfail 0) as [e He]; [lia|]. rewrite Nat.add_0_r in He.
    rewrite He, IH.
    + by rewrite <- app_assoc, Nat.add_succ_r.
    + intros i Hi. destruct (Hfail (S i)) as [e' He']; [lia|].
      exists e'. by rewrite <- He', Nat.add_succ_r.
Qed.

Lemma wait_loop_reached (k : nat) : forall remaining delay slept n v,
  k < remaining ->
  (forall i, i < k -> exists e, get_tags (n + i) = Threw e) ->
  get_tags (n + k) = Returned v ->
  wait_loop remaining delay slept n
    = (true, (slept ++ schedule k delay)%list, S (n + k)).
Proof.
  induction k as [|k IH]; intros remaining delay slept n v Hk Hfail Hok;
    (destruct remaining as [|remaining]; [lia|]).
  - simpl. rewrite Nat.add_0_r in Hok. by rewrite Hok, app_nil_r, Nat.add_0_r.
  - simpl. destruct (Hfail 0) as [e He]; [lia|]. rewrite Nat.add_0_r in He.
    rewrite He, (IH remaining _ _ (S n) v).
    + by rewrite <- app_assoc, Nat.add_succ_r.
    + lia.
    + intros i Hi. destruct (Hfail (S i)) as [e' He']; [lia|].
      exists e'. by rewrite <- He', Nat.add_succ_r.
    + by rewrite <- Hok, Nat.add_succ_r.
Qed.

Lemma wait_loop_slept (remaining : nat) : forall delay slept n,
  exists k,
    k <= remaining /\
    (wait_loop remaining delay slept n).1.2 = (slept ++ schedule k delay)%list /\
    (wait_loop remaining delay slept n).2
      = n + k + (if (wait_loop remaining delay slept n).1.1 then 1 else 0) /\
    ((wait_loop remaining delay slept n).1.1 = false -> k = remaining).
Proof.
  induction remaining as [|remaining IH]; intros delay slept n.
  - exists 0. simpl. rewrite app_nil_r. split; [done|]. split; [done|]. split; [lia|done].
  - simpl. destruct (get_tags n) as [v|e].
    + exists 0. simpl. rewrite app_nil_r. split; [lia|]. split; [done|]. split; [lia|done].
    + destruct (IH (next_delay delay) (slept ++ [delay])%list (S n))
        as (k & Hk & Hslept & Hrequests & Hfalse).
      exists (S k). split; [lia|]. split; [by rewrite Hslept, <- app_assoc|].
      split; [rewrite Hrequests; lia|]. intros Hres. by rewrite Hfalse.
Qed.

(** The start-up wait asks until an attempt succeeds and gives up after
    [maxRetries] failures.  If the attempt with index [k] is the first to
    succeed it returns [true] after exactly [k] sleeps and [k + 1]
    requests; if all [maxRetries] attempts fail it returns [false] after
    [maxRetries] sleeps and as many requests. *)
Theorem waitForOllama_outcome (maxRetries : nat) (initialDelay : Q) (n : nat) :
  (forall k v,
     k < maxRetries ->
     (forall i, i < k -> exists e, get_tags (n + i) = Threw e) ->
     get_tags (n + k) = Returned v ->
     waitForOllama maxRetries initialDelay n = (true, schedule k initialDelay, S (n + k))) /\
  ((forall i, i < maxRetries -> exists e, get_tags (n + i) = Threw e) ->
   waitForOllama maxRetries initialDelay n
     = (false, schedule maxRetries initialDelay, n + maxRetries)).
Proof.
  unfold waitForOllama. split.
  - intros k v Hk Hfail Hok.
    by rewrite (wait_loop_reached k maxRetries initialDelay [] n v).
  - intros Hfail. by rewrite wait_loop_unreachable.
Qed.

(** The sleeps of the start-up wait, for an initial delay between 0 and
    15000: there are at most [maxRetries] of them, one per failed attempt;
    none is shorter than the initial delay or longer than 15000; and no
    sleep is shorter than the one before it. *)
Theorem waitForOllama_delays (maxRetries : nat) (initialDelay : Q) (n : nat) :
  (0 <= initialDelay)%Q ->
  (initialDelay <= 15000)%Q ->
  let run := waitForOllama maxRetries initialDelay n in
  length run.1.2 <= maxRetries /\
  run.2 = n + length run.1.2 + (if run.1.1 then 1 else 0) /\
  (run.1.1 = false -> length run.1.2 = maxRetries) /\
  Forall (fun x => (initialDelay <= x)%Q /\ (x <= 15000)%Q) run.1.2 /\
  Sorted Qle run.1.2.
Proof.
  intros Hlow Hhigh run. subst run. unfold waitForOllama.
  destruct (wait_loop_slept maxRetries initialDelay [] n)
    as (k & Hk & Hslept & Hrequests & Hfalse).
  assert (Hlen : length (schedule k initialDelay) = k).
  { clear. revert initialDelay. induction k as [|k IH]; intros d; [done|].
    simpl. by rewrite IH. }
  rewrite Hslept, Hrequests. simpl. rewrite Hlen.
  destruct (schedule_bounds k initialDelay Hlow Hhigh) as [Hall Hsorted].
  split; [done|]. split; [done|]. split; [done|]. done.
Qed.

End WaitProps.
End WaitProps.

(** ** The tools offered to the model *)

Module ToolProps.
Import ToolExecutor MoreStatements.
Section ToolProps.
Context `{JSON} `{Services} `{ModelRuntime}.

Lemma read_props_object fields props :
  read_props (JObj fields) props = Returned ((fun p => get_field p fields) <$> props).
Proof.
  induction props as [|p props IH]; [done|].
  simpl. by rewrite IH.
Qed.

Lemma executeTool_github toolCall fields props gh ln :
  tc_arguments toolCall = JObj fields ->
  startsWith (tc_name toolCall) "github_" = true ->
  nonempty gh = true ->
  assoc (tc_name toolCall) Github.cases = Some props ->
  executeTool toolCall gh ln
  = rendered (tc_name toolCall)
      (Some (Github.wrapper (tc_name toolCall)
                            ((fun p => get_field p fields) <$> props) gh)).
Proof.
  intros Hargs Hprefix Hgh Hcase.
  unfold executeTool, parsed_arguments, route, Github.executeFunction.
  rewrite Hargs, Hprefix, Hgh, Hcase, read_props_object. simpl.
  by destruct (Github.wrapper _ _ _).
Qed.

Lemma executeTool_linear toolCall fields props gh ln :
  tc_arguments toolCall = JObj fields ->
  startsWith (tc_name toolCall) "github_" = false ->
  startsWith (tc_name toolCall) "linear_" = true ->
  nonempty ln = true ->
  assoc (tc_name toolCall) Linear.functionMap = Some props ->
  executeTool toolCall gh ln
  = rendered (tc_name toolCall)
      (Linear.wrapper (tc_name toolCall) ((fun p => get_field p fields) <$> props) ln).
Proof.
  intros Hargs Hgithub Hprefix Hln Hcase.
  unfold executeTool, parsed_arguments, route, Linear.executeFunction.
  rewrite Hargs, Hgithub, Hprefix, Hln, Hcase, read_props_object. simpl.
  by destruct (Linear.wrapper _ _ _) as [[]|].
Qed.

(** Every tool offered to the model can be run: a call of an offered tool
    with an object as arguments reaches the wrapper of that name in the
    client of its prefix, with the properties the wrapper takes read from
    the arguments and with the credential that made the tool available;
    what [executeTool] returns is the wrapper's value as a string.  It is
    never answered with an unknown tool, an unknown function or a missing
    credential. *)
Theorem offered_tools_run (gh ln : string) (toolCall : ToolCall)
        (fields : list (string * JValue)) :
  tc_name toolCall ∈ getAvailableTools gh ln ->
  tc_arguments toolCall = JObj fields ->
  (exists props,
      assoc (tc_name toolCall) Github.cases = Some props /\
      nonempty gh = true /\
      executeTool toolCall gh ln
      = rendered (tc_name toolCall)
          (Some (Github.wrapper (tc_name toolCall)
                                ((fun p => get_field p fields) <$> props) gh))) \/
  (exists props,
      assoc (tc_name toolCall) Linear.functionMap = Some props /\
      nonempty ln = true /\
      executeTool toolCall gh ln
      = rendered (tc_name toolCall)
          (Linear.wrapper (tc_name toolCall) ((fun p => get_field p fields) <$> props) ln)).
Proof.
  intros Hin Hargs.
  assert (Hcases :
    (tc_name toolCall ∈ Github.tools /\ nonempty gh = true) \/
    (tc_name toolCall ∈ Linear.tools /\ nonempty ln = true)).
  { unfold getAvailableTools in Hin.
    destruct (nonempty gh), (nonempty ln); cbv beta iota zeta in Hin;
      rewrite ?elem_of_app in Hin; rewrite ?elem_of_nil in Hin; tauto. }
  destruct Hcases as [[Hname Hgh]|[Hname Hln]].
  - left. unfold Github.tools in Hname.
    repeat (apply elem_of_cons in Hname as [Hname|Hname];
            [eexists; split; [by rewrite Hname|]; split; [done|];
             apply executeTool_github; [done|by rewrite Hname|done|by rewrite Hname]|]).
    by apply elem_of_nil in Hname.
  - right. unfold Linear.tools in Hname.
    repeat (apply elem_of_cons in Hname as [Hname|Hname];
            [eexists; split; [by rewrite Hname|]; split; [done|];
             apply executeTool_linear;
             [done|by rewrite Hname|by rewrite Hname|done|by rewrite Hname]|]).
    by apply elem_of_nil in Hname.
Qed.

End ToolProps.
End ToolProps.

(** ** The requests of the tool loop *)

Module RoundProps.
Import ToolExecutor MoreStatements.
Section RoundProps.
Context `{JSON} `{Services} `{ModelRuntime}.

Lemma push_results_is_Some cur results : forall w,
  is_Some (heap w !! cur) -> is_Some (heap (push_results cur results w) !! cur).
Proof.
  unfold push_results.
  induction results as [|result results IH]; intros w Hsome; [done|].
  cbn [foldl]. apply IH. by apply push_is_Some.
Qed.

Lemma processToolCalls_app first second gh ln :
  processToolCalls (first ++ second) gh ln
  = (processToolCalls first gh ln ++ processToolCalls second gh ln)%list.
Proof. unfold processToolCalls. apply map_app. Qed.

Lemma iterate_requests model tools options gh ln remaining :
  forall iterations cur all w out w',
    is_Some (heap w !! cur) ->
    iterate model tools options gh ln remaining iterations cur all w = (out, w') ->
    exists posts : list Payload,
      trace w' = (trace w ++ (Posted <$> posts))%list /\
      length posts <= remaining /\
      (forall p, head posts = Some p ->
                 p = loop_payload model tools options (elements_of cur w)) /\
      (forall i p q,
          posts !! i = Some p -> posts !! S i = Some q ->
          exists data toolCall others,
            axios_post (model_calls w + i) p = Returned data /\
            tool_calls (d_message data) = Some (toolCall :: others) /\
            q = loop_payload model tools options
                  (p_messages p ++ d_message data
                     :: map tool_message (processToolCalls (toolCall :: others) gh ln))) /\
      (forall result,
          out = Returned result ->
          r_iterations result = iterations + length posts /\
          r_toolResults result
          = (all ++ processToolCalls (requested_calls (model_calls w) posts) gh ln)%list).
Proof.
  induction remaining as [|remaining IH]; intros iterations cur all w out w' Hcur Hrun.
  - rewrite DispatchProps.iterate_exhausted in Hrun. injection Hrun as <- <-.
    exists []. simpl. rewrite app_nil_r.
    split; [done|]. split; [done|]. split; [done|].
    split; [intros i p q Hp; by rewrite lookup_nil in Hp|].
    intros result [= <-]. simpl. by rewrite app_nil_r, Nat.add_0_r.
  - set (payload := loop_payload model tools options (elements_of cur w)).
    assert (Hsingle : forall i p q,
               [payload] !! i = Some p -> [payload] !! S i = Some q -> False).
    { intros i p q _ Hq. by rewrite lookup_cons, lookup_nil in Hq. }
    destruct (axios_post (model_calls w) payload) as [data|error] eqn:Hpost.
    + destruct (tool_calls (d_message data)) as [[|toolCall others]|] eqn:Hcalls.
      * rewrite (DispatchProps.iterate_final _ _ _ _ _ _ _ _ _ _ data) in Hrun by auto.
        injection Hrun as <- <-. exists [payload].
        split; [done|]. split; [simpl; lia|]. split; [by intros p [= <-]|].
        split; [intros i p q Hp Hq; destruct (Hsingle i p q Hp Hq)|].
        intros result [= <-]. simpl. fold payload. rewrite Hpost, Hcalls. simpl.
        split; [lia|by rewrite app_nil_r].
      * rewrite (DispatchProps.iterate_tool_calls _ _ _ _ _ _ _ _ _ _ data toolCall others)
          in Hrun by done.
        fold payload in Hrun.
        set (results := processToolCalls (toolCall :: others) gh ln) in *.
        set (w2 := push_results cur results
                     (push cur (d_message data) (emit (Posted payload) w))) in *.
        assert (Hcur2 : is_Some (heap w2 !! cur)).
        { apply push_results_is_Some. by apply push_is_Some. }
        assert (Helements : elements_of cur w2
                            = (elements_of cur w
                               ++ d_message data :: map tool_message results)%list).
        { unfold w2. rewrite LoopProps.push_results_elements by (by apply push_is_Some).
          rewrite elements_of_push_same by done.
          by rewrite <- app_assoc. }
        assert (Hcalls2 : model_calls w2 = S (model_calls w)).
        { unfold w2. rewrite (LoopProps.model_calls_trace (emit (Posted payload) w)).
          - apply model_calls_emit_post.
          - by rewrite LoopProps.push_results_trace. }
        assert (Htrace2 : trace w2 = (trace w ++ [Posted payload])%list).
        { unfold w2. by rewrite LoopProps.push_results_trace. }
        apply IH in Hrun as (posts & Htrace & Hlen & Hhead & Hnext & Hresult); [|done].
        exists (payload :: posts).
        split; [by rewrite Htrace, Htrace2, <- app_assoc|].
        split; [simpl; lia|].
        split; [by intros p [= <-]|]. split.
        -- intros [|i] p q Hp Hq; simpl in Hp, Hq.
           ++ injection Hp as <-. exists data, toolCall, others.
              rewrite Nat.add_0_r. split; [done|]. split; [done|].
              rewrite (Hhead q) by (by destruct posts; simplify_eq).
              by rewrite Helements.
           ++ replace (model_calls w + S i) with (model_calls w2 + i) by lia.
              by apply Hnext.
        -- intros result Hout. destruct (Hresult result Hout) as [Hiterations Hresults].
           split; [rewrite Hiterations; simpl; lia|].
           rewrite Hresults, Hcalls2. cbn [requested_calls]. fold payload.
           rewrite Hpost, Hcalls. cbn [from_option id].
           by rewrite processToolCalls_app, app_assoc.
      * rewrite (DispatchProps.iterate_final _ _ _ _ _ _ _ _ _ _ data) in Hrun by auto.
        injection Hrun as <- <-. exists [payload].
        split; [done|]. split; [simpl; lia|]. split; [by intros p [= <-]|].
        split; [intros i p q Hp Hq; destruct (Hsingle i p q Hp Hq)|].
        intros result [= <-]. simpl. fold payload. rewrite Hpost, Hcalls. simpl.
        split; [lia|by rewrite app_nil_r].
    + rewrite (DispatchProps.iterate_failed _ _ _ _ _ _ _ _ _ _ error) in Hrun by done.
      injection Hrun as <- <-. exists [payload].
      split; [done|]. split; [simpl; lia|]. split; [by intros p [= <-]|].
      split; [intros i p q Hp Hq; destruct (Hsingle i p q Hp Hq)|].
      intros result [=].
Qed.

Lemma chatWithTools_rounds model messages tools options gh ln maxIterations w out w' :
  chatWithTools model messages tools options gh ln maxIterations w = (out, w') ->
  exists posts : list Payload,
    trace w' = (trace w ++ Entered "chatWithTools" :: (Posted <$> posts))%list /\
    length posts <= maxIterations /\
    (forall p, head posts = Some p ->
               p = loop_payload model tools options (elements_of messages w)) /\
    (forall i p q,
        posts !! i = Some p -> posts !! S i = Some q ->
        exists data toolCall others,
          axios_post (model_calls w + i) p = Returned data /\
          tool_calls (d_message data) = Some (toolCall :: others) /\
          q = loop_payload model tools options
                (p_messages p ++ d_message data
                   :: map tool_message (processToolCalls (toolCall :: others) gh ln))) /\
    (forall result,
        out = Returned result ->
        r_iterations result = length posts /\
        r_toolResults result
        = processToolCalls (requested_calls (model_calls w) posts) gh ln).
Proof.
  rewrite LoopProps.chatWithTools_unfold. intros Hrun.
  apply iterate_requests in Hrun as (posts & Htrace & Hlen & Hhead & Hnext & Hresult).
  - rewrite LoopProps.model_calls_started in Hnext, Hresult.
    exists posts. split; [|split; [done|split; [|split; [done|done]]]].
    + rewrite Htrace. simpl. by rewrite <- app_assoc.
    + intros p Hp. rewrite (Hhead p Hp). f_equal.
      unfold elements_of, alloc. simpl. by rewrite lookup_total_insert_eq.
  - unfold alloc. simpl. rewrite lookup_insert_eq. eauto.
Qed.

(** The requests of a run of the tool loop, in order: the first carries
    the caller's messages; each later one carries the messages of the one
    before it, then the assistant message that asked for tools in answer
    to it, then one tool message per call of that answer, in the order of
    the calls.  All carry the same model and the same tool list, and there
    are at most [maxIterations] of them. *)
Theorem chatWithTools_requests (model : string) (messages : loc) (tools : list string)
        (options : list (string * JValue)) (gh ln : string) (maxIterations : nat)
        (w w' : World) (out : Outcome JSError LoopResult) :
  chatWithTools model messages tools options gh ln maxIterations w = (out, w') ->
  exists posts : list Payload,
    trace w' = (trace w ++ Entered "chatWithTools" :: (Posted <$> posts))%list /\
    length posts <= maxIterations /\
    (forall p, head posts = Some p -> p_messages p = elements_of messages w) /\
    (forall i p q,
        posts !! i = Some p -> posts !! S i = Some q ->
        exists data toolCall others,
          axios_post (model_calls w + i) p = Returned data /\
          tool_calls (d_message data) = Some (toolCall :: others) /\
          p_messages q
          = (p_messages p ++ d_message data
               :: map tool_message (processToolCalls (toolCall :: others) gh ln))%list) /\
    (forall p, p ∈ posts ->
               p_model p = model /\ p_stream p = false /\
               p_tools p = match tools with [] => None | _ => Some tools end).
Proof.
  intros Hrun.
  apply chatWithTools_rounds in Hrun as (posts & Htrace & Hlen & Hhead & Hnext & _).
  exists posts. split; [done|]. split; [done|]. split; [|split].
  - intros p Hp. by rewrite (Hhead p Hp).
  - intros i p q Hp Hq.
    destruct (Hnext i p q Hp Hq) as (data & toolCall & others & Hpost & Hcalls & ->).
    by exists data, toolCall, others.
  - intros p Hp. apply list_elem_of_lookup in Hp as [i Hp].
    destruct i as [|i].
    + rewrite (Hhead p) by (by destruct posts; simplify_eq). done.
    + destruct (lookup_lt_is_Some_2 posts i) as [p0 Hp0];
        [apply lookup_lt_Some in Hp; lia|].
      by destruct (Hnext i p0 p Hp0 Hp) as (data & toolCall & others & _ & _ & ->).
Qed.

(** What a run of the tool loop reports: [iterations] is the number of
    requests it sent to the model, and [toolResults] holds the result of
    every tool call the model asked for during the run, one per call, in
    the order of the answers and of the calls within them. *)
Theorem chatWithTools_accounting (model : string) (messages : loc) (tools : list string)
        (options : list (string * JValue)) (gh ln : string) (maxIterations : nat)
        (w w' : World) (result : LoopResult) :
  chatWithTools model messages tools options gh ln maxIterations w = (Returned result, w') ->
  exists posts : list Payload,
    trace w' = (trace w ++ Entered "chatWithTools" :: (Posted <$> posts))%list /\
    r_iterations result = length posts /\
    model_calls w' = model_calls w + r_iterations result /\
    r_iterations result <= maxIterations /\
    r_toolResults result
    = processToolCalls (requested_calls (model_calls w) posts) gh ln /\
    length (r_toolResults result) = length (requested_calls (model_calls w) posts).
Proof.
  intros Hrun.
  apply chatWithTools_rounds in Hrun as (posts & Htrace & Hlen & _ & _ & Hresult).
  destruct (Hresult result eq_refl) as [Hiterations Hresults].
  exists posts. split; [done|]. split; [done|]. split; [|split; [lia|split; [done|]]].
  - rewrite Hiterations. unfold model_calls. rewrite Htrace.
    rewrite filter_app, length_app. f_equal.
    rewrite filter_cons_False by (simpl; tauto).
    clear. induction posts as [|p posts IH]; [done|].
    rewrite fmap_cons, filter_cons_True by done. simpl. by rewrite IH.
  - rewrite Hresults. unfold processToolCalls. by rewrite length_map.
Qed.

End RoundProps.
End RoundProps.

(** ** The two readings of a response *)

Module ShapeProps.
Import ToolExecutor Shaped WorldFacts.
Section ShapeProps.
Context `{JSON} `{Services} `{ModelRuntime} `{Untyped.Runtime} `{Untyped.Numbers}.

Lemma executeTool_of_call toolCall gh ln :
  Untyped.executeTool (of_call toolCall) gh ln = Returned (executeTool toolCall gh ln).
Proof.
  destruct toolCall as [[id|] name args]; unfold Untyped.executeTool, executeTool, of_call;
    cbn; unfold parsed_arguments; cbn.
  all: destruct args as [ | b | q | text | items | fields ]; cbn;
    try (by destruct (route _ _ _ _)).
  all: destruct (JSON_parse text); cbn; [|done]; by destruct (route _ _ _ _).
Qed.

Lemma property_id toolCall : Untyped.property (of_call toolCall) "id" = JStr <$> tc_id toolCall.
Proof. by destruct toolCall as [[id|] name args]. Qed.

Lemma processToolCalls_of_calls toolCalls gh ln :
  Untyped.processToolCalls (Some (JArr (of_call <$> toolCalls))) gh ln
  = Returned (of_tool_result <$> processToolCalls toolCalls gh ln).
Proof.
  unfold Untyped.processToolCalls, processToolCalls.
  cbn [Untyped.deref mbind Untyped.outcome_bind].
  induction toolCalls as [|toolCall toolCalls IH]; [done|].
  rewrite !fmap_cons. cbn [Untyped.all map].
  rewrite executeTool_of_call. cbn [mbind Untyped.outcome_bind].
  rewrite IH, property_id. done.
Qed.

Lemma property_message data :
  Untyped.property (of_data data) "message" = Some (of_message (d_message data)).
Proof. done. Qed.

Lemma property_tool_calls m :
  Untyped.property (of_message m) "tool_calls"
  = (fun toolCalls => JArr (of_call <$> toolCalls)) <$> tool_calls m.
Proof. by destruct m as [r [c|] [calls|] [i|]]. Qed.

Lemma property_content m : Untyped.property (of_message m) "content" = JStr <$> content m.
Proof. by destruct m as [r [c|] [calls|] [i|]]. Qed.

Lemma property_total_duration data :
  Untyped.property (of_data data) "total_duration" = d_total_duration data.
Proof. by destruct data as [m [model|] [total|] [count|]]. Qed.

Lemma property_eval_count data :
  Untyped.property (of_data data) "eval_count" = d_eval_count data.
Proof. by destruct data as [m [model|] [total|] [count|]]. Qed.

Lemma or_text_content (text : option string) (d : string) :
  Untyped.or_text (JStr <$> text) d = JStr (str_or text d).
Proof. by destruct text as [[|c r]|]. Qed.

(** The [try] block on a response of the prescribed shape. *)
Lemma received_of_data data gh ln iterations (allToolResults : list ToolResult)
      (currentMessages : list Message) :
  Untyped.received (of_data data) gh ln iterations (of_tool_result <$> allToolResults)
                   (of_message <$> currentMessages)
  = match tool_calls (d_message data) with
    | Some (toolCall :: others) =>
        let results := processToolCalls (toolCall :: others) gh ln in
        (Returned (Untyped.Again (of_tool_result <$> results)),
         of_message <$> (currentMessages ++ d_message data :: map tool_message results)%list)
    | _ =>
        (Returned
           (Untyped.Final
              (of_result {| r_message := str_or (content (d_message data)) "";
                            r_toolResults := allToolResults;
                            r_iterations := iterations;
                            r_totalDuration := d_total_duration data;
                            r_evalCount := d_eval_count data;
                            r_maxIterationsReached := None |})),
         of_message <$> currentMessages)
    end.
Proof.
  unfold Untyped.received, Untyped.assistant_message.
  change (Untyped.deref (Some (of_data data)) "message") with (@Returned JSError _ (of_data data)).
  cbn [mbind Untyped.outcome_bind]. rewrite property_message.
  change (Untyped.deref (Some (of_message (d_message data))) "tool_calls")
    with (@Returned JSError _ (of_message (d_message data))).
  cbv beta iota zeta.
  rewrite property_tool_calls, property_content, property_total_duration,
    property_eval_count, or_text_content.
  destruct (tool_calls (d_message data)) as [[|toolCall others]|]; [done| |done].
  cbn [fmap option_fmap option_map truthy_opt truthy andb].
  rewrite fmap_cons. cbn [Untyped.length_positive length Nat.eqb negb].
  rewrite <- fmap_cons, processToolCalls_of_calls. cbn zeta.
  f_equal. rewrite fmap_app, fmap_cons, <- app_assoc. f_equal. cbn [app]. f_equal.
  rewrite <- list_fmap_compose.
  generalize (processToolCalls (toolCall :: others) gh ln). clear.
  intros results. induction results; [done|]. cbn. by f_equal.
Qed.

Section Loop.
Variables (model : string) (tools : list string) (options : list (string * JValue))
          (gh ln : string).

(** The loop of [ToolExecutor], started in the world [w] after [first]
    requests, and the loop of [Untyped] on the same data. *)
Lemma iterate_of_data (first : nat) :
  (forall n payload,
      Untyped.post n (of_payload payload)
      = of_outcome of_data (axios_post (first + n) payload)) ->
  forall remaining iterations cur allToolResults w requests,
    is_Some (heap w !! cur) ->
    model_calls w = first + length requests ->
    let typed := iterate model tools options gh ln remaining iterations cur
                         allToolResults w in
    let run := Untyped.iterate model tools options gh ln remaining iterations
                               (of_message <$> elements_of cur w)
                               (of_tool_result <$> allToolResults) requests in
    Untyped.outcome run = of_outcome of_result typed.1 /\
    Untyped.working run = of_message <$> elements_of cur typed.2 /\
    exists posts,
      trace typed.2 = (trace w ++ (Posted <$> posts))%list /\
      Untyped.sent run = (requests ++ (of_payload <$> posts))%list.
Proof.
  intros Hruntime.
  induction remaining as [|remaining IH];
    intros iterations cur allToolResults w requests Hcur Hcalls typed run; subst typed run.
  - rewrite DispatchProps.iterate_exhausted.
    cbn [Untyped.iterate Untyped.outcome Untyped.working Untyped.sent fst snd of_outcome].
    split; [|split; [done|exists []; by rewrite !app_nil_r]].
    f_equal. unfold of_result. cbn. f_equal.
    rewrite fmap_last. destruct (last (elements_of cur w)) as [m|]; [|done].
    cbn [fmap option_fmap option_map mbind option_bind].
    change (Untyped.optional (Some (of_message m)) "content")
      with (Untyped.property (of_message m) "content").
    by rewrite property_content, or_text_content.
  - set (payload := loop_payload model tools options (elements_of cur w)).
    assert (Hpayload : Untyped.loop_payload model tools options
                         (of_message <$> elements_of cur w) = of_payload payload) by done.
    cbn [Untyped.iterate]. rewrite Hpayload.
    replace (Untyped.post (length requests) (of_payload payload))
      with (of_outcome of_data (axios_post (model_calls w) payload))
      by (by rewrite Hruntime, Hcalls).
    destruct (axios_post (model_calls w) payload) as [data|error] eqn:Hpost.
    2:{ rewrite (DispatchProps.iterate_failed _ _ _ _ _ _ _ _ _ _ error) by done.
        cbn. split; [done|]. split; [done|]. by exists [payload]. }
    cbn [of_outcome]. rewrite received_of_data.
    destruct (tool_calls (d_message data)) as [[|toolCall others]|] eqn:Htool_calls.
    + rewrite (DispatchProps.iterate_final _ _ _ _ _ _ _ _ _ _ data) by auto.
      cbn. split; [done|]. split; [done|]. by exists [payload].
    + rewrite (DispatchProps.iterate_tool_calls _ _ _ _ _ _ _ _ _ _ data toolCall others)
        by done.
      fold payload.
      set (results := processToolCalls (toolCall :: others) gh ln).
      set (w2 := push_results cur results
                   (push cur (d_message data) (emit (Posted payload) w))).
      assert (Hcur2 : is_Some (heap w2 !! cur)).
      { apply RoundProps.push_results_is_Some. by apply push_is_Some. }
      assert (Helements : elements_of cur w2
                          = (elements_of cur w
                             ++ d_message data :: map tool_message results)%list).
      { unfold w2. rewrite LoopProps.push_results_elements by (by apply push_is_Some).
        rewrite elements_of_push_same by done.
        by rewrite <- app_assoc. }
      assert (Htrace2 : trace w2 = (trace w ++ [Posted payload])%list).
      { unfold w2. by rewrite LoopProps.push_results_trace. }
      assert (Hcalls2 : model_calls w2 = first + length (requests ++ [of_payload payload])).
      { rewrite length_app. cbn [length].
        rewrite (LoopProps.model_calls_trace (emit (Posted payload) w))
          by (unfold w2; by rewrite LoopProps.push_results_trace).
        rewrite model_calls_emit_post. lia. }
      destruct (IH (S iterations) cur (allToolResults ++ results)%list w2
                   (requests ++ [of_payload payload])%list Hcur2 Hcalls2)
        as (Hout & Hworking & posts & Htrace & Hsent).
      rewrite Helements in Hout, Hworking, Hsent.
      rewrite (fmap_app of_tool_result) in Hout, Hworking, Hsent.
      cbv beta iota zeta. fold results.
      split; [done|]. split; [done|].
      exists (payload :: posts). rewrite Htrace, Htrace2, Hsent, <- !app_assoc. done.
    + rewrite (DispatchProps.iterate_final _ _ _ _ _ _ _ _ _ _ data) by auto.
      cbn. split; [done|]. split; [done|]. by exists [payload].
Qed.

(** On responses of the shape the API prescribes, a run of
    [chatWithTools] on the typed data and the run on the JSON as it arrives
    are the same: the same outcome, the same requests in the same order,
    and the same working sequence at the end. *)
Theorem chatWithTools_of_data (messages : loc) (maxIterations : nat) (w : World) :
  (forall n payload,
      Untyped.post n (of_payload payload)
      = of_outcome of_data (axios_post (model_calls w + n) payload)) ->
  let typed := chatWithTools model messages tools options gh ln maxIterations w in
  let run := Untyped.chatWithTools model (of_message <$> elements_of messages w) tools
                                   options gh ln maxIterations in
  Untyped.outcome run = of_outcome of_result typed.1 /\
  Untyped.working run = of_message <$> elements_of (fresh (dom (heap w))) typed.2 /\
  exists posts,
    trace typed.2 = (trace w ++ Entered "chatWithTools" :: (Posted <$> posts))%list /\
    Untyped.sent run = of_payload <$> posts.
Proof.
  intros Hruntime typed run. subst typed run.
  rewrite LoopProps.chatWithTools_unfold. unfold Untyped.chatWithTools.
  set (cur := fresh (dom (heap w))).
  set (w0 := (alloc (elements_of messages w) (emit (Entered "chatWithTools") w)).2).
  assert (Hcur : heap w0 !! cur = Some (elements_of messages w)).
  { unfold w0, alloc; simpl. apply lookup_insert_eq. }
  assert (Helements : elements_of cur w0 = elements_of messages w).
  { unfold elements_of at 1. by rewrite lookup_total_alt, Hcur. }
  assert (Hcalls : model_calls w0 = model_calls w + length (@nil Untyped.Request)).
  { unfold w0. rewrite LoopProps.model_calls_started. simpl. lia. }
  destruct (iterate_of_data (model_calls w) Hruntime maxIterations 0 cur [] w0 []
              (mk_is_Some _ _ Hcur) Hcalls)
    as (Hout & Hworking & posts & Htrace & Hsent).
  rewrite Helements in Hout, Hworking, Hsent.
  split; [exact Hout|]. split; [exact Hworking|].
  exists posts. split; [|exact Hsent].
  rewrite Htrace. unfold w0; simpl. by rewrite <- app_assoc.
Qed.

End Loop.
End ShapeProps.
End ShapeProps.

(** ** What a chat request leaves in the conversation *)

Module TurnProps.
Import MoreStatements.
Section TurnProps.
Context `{JSON} `{Services} `{ModelRuntime}.
Variable uuid_generate_v4 : nat -> string.
Variable env : ProcessEnv.
Variable agents : gmap string Agent.

Lemma addMessage_db convId r text w out w' :
  addMessage uuid_generate_v4 convId r text w = (out, w') ->
  Db.addMessage uuid_generate_v4 convId r text (db w) = (out, db w') /\
  trace w' = trace w /\ heap w' = heap w.
Proof.
  unfold addMessage, query.
  destruct (Db.addMessage uuid_generate_v4 convId r text (db w)) as [o st].
  by intros [= <- <-].
Qed.

Lemma createConversation_db agentId title w out w' :
  createConversation uuid_generate_v4 agentId title w = (out, w') ->
  Db.createConversation uuid_generate_v4 agentId title (db w) = (out, db w') /\
  trace w' = trace w /\ heap w' = heap w.
Proof.
  unfold createConversation, query.
  destruct (Db.createConversation uuid_generate_v4 agentId title (db w)) as [o st].
  by intros [= <- <-].
Qed.

Lemma accepted_message_string m text :
  accepted_message m = Some text -> m = Some (JStr text).
Proof. unfold accepted_message. intros Hm. repeat case_match; by simplify_eq. Qed.

(** The rows a stored message adds. *)
Lemma addMessage_row convId r text w row w' :
  addMessage uuid_generate_v4 convId r text w = (Returned row, w') ->
  exists conv,
    Db.conversations (db w) !! convId = Some conv /\
    Db.messages (db w') = (Db.messages (db w) ++ [row])%list /\
    Db.m_conversation_id row = convId /\ Db.m_role row = r /\ Db.m_content row = text /\
    (exists conv', Db.conversations (db w') !! convId = Some conv' /\
                   Db.c_agent_id conv' = Db.c_agent_id conv) /\
    trace w' = trace w /\ heap w' = heap w.
Proof.
  intros Hadd. apply addMessage_db in Hadd as (Hadd & Htrace & Hheap).
  apply DbProps.addMessage_cases in Hadd
    as [(row' & conv & [= <-] & Hconv & Hid & Hrole & Htext & Hmsgs & Hconvs & _)
       |(err & [=] & _)].
  exists conv. split; [done|]. split; [done|]. split; [done|]. split; [done|].
  split; [done|]. split; [|done].
  eexists. rewrite Hconvs, lookup_insert_eq. done.
Qed.

Lemma log_of_snoc convId st rows (st' : Db.Store) :
  Db.messages st' = (Db.messages st ++ rows)%list ->
  (forall row, row ∈ rows -> Db.m_conversation_id row = convId) ->
  log_of convId st' = (log_of convId st ++ rows)%list /\
  forall other, other <> convId -> log_of other st' = log_of other st.
Proof.
  intros Hmsgs Hrows. unfold log_of. rewrite Hmsgs. split.
  - rewrite filter_app. f_equal.
    clear Hmsgs. induction rows as [|row rows IH]; [done|].
    rewrite filter_cons_True by (apply Hrows; left).
    f_equal. apply IH. intros r Hr. apply Hrows. by right.
  - intros other Hother. rewrite filter_app.
    rewrite (filter_none _ rows); [by rewrite app_nil_r|].
    intros row Hrow Heq. apply Hother. by rewrite <- Heq, (Hrows row Hrow).
Qed.

Lemma chat_turn_rows agent req text convId w resp w' :
  Server.chat_turn uuid_generate_v4 env agent req text convId w = (Returned resp, w') ->
  exists response model tools td ec u a conv conv',
    resp = Json 200 (ChatBody response convId (a_id agent) model tools td ec) /\
    Db.conversations (db w) !! convId = Some conv /\
    Db.conversations (db w') !! convId = Some conv' /\
    Db.c_agent_id conv' = Db.c_agent_id conv /\
    Db.messages (db w') = (Db.messages (db w) ++ [u; a])%list /\
    Db.m_conversation_id u = convId /\ Db.m_role u = "user" /\ Db.m_content u = trim text /\
    Db.m_conversation_id a = convId /\ Db.m_role a = "assistant" /\ Db.m_content a = response.
Proof.
  unfold Server.chat_turn.
  destruct (addMessage uuid_generate_v4 convId "user" (trim text) w)
    as [[u|err] w1] eqn:Hadd; [|intros [=]].
  apply addMessage_row in Hadd
    as (conv & Hconv & Hmsgs1 & Hu_id & Hu_role & Hu_text & (conv1 & Hconv1 & Hagent1) & _).
  destruct (build_messages agent convId w1) as [ollamaMessages w2] eqn:Hbuild.
  apply HandlerProps.build_messages_effect in Hbuild as (_ & Hdb2).
  cbv beta iota zeta.
  assert (Hsecond : forall response w3 out w4,
             db w3 = db w1 ->
             addMessage uuid_generate_v4 convId "assistant" response w3 = (out, w4) ->
             forall row, out = Returned row ->
               exists conv',
                 Db.conversations (db w4) !! convId = Some conv' /\
                 Db.c_agent_id conv' = Db.c_agent_id conv /\
                 Db.messages (db w4) = (Db.messages (db w) ++ [u; row])%list /\
                 Db.m_conversation_id row = convId /\ Db.m_role row = "assistant" /\
                 Db.m_content row = response).
  { intros response w3 out w4 Hdb3 Hadd2 row ->.
    apply addMessage_row in Hadd2
      as (conv3 & Hconv3 & Hmsgs4 & Ha_id & Ha_role & Ha_text
          & (conv4 & Hconv4 & Hagent4) & _).
    rewrite Hdb3, Hconv1 in Hconv3. injection Hconv3 as <-.
    exists conv4. split; [done|]. split; [congruence|].
    rewrite Hmsgs4, Hdb3, Hmsgs1, <- app_assoc. done. }
  destruct (ToolExecutor.getAvailableTools _ _) as [|tool tools].
  - destruct (Ollama.chat env (Ollama.DEFAULT_MODEL env) ollamaMessages
                (chat_options agent (options req)) w2) as [[data|err] w3] eqn:Hchat;
      [|intros [=]].
    apply HandlerProps.chat_effect in Hchat as (Hdb3 & _).
    destruct (addMessage uuid_generate_v4 convId "assistant"
                (str_or (content (d_message data)) "") w3) as [[a|err] w4] eqn:Hadd2;
      [|intros [=]].
    intros [= <- <-].
    destruct (Hsecond _ w3 _ w4 ltac:(congruence) Hadd2 a eq_refl)
      as (conv' & Hconv' & Hagent' & Hmsgs & Ha_id & Ha_role & Ha_text).
    by eexists _, _, _, _, _, u, a, conv, conv'.
  - match goal with
    | |- context [ToolExecutor.chatWithTools ?a ?b ?c ?d ?e ?f ?g ?h] =>
        destruct (ToolExecutor.chatWithTools a b c d e f g h) as [[result|err] w3] eqn:Hloop
    end; [|intros [=]].
    apply HandlerProps.chatWithTools_effect in Hloop as (Hdb3 & _).
    destruct (addMessage uuid_generate_v4 convId "assistant"
                (ToolExecutor.r_message result) w3) as [[a|err] w4] eqn:Hadd2;
      [|intros [=]].
    intros [= <- <-].
    destruct (Hsecond _ w3 _ w4 ltac:(congruence) Hadd2 a eq_refl)
      as (conv' & Hconv' & Hagent' & Hmsgs & Ha_id & Ha_role & Ha_text).
    by eexists _, _, _, _, _, u, a, conv, conv'.
Qed.

(** A chat request that is answered with status 200 has stored exactly two
    messages, in the conversation the answer names: first the user's
    message with the surrounding white space removed, then the assistant's
    message with the text of the answer.  The messages of every other
    conversation are as before. *)
Theorem chat_stores_the_turn (req : ChatRequest) (w w' : World)
        (response convId agentId model : string) (toolsUsed : option (list (string * string)))
        (totalDuration evalCount : JSValue) :
  Server.chat uuid_generate_v4 env agents req w
    = (Json 200 (ChatBody response convId agentId model toolsUsed totalDuration evalCount),
       w') ->
  exists text u a agent,
    message req = Some (JStr text) /\
    agents !! params_id req = Some agent /\ a_id agent = agentId /\
    log_of convId (db w') = (log_of convId (db w) ++ [u; a])%list /\
    Db.m_role u = "user" /\ Db.m_content u = trim text /\
    Db.m_role a = "assistant" /\ Db.m_content a = response /\
    forall other, other <> convId -> log_of other (db w') = log_of other (db w).
Proof.
  unfold Server.chat.
  destruct (agents !! params_id req) as [agent|] eqn:Hagent; [|intros [=]].
  destruct (accepted_message (message req)) as [text|] eqn:Haccepted; [|intros [=]].
  assert (Htext : message req = Some (JStr text)).
  { by apply accepted_message_string. }
  destruct (Server.chat_try uuid_generate_v4 env agent req text w)
    as [[resp|err] w1] eqn:Htry;
    [|intros [= Hfailed _]; by apply HandlerProps.chat_failed_status in Hfailed].
  intros [= -> ->].
  assert (Hturn : exists conv0 w0,
             Db.messages (db w0) = Db.messages (db w) /\
             Db.conversations (db w0) !! convId = Some conv0 /\
             Db.c_agent_id conv0 = a_id agent /\
             Server.chat_turn uuid_generate_v4 env agent req text convId w0
             = (Returned (Json 200 (ChatBody response convId agentId model toolsUsed
                                       totalDuration evalCount)), w')).
  { unfold Server.chat_try in Htry.
    assert (Hnew : forall conversation w0,
               createConversation uuid_generate_v4 (a_id agent) (substring0 100 text) w
               = (Returned conversation, w0) ->
               Server.chat_turn uuid_generate_v4 env agent req text (Db.c_id conversation) w0
               = (Returned (Json 200 (ChatBody response convId agentId model toolsUsed
                                         totalDuration evalCount)), w') ->
               exists conv0 w0,
                 Db.messages (db w0) = Db.messages (db w) /\
                 Db.conversations (db w0) !! convId = Some conv0 /\
                 Db.c_agent_id conv0 = a_id agent /\
                 Server.chat_turn uuid_generate_v4 env agent req text convId w0
                 = (Returned (Json 200 (ChatBody response convId agentId model toolsUsed
                                           totalDuration evalCount)), w')).
    { intros conversation w0 Hcreate Hrun.
      pose proof Hrun as Hrows.
      apply chat_turn_rows in Hrows as (? & ? & ? & ? & ? & ? & ? & ? & ? & Hbody & _).
      assert (Hid : convId = Db.c_id conversation) by congruence.
      apply createConversation_db in Hcreate as (Hcreate & _).
      apply DbProps.createConversation_cases in Hcreate
        as [(row & [= <-] & _ & Howner & _ & _ & Hconvs & Hmsgs & _)|(err & [=] & _)].
      exists conversation, w0. split; [done|].
      split; [by rewrite Hid, Hconvs, lookup_insert_eq|]. split; [done|].
      rewrite Hid at 1. exact Hrun. }
    destruct (conversationId req) as [[|c r]|].
    - destruct (createConversation uuid_generate_v4 (a_id agent) (substring0 100 text) w)
        as [[conversation|err] w0] eqn:Hcreate; [|discriminate].
      by apply (Hnew conversation w0).
    - unfold Db.getConversation in Htry.
      destruct (Db.conversations (db w) !! String c r) as [conversation|] eqn:Hconv;
        [|discriminate].
      destruct (String.eqb (Db.c_agent_id conversation) (a_id agent)) eqn:Howner;
        simpl in Htry; [|discriminate].
      apply String.eqb_eq in Howner.
      pose proof Htry as Hrows.
      apply chat_turn_rows in Hrows as (? & ? & ? & ? & ? & ? & ? & ? & ? & Hbody & _).
      assert (Hid : convId = String c r) by congruence.
      exists conversation, w. split; [done|].
      split; [by rewrite Hid|]. split; [done|].
      rewrite Hid at 1. exact Htry.
    - destruct (createConversation uuid_generate_v4 (a_id agent) (substring0 100 text) w)
        as [[conversation|err] w0] eqn:Hcreate; [|discriminate].
      by apply (Hnew conversation w0). }
  destruct Hturn as (conv0 & w0 & Hmsgs0 & Hconv0 & Howner & Hturn).
  apply chat_turn_rows in Hturn
    as (response' & model' & tools' & td' & ec' & u & a & conv & conv'
        & Hbody & Hconv & Hconv' & Hagent' & Hmsgs
        & Hu_id & Hu_role & Hu_text & Ha_id & Ha_role & Ha_text).
  assert (Hresponse : response' = response) by congruence.
  assert (Hagent_id : a_id agent = agentId) by congruence.
  rewrite Hconv0 in Hconv. injection Hconv as <-.
  destruct (log_of_snoc convId (db w) [u; a] (db w')) as [Hlog Hothers].
  { by rewrite Hmsgs, Hmsgs0. }
  { intros row Hrow. apply elem_of_cons in Hrow as [->|Hrow]; [done|].
    by apply list_elem_of_singleton in Hrow as ->. }
  exists text, u, a, agent.
  split; [done|]. split; [done|]. split; [done|]. split; [done|].
  split; [done|]. split; [done|]. split; [done|]. split; [congruence|done].
Qed.

Lemma addMessage_stored convId r text w conv :
  Db.conversations (db w) !! convId = Some conv ->
  Db.role_allowed r = true ->
  exists row w1, addMessage uuid_generate_v4 convId r text w = (Returned row, w1).
Proof.
  intros Hconv Hrole. unfold addMessage, query, Db.addMessage.
  rewrite Hconv, Hrole. simpl. eauto.
Qed.

Lemma connection_error_includes reason :
  includes ("Ollama connection error: " +:+ reason) "connection" = true.
Proof. reflexivity. Qed.

Lemma chat_unreachable model messages options w reason :
  (forall payload, axios_post (model_calls w) payload = Threw (RequestError reason)) ->
  exists payload w',
    Ollama.chat env model messages options w
    = (Threw (Error ("Ollama connection error: " +:+ reason)), w') /\
    db w' = db w /\
    trace w' = (trace w ++ [Entered "chat"; Posted payload])%list /\
    p_messages payload = elements_of messages w.
Proof.
  intros Hdown. unfold Ollama.chat, Ollama.post.
  rewrite model_calls_emit_entry, Hdown.
  eexists _, _. split; [reflexivity|]. split; [done|].
  split; [simpl; by rewrite <- app_assoc|done].
Qed.

Lemma chatWithTools_unreachable model messages tools options gh ln remaining w reason :
  (forall payload, axios_post (model_calls w) payload = Threw (RequestError reason)) ->
  exists w',
    ToolExecutor.chatWithTools model messages tools options gh ln (S remaining) w
    = (Threw (Axios (RequestError reason)), w') /\
    db w' = db w.
Proof.
  intros Hdown. rewrite LoopProps.chatWithTools_unfold.
  rewrite (DispatchProps.iterate_failed _ _ _ _ _ _ _ _ _ _ (RequestError reason)).
  - eexists. split; [reflexivity|]. done.
  - rewrite LoopProps.model_calls_started. apply Hdown.
Qed.

(** When the model runtime cannot be reached, a chat request in an
    existing conversation of the agent fails, and the user's message stays
    stored without an answer.  Without tools the status is 503 and the
    details start with the client's own text.  With tools the error of the
    request itself is passed on: the status is 503 only if that message
    contains the word connection, otherwise it is 500. *)
Theorem unreachable_runtime (req : ChatRequest) (w : World) (agent : Agent)
        (text convId reason : string) (conv : Db.ConversationRow) :
  agents !! params_id req = Some agent ->
  accepted_message (message req) = Some text ->
  conversationId req = Some convId ->
  convId <> "" ->
  Db.conversations (db w) !! convId = Some conv ->
  Db.c_agent_id conv = a_id agent ->
  (forall payload, axios_post (model_calls w) payload = Threw (RequestError reason)) ->
  let tools :=
    ToolExecutor.getAvailableTools
      (str_or (githubToken req) (str_or (GITHUB_TOKEN env) ""))
      (str_or (linearApiKey req) (str_or (LINEAR_API_KEY env) "")) in
  let run := Server.chat uuid_generate_v4 env agents req w in
  (tools = [] ->
   run.1 = Json 503 (ErrorBody "Ollama ist nicht erreichbar. Bitte spaeter erneut versuchen."
                               (Some ("Ollama connection error: " +:+ reason)))) /\
  (tools <> [] -> includes reason "connection" = true ->
   run.1 = Json 503 (ErrorBody "Ollama ist nicht erreichbar. Bitte spaeter erneut versuchen."
                               (Some reason))) /\
  (tools <> [] -> includes reason "connection" = false ->
   run.1 = Json 500 (ErrorBody "Chat-Anfrage fehlgeschlagen" (Some reason))) /\
  exists u,
    log_of convId (db run.2) = (log_of convId (db w) ++ [u])%list /\
    Db.m_role u = "user" /\ Db.m_content u = trim text.
Proof.
  intros Hagent Haccepted Hid Hnonempty Hconv Howner Hdown tools run.
  subst run. unfold Server.chat. rewrite Hagent, Haccepted.
  unfold Server.chat_try. rewrite Hid.
  destruct convId as [|c r]; [done|].
  unfold Db.getConversation. rewrite Hconv, Howner, String.eqb_refl.
  cbn [negb]. unfold Server.chat_turn. fold tools.
  destruct (addMessage_stored (String c r) "user" (trim text) w conv Hconv eq_refl)
    as (u & w1 & Hadd).
  rewrite Hadd.
  apply addMessage_row in Hadd
    as (_ & _ & Hmsgs1 & Hu_id & Hu_role & Hu_text & _ & Htrace1 & _).
  destruct (build_messages agent (String c r) w1) as [ollamaMessages w2] eqn:Hbuild.
  apply HandlerProps.build_messages_effect in Hbuild as (Htrace2 & Hdb2).
  assert (Hdown2 : forall payload,
             axios_post (model_calls w2) payload = Threw (RequestError reason)).
  { intros payload. rewrite (LoopProps.model_calls_trace w w2) by congruence.
    apply Hdown. }
  assert (Hlog : forall w3, db w3 = db w2 ->
             log_of (String c r) (db w3) = (log_of (String c r) (db w) ++ [u])%list).
  { intros w3 Hdb3. apply (log_of_snoc (String c r) (db w) [u] (db w3)).
    - by rewrite Hdb3, Hdb2.
    - intros row Hrow. by apply list_elem_of_singleton in Hrow as ->. }
  cbv beta iota zeta.
  destruct tools as [|tool tools'] eqn:Htools.
  - destruct (chat_unreachable (Ollama.DEFAULT_MODEL env) ollamaMessages
                (chat_options agent (options req)) w2 reason Hdown2)
      as (payload & w3 & Hchat & Hdb3 & _).
    rewrite Hchat. cbn [fst snd].
    split; [intros _; unfold chat_failed; cbn [error_message];
            by rewrite connection_error_includes|].
    split; [done|]. split; [done|].
    exists u. split; [by apply Hlog|done].
  - destruct (chatWithTools_unreachable (Ollama.DEFAULT_MODEL env) ollamaMessages
                (tool :: tools') (chat_options agent (options req))
                (str_or (githubToken req) (str_or (GITHUB_TOKEN env) ""))
                (str_or (linearApiKey req) (str_or (LINEAR_API_KEY env) ""))
                9 w2 reason Hdown2)
      as (w3 & Hloop & Hdb3).
    rewrite Hloop. cbn [fst snd].
    split; [done|].
    split; [intros _ Hword; unfold chat_failed; cbn [error_message]; by rewrite Hword|].
    split; [intros _ Hword; unfold chat_failed; cbn [error_message]; by rewrite Hword|].
    exists u. split; [by apply Hlog|done].
Qed.

Lemma chat_request model messages options w :
  exists payload,
    trace (Ollama.chat env model messages options w).2
    = (trace w ++ [Entered "chat"; Posted payload])%list /\
    p_messages payload = elements_of messages w /\
    db (Ollama.chat env model messages options w).2 = db w.
Proof.
  unfold Ollama.chat, Ollama.post.
  match goal with
  | |- context [axios_post ?n ?p] => destruct (axios_post n p) as [data|[st stt de m|m]]
  end; eexists; (split; [simpl; by rewrite <- app_assoc|done]).
Qed.

(** The request to the model for a chat in an existing conversation
    carries the agent's system message followed by the oldest 50 stored
    messages of the conversation, the user's new message being stored
    first.  So the new message is the last one sent as long as fewer than
    50 messages were stored; in a conversation that already holds 50 the
    model is sent the same 50 as before, without the new message. *)
Theorem history_window (req : ChatRequest) (w : World) (agent : Agent)
        (text convId : string) (conv : Db.ConversationRow) :
  agents !! params_id req = Some agent ->
  accepted_message (message req) = Some text ->
  conversationId req = Some convId ->
  convId <> "" ->
  Db.conversations (db w) !! convId = Some conv ->
  Db.c_agent_id conv = a_id agent ->
  exists payload u,
    trace (ServerBasic.chat uuid_generate_v4 env agents req w).2
    = (trace w ++ [Entered "chat"; Posted payload])%list /\
    Db.m_role u = "user" /\ Db.m_content u = trim text /\
    p_messages payload
    = system_message agent
        :: map to_message (take 50 (log_of convId (db w) ++ [u])) /\
    (length (log_of convId (db w)) < 50 ->
     last (p_messages payload) = Some (to_message u)) /\
    (50 <= length (log_of convId (db w)) ->
     p_messages payload
     = system_message agent :: map to_message (take 50 (log_of convId (db w)))).
Proof.
  intros Hagent Haccepted Hid Hnonempty Hconv Howner.
  unfold ServerBasic.chat. rewrite Hagent, Haccepted.
  unfold ServerBasic.chat_try. rewrite Hid.
  destruct convId as [|c r]; [done|].
  unfold Db.getConversation. rewrite Hconv, Howner, String.eqb_refl.
  cbn [negb]. unfold ServerBasic.chat_turn.
  destruct (addMessage_stored (String c r) "user" (trim text) w conv Hconv eq_refl)
    as (u & w1 & Hadd).
  rewrite Hadd.
  apply addMessage_row in Hadd
    as (_ & _ & Hmsgs1 & Hu_id & Hu_role & Hu_text & _ & Htrace1 & _).
  destruct (log_of_snoc (String c r) (db w) [u] (db w1)) as [Hlog _]; [done| |].
  { intros row Hrow. by apply list_elem_of_singleton in Hrow as ->. }
  unfold build_messages, alloc, Db.getMessages. fold (log_of (String c r) (db w1)).
  rewrite Hlog.
  set (items := system_message agent
                  :: map to_message (take 50 (log_of (String c r) (db w) ++ [u]))).
  set (ollamaMessages := fresh (dom (heap w1))).
  set (w2 := set_heap (<[ollamaMessages := items]> (heap w1)) w1).
  cbv beta iota zeta.
  destruct (chat_request (Ollama.DEFAULT_MODEL env) ollamaMessages
              (chat_options agent (options req)) w2)
    as (payload & Htrace3 & Hpayload & _).
  assert (Hitems : p_messages payload = items).
  { rewrite Hpayload. unfold elements_of, w2. simpl. by rewrite lookup_total_insert_eq. }
  exists payload, u.
  split.
  { destruct (Ollama.chat env (Ollama.DEFAULT_MODEL env) ollamaMessages
                (chat_options agent (options req)) w2) as [[data|err] w3] eqn:Hchat;
      simpl in Htrace3.
    - destruct (addMessage uuid_generate_v4 (String c r) "assistant"
                  (str_or (content (d_message data)) "") w3) as [[a|err] w4] eqn:Hadd2;
        apply addMessage_db in Hadd2 as (_ & Htrace4 & _); simpl;
        by rewrite Htrace4, Htrace3, <- Htrace1.
    - simpl. by rewrite Htrace3, <- Htrace1. }
  split; [done|]. split; [done|]. split; [done|]. split.
  - intros Hshort. rewrite Hitems. unfold items.
    rewrite take_ge by (rewrite length_app; simpl; lia).
    rewrite map_app. simpl. by rewrite last_cons, last_snoc.
  - intros Hfull. rewrite Hitems. unfold items.
    by rewrite take_app_le by lia.
Qed.

End TurnProps.
End TurnProps.

(** ** The memory routes *)

Module MemoryRouteProps.
Import DbMore ServerMore MoreStatements.
Section MemoryRouteProps.
Variable uuid_generate_v4 : nat -> string.
Context (label_le : relation string) `{forall a b, Decision (label_le a b)}.
Variable agents : gmap string Agent.

(** Posting a block and then reading the memory of the agent: the post
    answers with the label and the value it was given and the time of the
    write; the listing read afterwards has one entry for that label, with
    that value and time, and its entries for other labels are those the
    listing had before.  (The agent's id and the label fit their columns;
    label and value are non-empty strings.) *)
Theorem post_memory_then_get (id label value : string) (agent : Agent) (ms : MemoryStore) :
  keyed ms ->
  agents !! id = Some agent ->
  String.length (a_id agent) <= 128 ->
  String.length label <= 128 ->
  label <> "" ->
  value <> "" ->
  exists ms' before after,
    post_memory uuid_generate_v4 agents id (Some (JStr label)) (Some (JStr value)) ms
    = (Block (a_id agent) label value (mem_now ms), ms') /\
    get_memory label_le agents id ms = Blocks (a_id agent) before /\
    get_memory label_le agents id ms' = Blocks (a_id agent) after /\
    forall l v t,
      (l, v, t) ∈ after <->
      (l = label /\ v = value /\ t = mem_now ms) \/ (l <> label /\ (l, v, t) ∈ before).
Proof.
  intros Hkeyed Hagent Hid Hlabel Hl Hv.
  unfold post_memory, get_memory. rewrite Hagent.
  destruct label as [|c r]; [done|]. destruct value as [|c' r']; [done|].
  cbn [required_string].
  destruct (MemoryProps.upsertAgentMemory_members uuid_generate_v4 label_le
              (a_id agent) (String c r) (String c' r') ms Hkeyed Hid Hlabel)
    as (row & ms' & Hrun & Hrow_label & Hrow_value & Hrow_time & Hmembers).
  rewrite Hrun, Hrow_label, Hrow_value, Hrow_time.
  eexists ms', _, _. split; [done|]. split; [done|]. split; [done|].
  intros l v t. rewrite !list_elem_of_fmap. split.
  - intros (m & [= -> -> ->] & Hm). apply Hmembers in Hm as [->|[Hm Hne]].
    + left. done.
    + right. split; [done|]. by exists m.
  - intros [(-> & -> & ->)|(Hne & m & [= -> -> ->] & Hm)].
    + exists row. split; [by rewrite Hrow_label, Hrow_value, Hrow_time|].
      apply Hmembers. by left.
    + exists m. split; [done|]. apply Hmembers. by right.
Qed.

End MemoryRouteProps.
End MemoryRouteProps.

(** ** The chunks of a streamed answer *)

Module ChunkProps.
Section ChunkProps.
Context `{JSON} `{ModelRuntime}.

Lemma split_lines_nonempty s : exists line lines, Ollama.split_lines s = line :: lines.
Proof.
  destruct s as [|c s]; simpl; [eauto|].
  destruct (Ascii.eqb c "010"%char); [eauto|].
  destruct (Ollama.split_lines s); eauto.
Qed.

Lemma split_lines_newline first second :
  Ollama.split_lines (first +:+ String "010"%char second)
  = (Ollama.split_lines first ++ Ollama.split_lines second)%list.
Proof.
  induction first as [|c first IH].
  - change ("" +:+ String "010"%char second) with (String "010"%char second).
    reflexivity.
  - change (String c first +:+ String "010"%char second)
      with (String c (first +:+ String "010"%char second)).
    cbn [Ollama.split_lines]. rewrite IH.
    destruct (Ascii.eqb c "010"%char); [done|].
    destruct (split_lines_nonempty first) as (line & lines & ->). done.
Qed.

(** A chunk of the response body that holds several lines yields the
    fragments of its lines in order: what is enqueued for two pieces
    joined by a line feed is what is enqueued for the first piece followed
    by what is enqueued for the second. *)
Theorem fragments_of_chunk_newline (first second : string) :
  Ollama.fragments_of_chunk (first +:+ String "010"%char second)
  = (Ollama.fragments_of_chunk first ++ Ollama.fragments_of_chunk second)%list.
Proof.
  unfold Ollama.fragments_of_chunk.
  by rewrite split_lines_newline, filter_app, omap_app.
Qed.

End ChunkProps.
End ChunkProps.

(** ** What the answers report *)

Module ReplyProps.
Import MoreStatements.


Section ReplyProps.
Context `{JSON} `{Services} `{ModelRuntime}.
Variable uuid_generate_v4 : nat -> string.
Variable env : ProcessEnv.
Variable agents : gmap string Agent.



Lemma stream_turn_fallback agent req text convId w out w' :
  Server.stream_turn uuid_generate_v4 env false agent req text convId w = (out, w') ->
  match out with
  | Threw (_, written) => written = []
  | Returned written =>
      exists answer model u a,
        written = [SseChunk answer true (Some convId) (Some model)] /\
        Db.messages (db w') = (Db.messages (db w) ++ [u; a])%list /\
        Db.m_conversation_id u = convId /\ Db.m_role u = "user" /\
        Db.m_content u = trim text /\
        Db.m_conversation_id a = convId /\ Db.m_role a = "assistant" /\
        Db.m_content a = answer
  end.
Proof.
  unfold Server.stream_turn.
  destruct (addMessage uuid_generate_v4 convId "user" (trim text) w)
    as [[u|err] w1] eqn:Hadd; [|by intros [= <- <-]].
  apply TurnProps.addMessage_row in Hadd
    as (_ & _ & Hmsgs1 & Hu_id & Hu_role & Hu_text & _).
  destruct (build_messages agent convId w1) as [ollamaMessages w2] eqn:Hbuild.
  apply HandlerProps.build_messages_effect in Hbuild as (_ & Hdb2).
  destruct (Ollama.chat env (Ollama.DEFAULT_MODEL env) ollamaMessages
              (chat_options agent (options req)) w2) as [[data|err] w3] eqn:Hchat;
    [|by intros [= <- <-]].
  apply HandlerProps.chat_effect in Hchat as (Hdb3 & _).
  destruct (addMessage uuid_generate_v4 convId "assistant"
              (str_or (content (d_message data)) "") w3) as [[a|err] w4] eqn:Hadd2;
    [|by intros [= <- <-]].
  apply TurnProps.addMessage_row in Hadd2
    as (_ & _ & Hmsgs4 & Ha_id & Ha_role & Ha_text & _).
  intros [= <- <-]. eexists _, _, u, a. split; [reflexivity|].
  split; [by rewrite Hmsgs4, Hdb3, Hdb2, Hmsgs1, <- app_assoc|]. done.
Qed.

(** The streaming route of a server whose client has no [chatStream]
    answers a valid request for a known agent with exactly one event.  It
    is either an error, or the complete answer marked as done; in that case
    the user's trimmed message and then the answer were stored as the
    newest messages of the conversation the event names. *)
Theorem stream_fallback (req : ChatRequest) (w w' : World) (events : list SseEvent) :
  Server.chat_stream uuid_generate_v4 env agents false req w = (EventStream events, w') ->
  (exists error details, events = [SseError error details]) \/
  (exists text answer convId model u a,
      message req = Some (JStr text) /\
      events = [SseChunk answer true (Some convId) (Some model)] /\
      log_of convId (db w') = (log_of convId (db w) ++ [u; a])%list /\
      Db.m_role u = "user" /\ Db.m_content u = trim text /\
      Db.m_role a = "assistant" /\ Db.m_content a = answer).
Proof.
  unfold Server.chat_stream.
  destruct (agents !! params_id req) as [agent|]; [|intros [=]].
  destruct (accepted_message (message req)) as [text|] eqn:Haccepted; [|intros [=]].
  apply TurnProps.accepted_message_string in Haccepted.
  assert (Hturn : forall convId w0 out,
             Db.messages (db w0) = Db.messages (db w) ->
             Server.stream_turn uuid_generate_v4 env false agent req text convId w0
             = (out, w') ->
             match out with
             | Threw (_, written) => written = []
             | Returned written =>
                 exists answer model u a,
                   written = [SseChunk answer true (Some convId) (Some model)] /\
                   log_of convId (db w') = (log_of convId (db w) ++ [u; a])%list /\
                   Db.m_role u = "user" /\ Db.m_content u = trim text /\
                   Db.m_role a = "assistant" /\ Db.m_content a = answer
             end).
  { intros convId w0 out Hmsgs0 Hrun.
    apply stream_turn_fallback in Hrun. destruct out as [written|[err written]]; [|done].
    destruct Hrun as (answer & model & u & a & -> & Hmsgs & Hu_id & Hu_role & Hu_text
                      & Ha_id & Ha_role & Ha_text).
    exists answer, model, u, a. split; [done|]. split; [|done].
    apply (TurnProps.log_of_snoc convId (db w) [u; a] (db w')).
    - by rewrite Hmsgs, Hmsgs0.
    - intros row Hrow. apply elem_of_cons in Hrow as [->|Hrow]; [done|].
      by apply list_elem_of_singleton in Hrow as ->. }
  assert (Hcases : forall out,
             Server.stream_try uuid_generate_v4 env false agent req text w = (out, w') ->
             match out with
             | Threw (_, written) => written = []
             | Returned written =>
                 (exists error details, written = [SseError error details]) \/
                 exists convId answer model u a,
                   written = [SseChunk answer true (Some convId) (Some model)] /\
                   log_of convId (db w') = (log_of convId (db w) ++ [u; a])%list /\
                   Db.m_role u = "user" /\ Db.m_content u = trim text /\
                   Db.m_role a = "assistant" /\ Db.m_content a = answer
             end).
  { intros out. unfold Server.stream_try.
    assert (Hnew : forall out,
               (let (o, w0) := createConversation uuid_generate_v4 (a_id agent)
                                 (substring0 100 text) w in
                match o with
                | Returned conversation =>
                    Server.stream_turn uuid_generate_v4 env false agent req text
                      (Db.c_id conversation) w0
                | Threw err => (Threw (err, []), w0)
                end) = (out, w') ->
               match out with
               | Threw (_, written) => written = []
               | Returned written =>
                   (exists error details, written = [SseError error details]) \/
                   exists convId answer model u a,
                     written = [SseChunk answer true (Some convId) (Some model)] /\
                     log_of convId (db w') = (log_of convId (db w) ++ [u; a])%list /\
                     Db.m_role u = "user" /\ Db.m_content u = trim text /\
                     Db.m_role a = "assistant" /\ Db.m_content a = answer
               end).
    { intros out0.
      destruct (createConversation uuid_generate_v4 (a_id agent) (substring0 100 text) w)
        as [[conversation|err] w0] eqn:Hcreate; [|by intros [= <- <-]].
      apply HandlerProps.createConversation_effect in Hcreate as (_ & _ & Hmsgs0).
      intros Hrun. apply (Hturn _ _ _ Hmsgs0) in Hrun.
      destruct out0 as [written|[err written]]; [|done].
      destruct Hrun as (answer & model & u & a & Hrest). right.
      by exists (Db.c_id conversation), answer, model, u, a. }
    destruct (conversationId req) as [[|c r]|]; [apply Hnew| |apply Hnew].
    destruct (Db.getConversation (String c r) (db w)) as [[conversation rows]|];
      [|intros [= <- <-]; left; eauto].
    destruct (negb (String.eqb (Db.c_agent_id conversation) (a_id agent)));
      [intros [= <- <-]; left; eauto|].
    intros Hrun. apply (Hturn _ _ _ eq_refl) in Hrun.
    destruct out as [written|[err written]]; [|done].
    destruct Hrun as (answer & model & u & a & Hrest). right.
    by exists (String c r), answer, model, u, a. }
  destruct (Server.stream_try uuid_generate_v4 env false agent req text w)
    as [[written|[err written]] w1] eqn:Htry.
  - intros [= <- <-]. destruct (Hcases _ eq_refl) as [Herror|Hanswer]; [by left|].
    destruct Hanswer as (convId & answer & model & u & a & Hrest).
    right. by exists text, answer, convId, model, u, a.
  - intros [= <- <-]. rewrite (Hcases (Threw (err, written)) eq_refl). left. simpl. eauto.
Qed.

End ReplyProps.
End ReplyProps.

(** * Examples for the further code *)

Module MoreExamples.
Import Sample MoreSamples DbMore MoreStatements.

(** ** Facts about the sample data *)

Lemma chat_store_conversations : Db.conversations chat_store = {[ "id-0" := chat_row ]}.
Proof. vm_compute. reflexivity. Qed.

Lemma chat_store_no_orphans : no_orphans chat_store.
Proof.
  intros m Hm. rewrite chat_store_conversations.
  assert (Hid : Db.m_conversation_id m = "id-0").
  { change (Db.messages chat_store)
      with [ {| Db.m_id := "id-1"; Db.m_conversation_id := "id-0"; Db.m_role := "user";
                Db.m_content := "hello"; Db.m_created_at := 1 |};
             {| Db.m_id := "id-2"; Db.m_conversation_id := "id-0";
                Db.m_role := "assistant"; Db.m_content := "hi"; Db.m_created_at := 3 |} ]
      in Hm.
    apply elem_of_cons in Hm as [->|Hm]; [done|].
    by apply list_elem_of_singleton in Hm as ->. }
  rewrite Hid, lookup_singleton_eq. eauto.
Qed.

Lemma chat_store_keyed_by_id : keyed_by_id chat_store.
Proof.
  intros k c. rewrite chat_store_conversations.
  intros Hkc. by apply lookup_singleton_Some in Hkc as [<- <-].
Qed.

Lemma chat_store_timely : timely chat_store.
Proof.
  intros k c. rewrite chat_store_conversations.
  intros Hkc. apply lookup_singleton_Some in Hkc as [<- <-]. vm_compute. lia.
Qed.

Lemma no_memory_keyed : keyed no_memory.
Proof. intros k r Hkr. unfold no_memory in Hkr. simpl in Hkr. by rewrite lookup_empty in Hkr. Qed.

Lemma notes_keyed : keyed notes.
Proof. apply MemoryProps.upsertAgentMemory_keyed, no_memory_keyed. Qed.

Lemma by_label_total : Total by_label.
Proof. intros a b. apply String.leb_total. Qed.

Lemma configured_fitting : fitting configured.
Proof.
  intros entry Hentry. apply list_elem_of_singleton in Hentry as ->.
  split; [simpl; lia|].
  intros block label Hblock Hlabel. simpl in Hblock.
  repeat (apply elem_of_cons in Hblock as [->|Hblock];
          [simpl in Hlabel; simplify_eq; simpl; lia|]).
  by apply elem_of_nil in Hblock.
Qed.

(** ** The database *)

(** Deleting the only conversation of the sample store leaves a store
    without messages. *)
Lemma writes_keep_integrity_witness :
  no_orphans chat_store /\
  no_orphans (deleteConversation "id-0" chat_store).2 /\
  Db.messages (deleteConversation "id-0" chat_store).2 = [].
Proof.
  split; [exact chat_store_no_orphans|].
  split; [|vm_compute; reflexivity].
  apply (DbProps.writes_keep_integrity uuid chat_store "helper" "again" "id-0" "user" "more"
           chat_store_no_orphans).
Defined.

Lemma deleteConversation_cascades_witness :
  is_Some (Db.conversations chat_store !! "id-0") /\
  (deleteConversation "id-0" chat_store).1 = true /\
  Db.getConversation "id-0" (deleteConversation "id-0" chat_store).2 = None /\
  Db.getMessages "id-0" 100 (deleteConversation "id-0" chat_store).2 = [].
Proof.
  assert (Hstored : is_Some (Db.conversations chat_store !! "id-0")).
  { rewrite chat_store_conversations, lookup_singleton_eq. eauto. }
  split; [exact Hstored|].
  destruct (DbProps.deleteConversation_cascades "id-0" 100 chat_store Hstored)
    as (Hresult & Hgone & Hempty & _).
  split; [exact Hresult|]. split; [exact Hgone|exact Hempty].
Defined.

Lemma createConversation_lookup_witness :
  exists row st',
    Db.createConversation uuid "helper" "again" chat_store = (Returned row, st') /\
    Db.getConversation (Db.c_id row) st' = Some (row, []) /\
    Db.c_agent_id row = "helper" /\
    Db.c_title row = Some "again".
Proof.
  destruct (Db.createConversation uuid "helper" "again" chat_store)
    as [[row|err] st'] eqn:Hrun; [|vm_compute in Hrun; discriminate Hrun].
  exists row, st'. split; [reflexivity|].
  destruct (DbProps.createConversation_lookup uuid "helper" "again" chat_store st' row
              chat_store_no_orphans ltac:(simpl; lia) ltac:(simpl; lia) Hrun)
    as (Hfound & Howner & Htitle & _).
  split; [exact Hfound|]. split; [exact Howner|exact Htitle].
Defined.

(** With a limit of two the message added to the two stored ones is not
    returned. *)
Lemma getMessages_after_addMessage_witness :
  exists row st',
    Db.addMessage uuid "id-0" "user" "more" chat_store = (Returned row, st') /\
    Db.getMessages "id-0" 2 st' = Db.getMessages "id-0" 2 chat_store /\
    Db.getMessages "id-0" 50 st' = (log_of "id-0" chat_store ++ [row])%list.
Proof.
  destruct (Db.addMessage uuid "id-0" "user" "more" chat_store)
    as [[row|err] st'] eqn:Hrun; [|vm_compute in Hrun; discriminate Hrun].
  exists row, st'. split; [reflexivity|].
  split.
  - destruct (DbProps.getMessages_after_addMessage uuid "id-0" "user" "more" 2
                chat_store st' row Hrun) as (_ & _ & Hfull).
    apply Hfull. vm_compute. lia.
  - destruct (DbProps.getMessages_after_addMessage uuid "id-0" "user" "more" 50
                chat_store st' row Hrun) as (_ & Hshort & _).
    apply Hshort. vm_compute. lia.
Defined.

Lemma listConversations_after_addMessage_witness :
  exists row st' s,
    Db.addMessage uuid "id-0" "user" "more" chat_store = (Returned row, st') /\
    head (listConversations "helper" st') = Some s /\
    s_last_message s = Some "more" /\
    s_message_count s = 3.
Proof.
  destruct (Db.addMessage uuid "id-0" "user" "more" chat_store)
    as [[row|err] st'] eqn:Hrun; [|vm_compute in Hrun; discriminate Hrun].
  assert (Hconv : Db.conversations chat_store !! "id-0" = Some chat_row).
  { by rewrite chat_store_conversations, lookup_singleton_eq. }
  destruct (DbProps.listConversations_after_addMessage uuid "id-0" "user" "more"
              chat_store st' row chat_row chat_store_timely chat_store_keyed_by_id
              Hconv Hrun)
    as (s & Hhead & _ & _ & Hlast & Hcount).
  exists row, st', s. split; [reflexivity|]. split; [exact Hhead|].
  split; [exact Hlast|exact Hcount].
Defined.

(** ** The agent memory *)

Lemma getAgentMemory_distinct_sorted_witness :
  Total by_label /\ keyed notes /\
  NoDup (mem_label <$> getAgentMemory by_label "helper" notes) /\
  keyed (upsertAgentMemory uuid "helper" "human" "unknown" notes).2.
Proof.
  split; [exact by_label_total|]. split; [exact notes_keyed|].
  destruct (MemoryProps.getAgentMemory_distinct_sorted uuid by_label "helper" notes
              by_label_total notes_keyed)
    as (Hupsert & _ & _ & Hdistinct & _).
  split; [exact Hdistinct|apply Hupsert].
Defined.

(** Overwriting the block [persona]: the new row keeps the id and is the
    only block of the agent. *)
Lemma upsertAgentMemory_then_get_witness :
  exists row ms',
    upsertAgentMemory uuid "helper" "persona" "stern" notes = (Returned row, ms') /\
    mem_value row = "stern" /\
    row ∈ getAgentMemory by_label "helper" ms' /\
    mem_id row = "id-0".
Proof.
  destruct (MemoryProps.upsertAgentMemory_then_get uuid by_label
              "helper" "persona" "stern" notes notes_keyed
              ltac:(simpl; lia) ltac:(simpl; lia))
    as (row & ms' & Hrun & _ & _ & Hvalue & _ & _ & Hmembers & _).
  exists row, ms'. split; [exact Hrun|]. split; [exact Hvalue|].
  split; [apply Hmembers; by left|].
  vm_compute in Hrun. by injection Hrun as <- _.
Defined.

Lemma deleteAgentMemory_then_get_witness :
  keyed notes /\
  (deleteAgentMemory "helper" "persona" notes).1 = true /\
  forall r, r ∉ getAgentMemory by_label "helper"
                  (deleteAgentMemory "helper" "persona" notes).2.
Proof.
  split; [exact notes_keyed|]. split; [vm_compute; reflexivity|].
  destruct (MemoryProps.deleteAgentMemory_then_get by_label "helper" "persona" notes
              notes_keyed) as (_ & Hrest & _).
  intros r Hr. apply Hrest in Hr as [Hr Hne].
  apply MemoryProps.getAgentMemory_lookup in Hr as [_ Hr]; [|exact notes_keyed].
  apply Hne.
  pose proof (notes_keyed _ _ Hr) as Hkey.
  destruct (decide (mem_label r = "persona")) as [|Hother]; [done|].
  exfalso. revert Hr.
  change (blocks notes) with (blocks (upsertAgentMemory uuid "helper" "persona" "kind" no_memory).2).
  unfold upsertAgentMemory, no_memory. simpl.
  rewrite lookup_insert_ne by congruence. by rewrite lookup_empty.
Defined.

(** Of the three configured blocks one exists, one is created and one has
    no value. *)
Lemma initAgentMemory_only_adds_witness :
  keyed notes /\ fitting configured /\
  (ServerMore.initAgentMemory uuid by_label configured notes).1 = 1 /\
  size (blocks (ServerMore.initAgentMemory uuid by_label configured notes).2) = 2.
Proof.
  split; [exact notes_keyed|]. split; [exact configured_fitting|].
  split; [vm_compute; reflexivity|].
  destruct (InitProps.initAgentMemory_only_adds uuid by_label configured notes
              notes_keyed configured_fitting) as (_ & Hsize & _).
  rewrite Hsize. vm_compute. reflexivity.
Defined.

Lemma initAgentMemory_idempotent_witness :
  (ServerMore.initAgentMemory uuid by_label configured
     (ServerMore.initAgentMemory uuid by_label configured notes).2).1 = 0.
Proof.
  rewrite (InitProps.initAgentMemory_idempotent uuid by_label configured notes
             notes_keyed configured_fitting).
  reflexivity.
Defined.

(** ** The start-up wait *)

(** The third request is the first that is answered: two sleeps. *)
Lemma waitForOllama_outcome_witness :
  @OllamaMore.waitForOllama slow_start 15 3000 0 = (true, schedule 2 3000, 3).
Proof.
  apply (proj1 (@WaitProps.waitForOllama_outcome slow_start 15 3000 0) 2 (Some [])).
  - lia.
  - intros i Hi. exists "connect ECONNREFUSED".
    destruct i as [|[|i]]; [reflexivity|reflexivity|lia].
  - reflexivity.
Defined.

Lemma waitForOllama_delays_witness :
  (0 <= 3000)%Q /\ (3000 <= 15000)%Q /\
  length (@OllamaMore.waitForOllama slow_start 15 3000 0).1.2 <= 15 /\
  Sorted Qle (@OllamaMore.waitForOllama slow_start 15 3000 0).1.2.
Proof.
  assert (Hlow : (0 <= 3000)%Q) by (vm_compute; discriminate).
  assert (Hhigh : (3000 <= 15000)%Q) by (vm_compute; discriminate).
  split; [exact Hlow|]. split; [exact Hhigh|].
  destruct (@WaitProps.waitForOllama_delays slow_start 15 3000 0 Hlow Hhigh)
    as (Hcount & _ & _ & _ & Hsorted).
  split; [exact Hcount|exact Hsorted].
Defined.

(** ** The tools *)

Lemma offered_tools_run_witness :
  @ToolExecutor.executeTool json services get_file "ghp_token" ""
  = print (JObj [("repos", JArr [])]).
Proof.
  destruct (@ToolProps.offered_tools_run json services "ghp_token" "" get_file
              [("repo", JStr "octo/cat"); ("path", JStr "README.md")])
    as [(props & Hprops & _ & Hrun)|(props & _ & Hkey & _)].
  - apply (list_elem_of_lookup_2 _ 2). reflexivity.
  - reflexivity.
  - rewrite Hrun. vm_compute in Hprops. injection Hprops as <-. vm_compute. reflexivity.
  - vm_compute in Hkey. discriminate Hkey.
Defined.

(** Two requests: the second carries the caller's two messages, the
    assistant's tool request and the tool output. *)
Lemma chatWithTools_requests_witness :
  let run := @ToolExecutor.chatWithTools json services runtime "glm4" 1%positive
               Github.tools [] "ghp_token" "" 10 start in
  exists posts,
    trace run.2 = Entered "chatWithTools" :: (Posted <$> posts) /\
    length posts <= 10 /\
    (forall p, head posts = Some p -> p_messages p = caller_messages).
Proof.
  intros run.
  destruct (@RoundProps.chatWithTools_requests json services runtime "glm4" 1%positive
              Github.tools [] "ghp_token" "" 10 start run.2 run.1)
    as (posts & Htrace & Hlen & Hhead & _).
  - apply surjective_pairing.
  - exists posts. split; [exact Htrace|]. split; [exact Hlen|exact Hhead].
Defined.

Lemma chatWithTools_accounting_witness :
  let run := @ToolExecutor.chatWithTools json services runtime "glm4" 1%positive
               Github.tools [] "ghp_token" "" 10 start in
  exists result,
    run.1 = Returned result /\
    ToolExecutor.r_iterations result = 2 /\
    model_calls run.2 = 2 /\
    length (ToolExecutor.r_toolResults result) = 1.
Proof.
  intros run. subst run.
  destruct (@ToolExecutor.chatWithTools json services runtime "glm4" 1%positive
              Github.tools [] "ghp_token" "" 10 start)
    as [[result|err] w'] eqn:Hrun; [|vm_compute in Hrun; discriminate Hrun].
  exists result. split; [reflexivity|].
  assert (Hiterations : ToolExecutor.r_iterations result = 2).
  { vm_compute in Hrun. by injection Hrun as <- _. }
  destruct (@RoundProps.chatWithTools_accounting json services runtime "glm4" 1%positive
              Github.tools [] "ghp_token" "" 10 start w' result Hrun)
    as (posts & _ & _ & Hcalls & _ & Hresults & _).
  split; [exact Hiterations|]. split; [simpl; rewrite Hcalls, Hiterations; reflexivity|].
  vm_compute in Hrun. by injection Hrun as <- _.
Defined.

(** ** The chat handlers *)

Lemma chat_stores_the_turn_witness :
  let run := @Server.chat json services runtime uuid github_env Sample.registry
               follow_up chat_world in
  exists u a,
    log_of "id-0" (db run.2) = (log_of "id-0" chat_store ++ [u; a])%list /\
    Db.m_content u = "and now?" /\
    Db.m_content a = "You have no repositories.".
Proof.
  intros run.
  destruct (@TurnProps.chat_stores_the_turn json services runtime uuid github_env
              Sample.registry follow_up chat_world run.2
              "You have no repositories." "id-0" "helper" "glm4"
              (Some [("call_1", print (JObj [("repos", JArr [])]))])
              (Some (JNum 12)) (Some (JNum 3)))
    as (text & u & a & agent & Htext & _ & _ & Hlog & _ & Hu & _ & Ha & _).
  - vm_compute. reflexivity.
  - exists u, a. split; [exact Hlog|]. split; [|exact Ha].
    rewrite Hu. injection Htext as <-. vm_compute. reflexivity.
Defined.

(** The runtime refuses the connection.  Without tools the answer is 503;
    with a GitHub token in the environment it is 500. *)
Lemma unreachable_runtime_witness :
  (@Server.chat json services dead_runtime uuid no_env Sample.registry
     follow_up chat_world).1
  = Json 503 (ErrorBody "Ollama ist nicht erreichbar. Bitte spaeter erneut versuchen."
       (Some "Ollama connection error: connect ECONNREFUSED 127.0.0.1:11434")) /\
  (@Server.chat json services dead_runtime uuid github_env Sample.registry
     follow_up chat_world).1
  = Json 500 (ErrorBody "Chat-Anfrage fehlgeschlagen"
       (Some "connect ECONNREFUSED 127.0.0.1:11434")).
Proof.
  assert (Hconv : Db.conversations (db chat_world) !! "id-0" = Some chat_row).
  { simpl. by rewrite chat_store_conversations, lookup_singleton_eq. }
  split.
  - destruct (@TurnProps.unreachable_runtime json services dead_runtime uuid no_env
                Sample.registry follow_up chat_world helper " and now? " "id-0"
                "connect ECONNREFUSED 127.0.0.1:11434" chat_row
                eq_refl eq_refl eq_refl ltac:(discriminate) Hconv eq_refl
                (fun _ => eq_refl))
      as (Hplain & _).
    apply Hplain. reflexivity.
  - destruct (@TurnProps.unreachable_runtime json services dead_runtime uuid github_env
                Sample.registry follow_up chat_world helper " and now? " "id-0"
                "connect ECONNREFUSED 127.0.0.1:11434" chat_row
                eq_refl eq_refl eq_refl ltac:(discriminate) Hconv eq_refl
                (fun _ => eq_refl))
      as (_ & _ & Htools & _).
    apply Htools; [discriminate|reflexivity].
Defined.

Lemma history_window_witness :
  exists payload,
    trace (@ServerBasic.chat runtime uuid no_env Sample.registry follow_up chat_world).2
    = [Entered "chat"; Posted payload] /\
    length (p_messages payload) = 4 /\
    (content <$> last (p_messages payload)) = Some (Some "and now?").
Proof.
  assert (Hconv : Db.conversations (db chat_world) !! "id-0" = Some chat_row).
  { simpl. by rewrite chat_store_conversations, lookup_singleton_eq. }
  destruct (@TurnProps.history_window runtime uuid no_env Sample.registry follow_up
              chat_world helper " and now? " "id-0" chat_row
              eq_refl eq_refl eq_refl ltac:(discriminate) Hconv eq_refl)
    as (payload & u & Htrace & _ & Hu & Hmessages & Hlast & _).
  exists payload. split; [exact Htrace|].
  split.
  - rewrite Hmessages. simpl. rewrite length_map, length_take, length_app.
    vm_compute. reflexivity.
  - rewrite Hlast by (vm_compute; lia). simpl. rewrite Hu. vm_compute. reflexivity.
Defined.

(** ** The answers *)


(** Without [chatStream] the answer comes as one event. *)
Lemma stream_fallback_witness :
  let run := @Server.chat_stream json runtime uuid no_env Sample.registry false
               follow_up chat_world in
  exists answer u a,
    run.1 = EventStream [SseChunk answer true (Some "id-0") (Some "glm4")] /\
    log_of "id-0" (db run.2) = (log_of "id-0" chat_store ++ [u; a])%list /\
    Db.m_content u = "and now?" /\
    Db.m_content a = answer.
Proof.
  intros run.
  destruct (@ReplyProps.stream_fallback json runtime uuid no_env Sample.registry
              follow_up chat_world run.2
              [SseChunk "" true (Some "id-0") (Some "glm4")])
    as [(error & details & Herror)
       |(text & answer & convId & model & u & a & Htext & Hevents & Hlog & _ & Hu & _ & Ha)].
  - vm_compute. reflexivity.
  - discriminate Herror.
  - injection Hevents as <- <- <-. injection Htext as <-.
    exists "", u, a. split; [vm_compute; reflexivity|]. split; [exact Hlog|].
    split; [rewrite Hu; vm_compute; reflexivity|exact Ha].
Defined.

(** ** The listing of conversations and the registry *)

Lemma shared_store_keyed_by_id : keyed_by_id shared_store.
Proof.
  intros k c Hkc.
  assert (Hall : map_Forall (fun k c => Db.c_id c = k) (Db.conversations shared_store)).
  { apply map_Forall_to_list. vm_compute. repeat constructor. }
  exact (Hall k c Hkc).
Qed.

(** [helper] has two of the three conversations of [shared_store]; they
    are listed once each, the newer one first. *)
Lemma listConversations_lists_witness :
  NoDup ((fun s => Db.c_id (s_conversation s)) <$> listConversations "helper" shared_store) /\
  (fun s => (Db.c_id (s_conversation s), s_message_count s))
    <$> listConversations "helper" shared_store = [("id-3", 0); ("id-0", 2)].
Proof.
  destruct (DbProps.listConversations_lists "helper" shared_store)
    as (_ & Hnodup & _ & _).
  split; [exact (Hnodup shared_store_keyed_by_id)|].
  vm_compute. reflexivity.
Defined.

(** Of the four [.json] files two are loaded; the entry of [helper] is the
    one of the later file. *)
Lemma loadAgents_registry_witness :
  let result := ServerMore.loadAgents (Some agent_files) ∅ in
  ServerMore.loaded result = 2 /\ ServerMore.skipped result = 2 /\
  (ServerMore.e_name <$> ServerMore.registry result !! "helper") = Some "second" /\
  (ServerMore.e_sourceFile <$> ServerMore.registry result !! "helper") = Some "b.json".
Proof.
  intros result.
  destruct (RegistryProps.loadAgents_registry agent_files ∅)
    as (Hcount & Hloaded & _ & Hregistry).
  fold result in Hcount, Hloaded, Hregistry.
  assert (Htwo : ServerMore.loaded result = 2) by (rewrite Hloaded; vm_compute; reflexivity).
  split; [exact Htwo|]. split.
  { rewrite Htwo in Hcount. set (n := length _) in Hcount.
    assert (n = 4) by (vm_compute; reflexivity). lia. }
  rewrite (Hregistry "helper"). split; vm_compute; reflexivity.
Defined.

(** ** The two readings of a response *)

(** The run against [runtime], one tool call and then the answer, has the
    same outcome on the typed data and on the JSON. *)
Lemma chatWithTools_of_data_witness :
  Untyped.outcome
    (@Untyped.chatWithTools json services received_runtime numbers "glm4"
       (Shaped.of_message <$> elements_of 1%positive start) Github.tools []
       "ghp_token" "" 10)
  = Shaped.of_outcome Shaped.of_result
      (@ToolExecutor.chatWithTools json services runtime "glm4" 1%positive Github.tools []
         "ghp_token" "" 10 start).1.
Proof.
  destruct (@ShapeProps.chatWithTools_of_data json services runtime received_runtime
              numbers "glm4" Github.tools [] "ghp_token" "" 1%positive 10 start)
    as (Hout & _).
  - intros n payload. by destruct n.
  - exact Hout.
Defined.

(** ** The memory routes *)

Lemma post_memory_then_get_witness :
  exists ms' after,
    ServerMore.post_memory uuid Sample.registry "helper"
      (Some (JStr "persona")) (Some (JStr "stern")) notes
    = (ServerMore.Block "helper" "persona" "stern" 1, ms') /\
    ServerMore.get_memory by_label Sample.registry "helper" ms'
    = ServerMore.Blocks "helper" after /\
    ("persona", "stern", 1) ∈ after.
Proof.
  destruct (MemoryRouteProps.post_memory_then_get uuid by_label Sample.registry
              "helper" "persona" "stern" helper notes notes_keyed eq_refl
              ltac:(simpl; lia) ltac:(simpl; lia) ltac:(discriminate) ltac:(discriminate))
    as (ms' & before & after & Hpost & _ & Hget & Hentries).
  exists ms', after. split; [exact Hpost|]. split; [exact Hget|].
  apply Hentries. left. done.
Defined.

End MoreExamples.
